(** * Storefront scripts: FBT widget, review panel, gallery mounter

    A shallow embedding of the three browser scripts of the web application
    (fbt_widget.js, the review panel script, zoom.js) and the properties
    their specification states about them.

    Conventions of the embedding.
    - A JavaScript number is an IEEE 754 binary64 value, taken from the
      Standard Library's [SpecFloat] with precision 53 and maximal
      exponent 1024: sums round to nearest, ties to even, as the
      language's [+] does.
    - A DOM element is a record of the properties the scripts read or
      write; a missing element ([null]) is [None].
    - [fetch] is answered by the environment: a promise that rejects
      ([NetworkError]) or resolves to a response. *)

From Stdlib Require Import ZArith List String Ascii Bool Lia.
From Stdlib Require Import DecimalString SpecFloat.
Import ListNotations.

Local Open Scope Z_scope.
Local Open Scope string_scope.
Local Open Scope list_scope.

(** ** JavaScript values *)

Module Js.

(** Numbers: the doubles. *)
Definition num : Type := spec_float.

Definition NaN : num := S754_nan.

(** The double of an integer: the integer itself below 2^53, the nearest
    double beyond. *)
Definition Fin (z : Z) : num := binary_normalize 53 1024 z 0 false.

(** The values a field of a parsed JSON object can hold; [JUndefined] is
    the value read from a field that is missing.  An object or an array
    is given by the text its conversion to a primitive yields. *)
Inductive value : Type :=
| JUndefined
| JNull
| JBool (b : bool)
| JNum (n : num)
| JStr (s : string)
| JObj (text : string).

(** SameValueZero, the comparison of [Array.prototype.includes]:
    [NaN] equals [NaN], and the two zeros are equal. *)
Definition sameValueZero (a b : num) : bool :=
  match a, b with
  | S754_nan, S754_nan => true
  | _, _ => SFeqb a b
  end.

(** [a + b] on numbers. *)
Definition add (a b : num) : num := SFadd 53 1024 a b.

(** [a > b] on numbers: false as soon as one side is [NaN]. *)
Definition gt (a b : num) : bool := SFltb b a.

(** ToBoolean. *)
Definition truthy (v : value) : bool :=
  match v with
  | JUndefined | JNull => false
  | JBool b => b
  | JNum (S754_nan | S754_zero _) => false
  | JNum _ => true
  | JStr s => negb (String.eqb s "")
  | JObj _ => true
  end.

(** [v || d]. *)
Definition or_else (v d : value) : value :=
  if truthy v then v else d.

Section ToNumber.

(** StringToNumber of ECMAScript, the numeric reading of a string, is
    taken as given. *)
Variable StringToNumber : string -> num.

(** [Number(v)]. *)
Definition Number (v : value) : num :=
  match v with
  | JUndefined => NaN
  | JNull => Fin 0
  | JBool b => Fin (if b then 1 else 0)
  | JNum n => n
  | JStr s => StringToNumber s
  | JObj text => StringToNumber text
  end.

End ToNumber.

(** The number an attribute written from [n] reads back as: the text of
    a double denotes that double again, save for the negative zero,
    whose text is [0]. *)
Definition reread (n : num) : num :=
  match n with
  | S754_zero _ => S754_zero false
  | _ => n
  end.

(** [Math.round]: the nearest integer, a tie going up; a result of zero
    keeps the sign of the argument. *)
Definition Math_round (n : num) : num :=
  match n with
  | S754_finite s m e =>
      if Z.leb 0 e then n
      else
        let k := Z.pow 2 (- e) in
        let sm := if s then Z.neg m else Z.pos m in
        let r := Z.div (2 * sm + k) (2 * k) in
        if Z.eqb r 0 then S754_zero s else Fin r
  | _ => n
  end.

(** Digit grouping of the en-IN locale: the last three digits, then
    groups of two.  Works on the reversed digit list. *)
Fixpoint group_pairs (rev_digits : list ascii) : list ascii :=
  match rev_digits with
  | a :: b :: ((_ :: _) as rest) => a :: b :: ","%char :: group_pairs rest
  | l => l
  end.

Definition group_en_IN (digits : list ascii) : list ascii :=
  match rev digits with
  | a :: b :: c :: ((_ :: _) as rest) =>
      rev (a :: b :: c :: ","%char :: group_pairs rest)
  | _ => digits
  end.

Definition digits_of_N (n : N) : list ascii :=
  list_ascii_of_string (NilZero.string_of_uint (N.to_uint n)).

(** The integer a finite double with no fraction stands for (the
    fraction is cut off otherwise). *)
Definition integral (m : positive) (e : Z) : Z :=
  if Z.leb 0 e then Z.pos m * Z.pow 2 e else Z.div (Z.pos m) (Z.pow 2 (- e)).

(** [n.toLocaleString('en-IN')] for what [Math.round] returns: an
    integral number, an infinity or [NaN]. *)
Definition toLocaleString_en_IN (n : num) : string :=
  match n with
  | S754_nan => "NaN"
  | S754_infinity s => if s then "-∞" else "∞"
  | S754_zero s => if s then "-0" else "0"
  | S754_finite s m e =>
      let body :=
        string_of_list_ascii (group_en_IN (digits_of_N (Z.to_N (integral m e)))) in
      if s then "-" ++ body else body
  end.

(** [s.startsWith(p)], on the characters. *)
Fixpoint starts_with (p s : list ascii) : bool :=
  match p, s with
  | [], _ => true
  | _ :: _, [] => false
  | a :: p', b :: s' => Ascii.eqb a b && starts_with p' s'
  end.

(** [s.split(sep)] for a separator that is not empty, on the characters,
    left to right: [cur] is the part read so far, [skip] the number of
    characters of a separator just met that are still to be passed
    over. *)
Fixpoint split_chars (sep cur s : list ascii) (skip : nat) : list (list ascii) :=
  match s with
  | [] => [cur]
  | c :: t =>
      match skip with
      | S k => split_chars sep cur t k
      | O =>
          if starts_with sep s
          then cur :: split_chars sep [] t (Nat.pred (List.length sep))
          else split_chars sep (cur ++ [c]) t 0
      end
  end.

Definition str_split (sep s : string) : list string :=
  map string_of_list_ascii
      (split_chars (list_ascii_of_string sep) [] (list_ascii_of_string s) 0).

End Js.

(** ** The network, as the scripts see it *)

Module Net.

(** What a script passes to [fetch]. *)
Inductive body : Type :=
| NoBody
| FormData                                    (* new FormData(form) *)
| JsonLines (lines : list (Js.num * Z)).      (* JSON.stringify({ lines }) *)

Record request : Type := {
  method : string;
  url : string;
  headers : list (string * string);
  req_body : body
}.

End Net.

(** ** Bundle (FBT) widget: fbt_widget.js *)

Module Fbt.
Import Js.

(** An entry of [payload.items] that is not [null].  The title, image and
    link fields only feed the row markup and are left out; an entry that
    is a number, a string or a boolean reads like an object with no
    field. *)
Record item : Type := {
  variant_id : value;
  price : value;
  compare_at_price : value;
  _isMain : value
}.

(** An element of the [items] array. *)
Inductive entry : Type :=
| Null
| Entry (it : item).

(** A rendered [input.fbt-check].  [vid] is the number its [data-vid]
    attribute denotes: the attribute holds the text of
    [Number(it.variant_id)] and the script reads it back with [Number]. *)
Record checkbox : Type := {
  vid : num;
  checked : bool
}.

(** The widget root before the script runs: its attributes, its inline
    [display] and the five optional skeleton anchors. *)
Record root_el : Type := {
  data_source_variant : option string;
  data_api_fbt : option string;
  data_cart_batch : option string;
  display : string;
  itemsWrap : option (list checkbox);   (* #fbtItems, with the boxes below it *)
  totalsWrap : option string;           (* #fbtTotals: style.display *)
  saleEl : option string;               (* #fbtTotalSale: textContent *)
  compEl : option string;               (* #fbtTotalCompare: textContent *)
  addBtn : option bool;                 (* #fbtAddBtn: disabled *)
  addBtn_in_form : bool                 (* #fbtAddBtn is a submit button of a form *)
}.

(** The document the script starts from. *)
Record document : Type := {
  root : option root_el;                (* [data-fbt-root] *)
  url_variant : option string;          (* ?variant= of location.href *)
  csrf_input : option string;           (* [name=csrfmiddlewaretoken].value *)
  location : string                     (* window.location.href *)
}.

(** What [res.json()] of the FBT endpoint can yield: [null], or a value
    whose [items] is an array ([Some]) or anything else ([None]); a body
    that is a number, a string or a boolean has no [items]. *)
Record payload : Type := { items : option (list entry) }.

Inductive body : Type :=
| NullBody
| Body (pl : payload).

Record response : Type := {
  ok : bool;
  json : option body                    (* None: res.json() rejects *)
}.

Inductive fetch_outcome : Type :=
| NetworkError
| Resolved (r : response).

(** The widget once rendered: the variables the listeners close over and
    the elements they hold. *)
Record widget : Type := {
  all : list item;
  cartBatch : string;
  root_display : string;
  rows : list checkbox;                 (* qsa('.fbt-check', root), DOM order *)
  w_totalsWrap : option string;
  w_saleEl : string;
  w_compEl : string;
  addBtn_disabled : bool;
  addBtn_submits : bool                 (* the button is a submit button of a form *)
}.

(** State of the page while the widget is live. *)
Record page : Type := {
  w : widget;
  href : string;                        (* what the script assigned to location.href *)
  csrf_value : option string;           (* [name=csrfmiddlewaretoken].value, as it is now *)
  sent : list Net.request;
  form_submits : nat                    (* forms submitted by the default action of a click *)
}.

(** How the DOMContentLoaded handler ends.  [Threw] is a TypeError raised
    after the [try] block: the root is left as it was. *)
Inductive outcome : Type :=
| NoRoot
| Hidden (r : root_el) (sent : list Net.request)
| Threw (r : root_el) (sent : list Net.request)
| Mounted (p : page).

(** [a || d] for an attribute or field that is a string or missing. *)
Definition str_or (a : option string) (d : string) : string :=
  match a with
  | Some s => if String.eqb s "" then d else s
  | None => d
  end.

Definition hide (r : root_el) : root_el :=
  {| data_source_variant := data_source_variant r;
     data_api_fbt := data_api_fbt r;
     data_cart_batch := data_cart_batch r;
     display := "none";
     itemsWrap := itemsWrap r;
     totalsWrap := totalsWrap r;
     saleEl := saleEl r;
     compEl := compEl r;
     addBtn := addBtn r;
     addBtn_in_form := addBtn_in_form r |}.

(** [show(el)] on an element that may be missing. *)
Definition show (el : option string) : option string :=
  option_map (fun _ => "") el.

Definition getVariantId (d : document) (r : root_el) : string :=
  str_or (data_source_variant r) (str_or (url_variant d) "").

Definition getApiFbt (r : root_el) : string := str_or (data_api_fbt r) "/api/fbt/".
Definition getCartBatch (r : root_el) : string :=
  str_or (data_cart_batch r) "/cart/batch-add/".

Definition csrf (v : option string) : string := str_or v "".

(** [Array.isArray(payload.items) ? payload.items : []]. *)
Definition items_array (pl : payload) : list entry :=
  match items pl with
  | Some a => a
  | None => []
  end.

(** The entries as objects, when none of them is [null]: reading
    [x._isMain] of a [null] entry throws. *)
Fixpoint objects (l : list entry) : option (list item) :=
  match l with
  | [] => Some []
  | Null :: _ => None
  | Entry it :: t => option_map (cons it) (objects t)
  end.

(** [arr.includes(x)]. *)
Definition includes (arr : list num) (x : num) : bool :=
  existsb (fun v => sameValueZero v x) arr.

Section Widget.

Variable StringToNumber : string -> num.
Variable encodeURIComponent : string -> string.

#[local] Abbreviation Number := (Js.Number StringToNumber).

Definition zero : value := JNum (Fin 0).

(** [inr(n)]: rupee sign, rounded amount, en-IN grouping. *)
Definition inr (n : value) : string :=
  "₹" ++ toLocaleString_en_IN (Math_round (Number (or_else n zero))).

(** The checkbox of [rowHTML(it)]: checked, tagged with the variant id. *)
Definition rowHTML (it : item) : checkbox :=
  {| vid := reread (Number (variant_id it)); checked := true |}.

Definition linked (l : list item) : list item :=
  filter (fun x => negb (truthy (_isMain x))) l.

Definition hasLinked (l : list item) : bool :=
  if negb (Nat.eqb (List.length (linked l)) 0) then true
  else Nat.ltb 0 (List.length l) && negb (existsb (fun x => truthy (_isMain x)) l).

Definition checked_vids (cs : list checkbox) : list num :=
  map vid (filter checked cs).

Definition picked (l : list item) (vids : list num) : list item :=
  filter (fun r => includes vids (Number (variant_id r))) l.

Definition sumSale (l : list item) : num :=
  fold_left (fun a b => add a (Number (or_else (price b) zero))) l (Fin 0).

Definition sumComp (l : list item) : num :=
  fold_left (fun a b => add a (Number (or_else (compare_at_price b) zero))) l (Fin 0).

Definition recompute (x : widget) : widget :=
  let vids := checked_vids (rows x) in
  let pk := picked (all x) vids in
  let sale := sumSale pk in
  let comp := sumComp pk in
  {| all := all x;
     cartBatch := cartBatch x;
     root_display := root_display x;
     rows := rows x;
     w_totalsWrap := show (w_totalsWrap x);
     w_saleEl := inr (JNum sale);
     w_compEl := if gt comp sale then inr (JNum comp) else "";
     addBtn_disabled := Nat.eqb (List.length vids) 0;
     addBtn_submits := addBtn_submits x |}.

(** The box of [renderBox(rows)]: fresh total elements and a button with
    no [type], so a submit button, inside the form of the box; no
    [#fbtTotals]. *)
Definition renderBox (r : root_el) (l : list item) : widget :=
  {| all := l;
     cartBatch := getCartBatch r;
     root_display := display r;
     rows := map rowHTML l;
     w_totalsWrap := None;
     w_saleEl := "";
     w_compEl := "";
     addBtn_disabled := false;
     addBtn_submits := true |}.

(** Rows filled into a skeleton whose five anchors are all present.  The
    skeleton is taken to hold no [.fbt-check] of its own outside
    [#fbtItems], so the boxes below the root are those of the rows. *)
Definition fillSkeleton (r : root_el) (l : list item)
    (totals sale comp : string) (btn : bool) : widget :=
  {| all := l;
     cartBatch := getCartBatch r;
     root_display := display r;
     rows := map rowHTML l;
     w_totalsWrap := Some totals;
     w_saleEl := sale;
     w_compEl := comp;
     addBtn_disabled := btn;
     addBtn_submits := addBtn_in_form r |}.

Definition render (r : root_el) (l : list item) : widget :=
  match itemsWrap r, saleEl r, compEl r, addBtn r, totalsWrap r with
  | Some _, Some sale, Some comp, Some btn, Some totals =>
      fillSkeleton r l totals sale comp btn
  | _, _, _, _, _ => renderBox r l
  end.

Definition fbtRequest (r : root_el) (variantId : string) : Net.request :=
  {| Net.method := "GET";
     Net.url := getApiFbt r ++ "?variant=" ++ encodeURIComponent variantId;
     Net.headers := [("X-Requested-With", "XMLHttpRequest")];
     Net.req_body := Net.NoBody |}.

(** The DOMContentLoaded handler, up to the registration of the two
    listeners.  [payload.items] of a [null] body and [x._isMain] of a
    [null] entry are read after the [try] block. *)
Definition onReady (d : document) (net : fetch_outcome) : outcome :=
  match root d with
  | None => NoRoot
  | Some r =>
      let variantId := getVariantId d r in
      if String.eqb variantId "" then Hidden (hide r) []
      else
        let rq := fbtRequest r variantId in
        match net with
        | NetworkError => Hidden (hide r) [rq]
        | Resolved res =>
            if negb (ok res) then Hidden (hide r) [rq]
            else
              match json res with
              | None => Hidden (hide r) [rq]
              | Some NullBody => Threw r [rq]
              | Some (Body pl) =>
                  match objects (items_array pl) with
                  | None => Threw r [rq]
                  | Some l =>
                      if negb (hasLinked l) then Hidden (hide r) [rq]
                      else
                        Mounted {| w := recompute (render r l);
                                   href := location d;
                                   csrf_value := csrf_input d;
                                   sent := [rq];
                                   form_submits := 0 |}
                  end
              end
        end
  end.

(** The user flips the [i]-th checkbox; the browser then fires [change]
    on it, which the root listener answers with [recompute]. *)
Fixpoint flip (i : nat) (cs : list checkbox) : list checkbox :=
  match cs, i with
  | [], _ => []
  | c :: t, O => {| vid := vid c; checked := negb (checked c) |} :: t
  | c :: t, S j => c :: flip j t
  end.

Definition with_rows (x : widget) (cs : list checkbox) : widget :=
  {| all := all x;
     cartBatch := cartBatch x;
     root_display := root_display x;
     rows := cs;
     w_totalsWrap := w_totalsWrap x;
     w_saleEl := w_saleEl x;
     w_compEl := w_compEl x;
     addBtn_disabled := addBtn_disabled x;
     addBtn_submits := addBtn_submits x |}.

(** The [change] listener of the root. *)
Definition onChange (target_is_fbt_check : bool) (x : widget) : widget :=
  if target_is_fbt_check then recompute x else x.

Definition toggle (i : nat) (x : widget) : widget :=
  onChange true (with_rows x (flip i (rows x))).

(** [lines] of the click handler. *)
Definition lines (cs : list checkbox) : list (num * Z) :=
  map (fun c => (vid c, 1)) (filter checked cs).

(** The request of the click handler; [csrf()] reads the token input as
    it is when the click comes. *)
Definition batchRequest (p : page) (ls : list (num * Z)) : Net.request :=
  {| Net.method := "POST";
     Net.url := cartBatch (w p);
     Net.headers := [("Content-Type", "application/json");
                     ("X-Requested-With", "XMLHttpRequest");
                     ("X-CSRFToken", csrf (csrf_value p))];
     Net.req_body := Net.JsonLines ls |}.

Definition with_sent (p : page) (l : list Net.request) : page :=
  {| w := w p; href := href p; csrf_value := csrf_value p; sent := l;
     form_submits := form_submits p |}.

Definition with_href (p : page) (h : string) : page :=
  {| w := w p; href := h; csrf_value := csrf_value p; sent := sent p;
     form_submits := form_submits p |}.

(** The [click] listener of the add button. *)
Definition onAddClick (net : fetch_outcome) (p : page) : page :=
  let ls := lines (rows (w p)) in
  if Nat.eqb (List.length ls) 0 then p
  else
    let issued := with_sent p (sent p ++ [batchRequest p ls]) in
    match net with
    | NetworkError => issued
    | Resolved res =>
        if negb (ok res) then issued else with_href issued "/cart/"
    end.

(** A click on the add button, as the browser handles it: a disabled
    button takes none; otherwise the listener runs, and as it never calls
    [preventDefault] the default action follows, which for a submit
    button submits its form. *)
Definition clickAddBtn (net : fetch_outcome) (p : page) : page :=
  if addBtn_disabled (w p) then p
  else
    let q := onAddClick net p in
    if addBtn_submits (w p)
    then {| w := w q; href := href q; csrf_value := csrf_value q; sent := sent q;
            form_submits := S (form_submits q) |}
    else q.

(** A run of [change] events on the boxes at positions [idxs], oldest first. *)
Definition toggles (idxs : list nat) (x : widget) : widget :=
  fold_left (fun acc i => toggle i acc) idxs x.

Definition with_widget (p : page) (x : widget) : page :=
  {| w := x; href := href p; csrf_value := csrf_value p; sent := sent p;
     form_submits := form_submits p |}.

(** *** Vocabulary of the properties *)

(** The rows of the items [l], in order, with the boxes set as [checks]
    says: a subset of the rendered rows is checked. *)
Definition rows_checked (l : list item) (checks : list bool) : list checkbox :=
  map (fun ib => {| vid := reread (Number (variant_id (fst ib))); checked := snd ib |})
      (combine l checks).

(** The items of the checked rows. *)
Definition selection (l : list item) (checks : list bool) : list item :=
  map fst (filter snd (combine l checks)).

(** The sum of [f] over a list of items, left to right from zero, each
    step a sum of doubles. *)
Definition sum_of (f : item -> num) (l : list item) : num :=
  fold_left (fun a b => add a (f b)) l (Fin 0).

(** No two items carry the same variant id, as [includes] compares
    them. *)
Definition distinct_ids (l : list item) : Prop :=
  ForallOrdPairs
    (fun a b => sameValueZero (Number (variant_id a)) (Number (variant_id b)) = false) l.

(** *** The price block of a row *)

(** [priceBlock(mrp, price)]: the [div]s it renders, each as its class
    and its text. *)
Definition priceBlock (mrp price : value) : list (string * string) :=
  let M := JNum (Number (or_else mrp zero)) in
  let P := JNum (Number (or_else price zero)) in
  if truthy M && truthy P && gt (Number M) (Number P)
  then [("compare-at-price", inr M); ("price-on-sale", inr P)]
  else [("price-on-sale", inr (or_else (or_else P M) zero))].

(** The requests a run of the DOMContentLoaded handler has issued. *)
Definition requests (o : outcome) : list Net.request :=
  match o with
  | NoRoot => []
  | Hidden _ rq => rq
  | Threw _ rq => rq
  | Mounted p => sent p
  end.

End Widget.

End Fbt.


(** ** Effects: state that survives an exception *)

Module Eff.

(** What a script can throw, or an async function reject with. *)
Inductive exn : Type :=
| TypeError            (* property access on null, a URL that does not parse *)
| FetchRejected        (* the promise of fetch rejected *)
| LibraryError         (* thrown inside the slider library *)
| SyntaxError.         (* querySelector on a selector that is not valid *)

Inductive result (A : Type) : Type :=
| Ok (a : A)
| Throw (e : exn).
Arguments Ok {A} a.
Arguments Throw {A} e.

(** A computation over a store [S]: writes made before a throw stay. *)
Definition M (S A : Type) : Type := S -> result A * S.

Definition ret {S A : Type} (a : A) : M S A := fun s => (Ok a, s).

Definition bind {S A B : Type} (c : M S A) (k : A -> M S B) : M S B :=
  fun s =>
    match c s with
    | (Ok a, s') => k a s'
    | (Throw e, s') => (Throw e, s')
    end.

Definition throw {S A : Type} (e : exn) : M S A := fun s => (Throw e, s).

(** [try { c } catch (e) { h e }]. *)
Definition try_catch {S A : Type} (c : M S A) (h : exn -> M S A) : M S A :=
  fun s =>
    match c s with
    | (Ok a, s') => (Ok a, s')
    | (Throw e, s') => h e s'
    end.

Definition get {S : Type} : M S S := fun s => (Ok s, s).
Definition modify {S : Type} (f : S -> S) : M S unit := fun s => (Ok tt, f s).

(** [arr.forEach(f)]. *)
Fixpoint forEach {S A : Type} (f : A -> M S unit) (l : list A) : M S unit :=
  match l with
  | [] => ret tt
  | x :: t => bind (f x) (fun _ => forEach f t)
  end.

Definition when {S : Type} (b : bool) (c : M S unit) : M S unit :=
  if b then c else ret tt.

(** [c] returns normally from the store [s]. *)
Definition returns {S A : Type} (c : M S A) (s : S) : Prop :=
  match fst (c s) with
  | Ok _ => True
  | Throw _ => False
  end.

(** No exception of [c] reaches its caller, whatever the store. *)
Definition never_throws {S A : Type} (c : M S A) : Prop :=
  forall s, returns c s.

(** [c] leaves the part [proj] of the store as it was. *)
Definition keeps {S A B : Type} (proj : S -> B) (c : M S A) : Prop :=
  forall s, proj (snd (c s)) = proj s.

Declare Scope eff_scope.
Delimit Scope eff_scope with eff.
Notation "x <- c ;; k" := (bind c (fun x => k))
  (at level 61, c at next level, right associativity) : eff_scope.
Notation "c ;; k" := (bind c (fun _ => k))
  (at level 61, right associativity) : eff_scope.

End Eff.

(** ** Gallery mounter: zoom.js *)

Module Zoom.
Import Eff.
Local Open Scope eff_scope.

(** A [{ main, thumbs }] pair: the two slider instances, by identity. *)
Record pair : Type := { main : nat; thumbs : nat }.

(** A slider instance of the third-party library. *)
Record swiper : Type := {
  sel : string;                 (* selector it was built on *)
  thumbs_link : option nat;     (* thumbs: { swiper } *)
  destroyed : bool;
  activeIndex : nat;
  slideChange : nat             (* handlers registered through on() *)
}.

(** Calls into the library. *)
Inductive lib_call : Type :=
| New (selector : string)
| Update (id : nat)
| SlideTo (id : nat) (index : nat)
| Destroy (id : nat)
| On (id : nat).

(** A click listener of a colour button: the closure of the
    [initOneGallery] call that added it, with the pair it drives and the
    main element, [$main], whose slides it reads. *)
Record listener : Type := {
  drives : pair;
  reads : nat
}.

(** A [.color-btn]: its [data-color], its [active] class and the click
    listeners added so far. *)
Record color_btn : Type := {
  color : option string;
  active : bool;
  clicks : list listener
}.

(** The document.  Main elements have an identity: [elements] holds, for
    every element the primary main selector has found so far, the
    [data-color] of its slides, and [main_el] is the one it finds now.  An
    element that was taken out of the document keeps its slides. *)
Record dom : Type := {
  present : list string;                (* selectors querySelector finds *)
  main_el : nat;
  elements : list (list (option string));
  color_btns : list color_btn;
  value_currentColor : option string;   (* textContent, when the element exists *)
  select_currentColor : option string
}.

Record state : Type := {
  _mounted : list pair;          (* the registry *)
  instances : list swiper;      (* every instance built so far; its id is its position *)
  calls : list lib_call;        (* library calls so far, oldest first *)
  window_load : list pair;      (* pending once-listeners for 'load' *)
  timers : list pair;           (* pending setTimeout callbacks *)
  page : dom
}.

Definition with_mounted (m : list pair) (s : state) : state :=
  {| _mounted := m; instances := instances s; calls := calls s;
     window_load := window_load s; timers := timers s; page := page s |}.

Definition with_instances (i : list swiper) (s : state) : state :=
  {| _mounted := _mounted s; instances := i; calls := calls s;
     window_load := window_load s; timers := timers s; page := page s |}.

Definition with_calls (c : list lib_call) (s : state) : state :=
  {| _mounted := _mounted s; instances := instances s; calls := c;
     window_load := window_load s; timers := timers s; page := page s |}.

Definition with_window_load (l : list pair) (s : state) : state :=
  {| _mounted := _mounted s; instances := instances s; calls := calls s;
     window_load := l; timers := timers s; page := page s |}.

Definition with_timers (l : list pair) (s : state) : state :=
  {| _mounted := _mounted s; instances := instances s; calls := calls s;
     window_load := window_load s; timers := l; page := page s |}.

Definition with_page (d : dom) (s : state) : state :=
  {| _mounted := _mounted s; instances := instances s; calls := calls s;
     window_load := window_load s; timers := timers s; page := d |}.

Definition with_color_btns (b : list color_btn) (d : dom) : dom :=
  {| present := present d; main_el := main_el d; elements := elements d;
     color_btns := b;
     value_currentColor := value_currentColor d;
     select_currentColor := select_currentColor d |}.

Definition querySelector (s : string) (d : dom) : bool :=
  existsb (String.eqb s) (present d).

(** [el.querySelectorAll('.swiper-slide')], as the colours of the slides. *)
Definition slides_of (d : dom) (el : nat) : list (option string) :=
  nth el (elements d) [].

(** The slides of the main element now in the document. *)
Definition slides (d : dom) : list (option string) := slides_of d (main_el d).

(** Replace the instance [id] by [f] of it. *)
Fixpoint update_at (id : nat) (f : swiper -> swiper) (l : list swiper) : list swiper :=
  match l, id with
  | [], _ => []
  | x :: t, O => f x :: t
  | x :: t, S j => x :: update_at j f t
  end.

Definition mark_destroyed (x : swiper) : swiper :=
  {| sel := sel x; thumbs_link := thumbs_link x; destroyed := true;
     activeIndex := activeIndex x; slideChange := 0 |}.

Definition set_index (i : nat) (x : swiper) : swiper :=
  {| sel := sel x; thumbs_link := thumbs_link x; destroyed := destroyed x;
     activeIndex := i; slideChange := slideChange x |}.

Definition add_handler (x : swiper) : swiper :=
  {| sel := sel x; thumbs_link := thumbs_link x; destroyed := destroyed x;
     activeIndex := activeIndex x; slideChange := S (slideChange x) |}.

Definition fresh (selector : string) (link : option nat) : swiper :=
  {| sel := selector; thumbs_link := link; destroyed := false;
     activeIndex := 0; slideChange := 0 |}.

(** *** The selector of [updateBtn] *)

(** What [document.querySelector] answers for the selector
    [.color-btn[data-color="col"]] that [updateBtn] builds by putting the
    colour between the quotes: a SyntaxError, nothing, the colour button
    at a position, or an element that is no colour button. *)
Inductive found : Type :=
| Invalid
| Nothing
| Button (k : nat)
| Elsewhere.

(** A character that stands for itself inside a quoted CSS string: not
    the double quote (34), not the backslash (92), no line break (10, 12,
    13), not NUL. *)
Definition plain_char (c : ascii) : bool :=
  negb (existsb (Ascii.eqb c)
          [ "034"%char; "092"%char; "010"%char; "012"%char; "013"%char; "000"%char ]).

Definition plain (col : string) : bool :=
  forallb plain_char (list_ascii_of_string col).

(** The first button whose [data-color] is [col]. *)
Fixpoint first_of_color (col : string) (l : list color_btn) : option nat :=
  match l with
  | [] => None
  | b :: t =>
      match color b with
      | Some c => if String.eqb c col then Some O else option_map S (first_of_color col t)
      | None => option_map S (first_of_color col t)
      end
  end.

Definition deactivate (b : color_btn) : color_btn :=
  {| color := color b; active := false; clicks := clicks b |}.

Definition activate (b : color_btn) : color_btn :=
  {| color := color b; active := true; clicks := clicks b |}.

(** [f] applied to the button at position [k]. *)
Fixpoint on_button (k : nat) (f : color_btn -> color_btn) (l : list color_btn)
  : list color_btn :=
  match l, k with
  | [], _ => []
  | b :: t, O => f b :: t
  | b :: t, S j => b :: on_button j f t
  end.

Section Library.

(** The selector engine on a colour that is not plain: such a colour ends
    the quoted string early or escapes part of it, and what the selector
    then means is the browser's business. *)
Variable engine : string -> dom -> found.

(** The behaviour of the library: whether its [n]-th call, [c], throws.
    A call that throws leaves the instances as they were. *)
Variable throws : nat -> lib_call -> bool.

(** [document.querySelector(`.color-btn[data-color="${col}"]`)]: a plain
    colour is compared with the attribute as it is. *)
Definition querySelector_color (col : string) (d : dom) : found :=
  if plain col
  then match first_of_color col (color_btns d) with
       | Some k => Button k
       | None => Nothing
       end
  else engine col d.

Definition lib (c : lib_call) (effect : list swiper -> list swiper) : M state unit :=
  fun s =>
    let s1 := with_calls (calls s ++ [c]) s in
    if throws (List.length (calls s)) c then (Throw LibraryError, s1)
    else (Ok tt, with_instances (effect (instances s1)) s1).

(** [new Swiper(selector, { ..., thumbs: { swiper: link } })]. *)
Definition newSwiper (selector : string) (link : option nat) : M state nat :=
  s <- get ;;
  lib (New selector) (fun l => l ++ [fresh selector link]) ;;
  ret (List.length (instances s)).

Definition update (id : nat) : M state unit := lib (Update id) (fun l => l).
Definition slideTo (id i : nat) : M state unit := lib (SlideTo id i) (update_at id (set_index i)).
Definition destroy (id : nat) : M state unit := lib (Destroy id) (update_at id mark_destroyed).
Definition on_slideChange (id : nat) : M state unit := lib (On id) (update_at id add_handler).

Definition resetToFirst (p : pair) : M state unit :=
  try_catch
    (update (main p) ;;
     update (thumbs p) ;;
     slideTo (main p) 0 ;;
     slideTo (thumbs p) 0)
    (fun _ => ret tt).

Definition destroyMounted : M state unit :=
  s <- get ;;
  forEach (fun p =>
             try_catch (destroy (main p) ;; destroy (thumbs p)) (fun _ => ret tt))
          (_mounted s) ;;
  modify (with_mounted []).

(** The page once every colour button lost its [active] class. *)
Definition deactivated (d : dom) : dom :=
  with_color_btns (map deactivate (color_btns d)) d.

(** The page once the element found got the [active] class and the two
    labels the colour. *)
Definition marked (col : string) (f : found) (d : dom) : dom :=
  {| present := present d;
     main_el := main_el d;
     elements := elements d;
     color_btns := match f with
                   | Button k => on_button k activate (color_btns d)
                   | _ => color_btns d
                   end;
     value_currentColor := option_map (fun _ => col) (value_currentColor d);
     select_currentColor := option_map (fun _ => col) (select_currentColor d) |}.

(** [updateBtn(idx)] of the closure whose [$main] is the element [el]. *)
Definition updateBtn (el idx : nat) : M state unit :=
  s <- get ;;
  match nth_error (slides_of (page s) el) idx with
  | Some (Some col) =>
      if String.eqb col "" then ret tt
      else
        modify (fun x => with_page (deactivated (page x)) x) ;;
        x <- get ;;
        match querySelector_color col (page x) with
        | Invalid => throw SyntaxError
        | f => modify (fun y => with_page (marked col f (page y)) y)
        end
  | _ => ret tt
  end.

Definition add_click (l : listener) (b : color_btn) : color_btn :=
  {| color := color b; active := active b; clicks := clicks b ++ [l] |}.

Definition index_of (id : nat) (s : state) : nat :=
  match nth_error (instances s) id with
  | Some x => activeIndex x
  | None => 0
  end.

(** [initOneGallery].  Colour sync is asked for the primary gallery only,
    whose main element is [main_el]. *)
Definition initOneGallery (mainSel thumbsSel : string) (colorSync : bool)
  : M state (option pair) :=
  s0 <- get ;;
  if negb (querySelector mainSel (page s0) && querySelector thumbsSel (page s0))
  then ret None
  else
    let el := main_el (page s0) in
    t <- newSwiper thumbsSel None ;;
    m <- newSwiper mainSel (Some t) ;;
    let p := {| main := m; thumbs := t |} in
    resetToFirst p ;;
    modify (fun s => with_window_load (window_load s ++ [p]) s) ;;
    modify (fun s => with_timers (timers s ++ [p]) s) ;;
    when colorSync
      (on_slideChange m ;;
       modify (fun s =>
         with_page (with_color_btns
                      (map (add_click {| drives := p; reads := el |})
                           (color_btns (page s))) (page s)) s) ;;
       s <- get ;;
       updateBtn el (index_of m s)) ;;
    ret (Some p).

Definition push (p : option pair) : M state unit :=
  match p with
  | Some q => modify (fun s => with_mounted (_mounted s ++ [q]) s)
  | None => ret tt
  end.

Definition numbered : list (string * string) :=
  [ (".thumbs-slider1", ".tf-product-media-main1");
    (".thumbs-slider2", ".tf-product-media-main2");
    (".thumbs-slider3", ".tf-product-media-main3");
    (".thumbs-slider4", ".tf-product-media-main4") ].

Definition mountGroup (t m : string) (colorSync : bool) : M state unit :=
  s <- get ;;
  when (querySelector t (page s) && querySelector m (page s))
    (p <- initOneGallery m t colorSync ;; push p).

Definition mountAllGalleries : M state unit :=
  destroyMounted ;;
  mountGroup ".thumbs-slider" ".tf-product-media-main" true ;;
  forEach (fun tm => mountGroup (fst tm) (snd tm) false) numbered.

(** The deferred calls: the 'load' listeners and the zero-delay timers. *)
Definition fireLoad : M state unit :=
  s <- get ;;
  modify (with_window_load []) ;;
  forEach resetToFirst (window_load s).

Definition runTimers : M state unit :=
  s <- get ;;
  modify (with_timers []) ;;
  forEach resetToFirst (timers s).

(** *** The colour buttons at work *)

(** [s.getAttribute('data-color') === col], on attributes that may be
    missing. *)
Definition same_color (a b : option string) : bool :=
  match a, b with
  | Some x, Some y => String.eqb x y
  | None, None => true
  | _, _ => false
  end.

(** [slides.findIndex(s => s.getAttribute('data-color') === col)]. *)
Fixpoint findIndex (col : option string) (l : list (option string)) : option nat :=
  match l with
  | [] => None
  | c :: t =>
      if same_color c col then Some O
      else option_map S (findIndex col t)
  end.

(** The click listener [l] on a button whose [data-color] is [col]: it
    looks the colour up among the slides of its own main element. *)
Definition colorClick (l : listener) (col : option string) : M state unit :=
  s <- get ;;
  match findIndex col (slides_of (page s) (reads l)) with
  | Some i => slideTo (main (drives l)) i ;; slideTo (thumbs (drives l)) i
  | None => ret tt
  end.

(** The listeners of one event, run in the order they were added; what
    one of them throws is reported and does not stop the next.  The
    result lists what was thrown. *)
Fixpoint dispatch (ls : list (M state unit)) : M state (list exn) :=
  match ls with
  | [] => ret []
  | l :: t =>
      fun s =>
        match l s with
        | (Ok _, s') => dispatch t s'
        | (Throw e, s') =>
            match dispatch t s' with
            | (Ok es, s'') => (Ok (e :: es), s'')
            | (Throw e', s'') => (Throw e', s'')
            end
        end
  end.

(** A click on the [k]-th colour button. *)
Definition clickColorBtn (k : nat) : M state (list exn) :=
  s <- get ;;
  match nth_error (color_btns (page s)) k with
  | Some b => dispatch (map (fun l => colorClick l (color b)) (clicks b))
  | None => ret []
  end.

End Library.

(** The gallery markup is swapped: a new main element, with the slides
    [sl], takes the place of the one in the document. *)
Definition replace_gallery (sl : list (option string)) (s : state) : state :=
  with_page
    {| present := present (page s);
       main_el := List.length (elements (page s));
       elements := elements (page s) ++ [sl];
       color_btns := color_btns (page s);
       value_currentColor := value_currentColor (page s);
       select_currentColor := select_currentColor (page s) |}
    s.

(** *** Vocabulary of the properties *)

(** What a mount finds in the document: the selectors present, the main
    element and the slides of every element. *)
Definition gallery (s : state) : list string * nat * list (list (option string)) :=
  (present (page s), main_el (page s), elements (page s)).

(** The pair [initOneGallery] builds from the state [x]: the instances
    take the next two ids, thumbs first. *)
Definition next_pair (x : state) : pair :=
  {| main := S (List.length (instances x)); thumbs := List.length (instances x) |}.

(** Where [initOneGallery] stands, with a library that does not throw,
    once the two instances are built on [t] and [m] and reset: both on
    slide 0, the pair waiting for [load] and for the timer. *)
Definition built (t m : string) (x : state) : state :=
  let n := List.length (instances x) in
  {| _mounted := _mounted x;
     instances := update_at n (set_index 0)
                    (update_at (S n) (set_index 0)
                       ((instances x ++ [fresh t None]) ++ [fresh m (Some n)]));
     calls := calls x ++ [New t; New m; Update (S n); Update n;
                          SlideTo (S n) 0; SlideTo n 0];
     window_load := window_load x ++ [next_pair x];
     timers := timers x ++ [next_pair x];
     page := page x |}.

(** And once colour sync has registered its [slideChange] handler and
    its click listeners, before [updateBtn] runs. *)
Definition synced (t m : string) (x : state) : state :=
  let n := List.length (instances x) in
  let b := built t m x in
  {| _mounted := _mounted b;
     instances := update_at (S n) add_handler (instances b);
     calls := calls b ++ [On (S n)];
     window_load := window_load b;
     timers := timers b;
     page := with_color_btns
               (map (add_click {| drives := next_pair x; reads := main_el (page x) |})
                    (color_btns (page x)))
               (page x) |}.

(** A library whose constructor and [on] do not throw. *)
Definition builds (c : lib_call) : bool :=
  match c with
  | New _ | On _ => true
  | _ => false
  end.

(** The selector engine accepts the colour of every slide of the main
    element: [updateBtn] builds no selector that is not valid. *)
Definition selectable (engine : string -> dom -> found) (d : dom) : Prop :=
  forall col d', In (Some col) (slides d) -> querySelector_color engine col d' <> Invalid.

(** The number of click listeners on each colour button. *)
Definition click_counts (s : state) : list nat :=
  map (fun b => List.length (clicks b)) (color_btns (page s)).

(** The selector groups the mounter knows, primary first, as (thumbs, main). *)
Definition groups : list (string * string) :=
  (".thumbs-slider", ".tf-product-media-main") :: numbered.

Definition group_present (d : dom) (tm : string * string) : bool :=
  querySelector (fst tm) d && querySelector (snd tm) d.

Definition is_destroyed (s : state) (id : nat) : bool :=
  match nth_error (instances s) id with
  | Some x => destroyed x
  | None => false
  end.

(** The loop of [destroyMounted], over the pairs [l]. *)
Definition teardown_loop (throws : nat -> lib_call -> bool) (l : list pair)
  : M state unit :=
  forEach (fun p => try_catch (destroy throws (main p) ;; destroy throws (thumbs p))
                              (fun _ => ret tt)) l.

(** [mountAllGalleries], [n] times in a row; a mount that throws leaves
    the state it reached. *)
Fixpoint remount (engine : string -> dom -> found) (throws : nat -> lib_call -> bool)
    (n : nat) (s : state) : state :=
  match n with
  | O => s
  | S k => snd (mountAllGalleries engine throws (remount engine throws k s))
  end.

(** The [destroyed] flag of every instance, by id. *)
Definition flags (s : state) : list bool := map destroyed (instances s).

(** The flag list with position [i] set. *)
Fixpoint mark_flag (i : nat) (l : list bool) : list bool :=
  match l, i with
  | [], _ => []
  | _ :: t, O => true :: t
  | b :: t, S j => b :: mark_flag j t
  end.

(** The calls that tear the pairs [l] down, in registry order. *)
Definition destroys (l : list pair) : list lib_call :=
  flat_map (fun p => [Destroy (main p); Destroy (thumbs p)]) l.


(** The calls a click asks of the listeners [ls] of a button of colour
    [col]: each listener looks the colour up among the slides of its own
    main element and sends its own pair there, main instance first. *)
Definition asked (col : option string) (d : dom) (ls : list listener) : list lib_call :=
  flat_map (fun l => match findIndex col (slides_of d (reads l)) with
                     | Some i => [SlideTo (main (drives l)) i; SlideTo (thumbs (drives l)) i]
                     | None => []
                     end) ls.

Definition is_destroy (c : lib_call) : bool :=
  match c with
  | Destroy _ => true
  | _ => false
  end.

(** Every pair of the registry is made of two live instances. *)
Definition intact (s : state) : Prop :=
  forall p, In p (_mounted s) ->
    nth_error (flags s) (main p) = Some false
    /\ nth_error (flags s) (thumbs p) = Some false.

(** No [destroy] among the calls [cs]. *)
Definition no_destroy (cs : list lib_call) : bool :=
  forallb (fun c => negb (is_destroy c)) cs.

(** A library that never throws. *)
Definition quiet : nat -> lib_call -> bool := fun _ _ => false.

(** A library whose constructor throws. *)
Definition broken_constructor : nat -> lib_call -> bool :=
  fun _ c => match c with New _ => true | _ => false end.

(** A selector engine that takes no colour but the plain ones. *)
Definition strict : string -> dom -> found := fun _ _ => Invalid.

End Zoom.


(** ** Review panel controller *)

Module Reviews.
Import Eff.
Local Open Scope eff_scope.

(** A button of the write/cancel toggler: inline display and the number
    of click listeners on it. *)
Record button : Type := { b_display : string; b_clicks : nat }.

(** [#review-form-msg]. *)
Record message : Type := {
  m_display : string;
  classList : list string;
  textContent : string
}.

(** [#reviews-sort] and [#review-form], with the listener the script
    puts on each. *)
Record sort_select : Type := { sort_value : string; change_bound : bool }.
Record form : Type := { action : string; submit_bound : bool }.

(** The three elements the script looks up by id. *)
Record named : Type := {
  reviews_sort : option sort_select;
  review_form : option form;
  review_form_msg : option message
}.

(** What sits inside the container: the id-addressed elements that live
    there and the parts the script queries by class. *)
Record fragment : Type := {
  ids : named;
  pager : option bool;          (* pagination list: onPaginate bound? *)
  btnWrite : option button;     (* .btn-write-review *)
  btnCancel : option button;    (* .btn-cancel-review *)
  formWrap : option string;     (* .form-write-review: style.display *)
  listWrap : option string      (* .cancel-review-wrap: style.display *)
}.

(** The container [#reviews-area]. *)
Record area : Type := {
  dataset_slug : option string;
  dataset_variant : option string;
  content : fragment
}.

(** The document: the container, and the id-addressed elements that sit
    outside it. *)
Record document : Type := {
  container : option area;
  outside : named
}.

(** What [res.json()] can resolve to. *)
Inductive json : Type :=
| JsonNull
| JsonObject (error : option string).

(** A response, through the two readers the script uses: the DOM that
    assigning [res.text()] to [innerHTML] builds, and [res.json()]. *)
Record response : Type := {
  ok : bool;
  text_dom : fragment;
  parsed : option json          (* None: res.json() rejects *)
}.

Inductive fetch_outcome : Type :=
| NetworkError
| Resolved (r : response).

Record state : Type := {
  doc : document;
  sent : list Net.request;      (* requests issued so far, oldest first *)
  prevented : nat;              (* preventDefault calls *)
  unhandled : list exn          (* rejections of promises nobody awaits *)
}.

Definition with_doc (d : document) (s : state) : state :=
  {| doc := d; sent := sent s; prevented := prevented s; unhandled := unhandled s |}.

Definition with_container (a : option area) (d : document) : document :=
  {| container := a; outside := outside d |}.

Definition with_content (f : fragment) (a : area) : area :=
  {| dataset_slug := dataset_slug a; dataset_variant := dataset_variant a; content := f |}.

Definition with_ids (n : named) (f : fragment) : fragment :=
  {| ids := n; pager := pager f; btnWrite := btnWrite f; btnCancel := btnCancel f;
     formWrap := formWrap f; listWrap := listWrap f |}.

Definition nothing_named : named :=
  {| reviews_sort := None; review_form := None; review_form_msg := None |}.

(** The id-addressed elements inside the container. *)
Definition inside (d : document) : named :=
  match container d with
  | Some a => ids (content a)
  | None => nothing_named
  end.

(** [document.getElementById]: inside the container or outside of it. *)
Definition getElementById {A : Type} (which : named -> option A) (d : document) : option A :=
  match which (inside d) with
  | Some x => Some x
  | None => which (outside d)
  end.

(** A write to the element [which] finds, where it was found. *)
Definition write {A : Type} (which : named -> option A) (g : named -> named)
    (d : document) : document :=
  match which (inside d), container d with
  | Some _, Some a =>
      with_container (Some (with_content (with_ids (g (ids (content a))) (content a)) a)) d
  | _, _ => {| container := container d; outside := g (outside d) |}
  end.

Definition on_msg (f : message -> message) (n : named) : named :=
  {| reviews_sort := reviews_sort n; review_form := review_form n;
     review_form_msg := option_map f (review_form_msg n) |}.

Definition on_sort (f : sort_select -> sort_select) (n : named) : named :=
  {| reviews_sort := option_map f (reviews_sort n); review_form := review_form n;
     review_form_msg := review_form_msg n |}.

Definition on_form (f : form -> form) (n : named) : named :=
  {| reviews_sort := reviews_sort n; review_form := option_map f (review_form n);
     review_form_msg := review_form_msg n |}.

(** A write to the message element, when the document has one. *)
Definition map_msg (f : message -> message) (d : document) : document :=
  write review_form_msg (on_msg f) d.

(** [${x}] for a string that may be undefined. *)
Definition tpl (x : option string) : string :=
  match x with
  | Some s => s
  | None => "undefined"
  end.

(** [a || d] on strings. *)
Definition str_or (a : option string) (d : string) : string :=
  match a with
  | Some s => if String.eqb s "" then d else s
  | None => d
  end.

Definition slug (d : document) : option string :=
  match container d with
  | Some a => dataset_slug a
  | None => None
  end.

Definition variantId (d : document) : option string :=
  match container d with
  | Some a => dataset_variant a
  | None => None
  end.

Record params : Type := { p_sort : option string; p_page : option string }.

(** What [new URL(target.href, window.location.origin)] makes of a
    pagination link: a TypeError when the address or the origin does not
    parse, else a URL with its [page] parameter, if it has one. *)
Inductive link_url : Type :=
| BadUrl
| PageOf (page : option string).

(** What the browser and the page's other scripts ask of this one. *)
Inductive event : Type :=
| Ready                        (* DOMContentLoaded *)
| SetVariant (v : string)      (* window.QSReviews.setVariant(v) *)
| SortChange                   (* change on #reviews-sort *)
| PagerClick (link : option link_url)
| Submit                       (* submit on #review-form *)
| WriteClick                   (* click on .btn-write-review *)
| CancelClick.                 (* click on .btn-cancel-review *)

Definition remove_class (c : string) (l : list string) : list string :=
  filter (fun x => negb (String.eqb x c)) l.

Definition add_class (c : string) (l : list string) : list string :=
  if existsb (String.eqb c) l then l else l ++ [c].

Definition mark (add remove : string) (m : message) : message :=
  {| m_display := "block";
     classList := add_class add (remove_class remove (classList m));
     textContent := textContent m |}.

Definition set_text (text : string) (m : message) : message :=
  {| m_display := m_display m; classList := classList m; textContent := text |}.

Definition show_success (m : message) : message :=
  set_text "Thanks! Your review has been submitted."
           (mark "text-success" "text-danger" m).

Definition show_error (text : string) (m : message) : message :=
  set_text text (mark "text-danger" "text-success" m).

Definition set_display (v : string) (b : button) : button :=
  {| b_display := v; b_clicks := b_clicks b |}.

Definition add_click (b : button) : button :=
  {| b_display := b_display b; b_clicks := S (b_clicks b) |}.

Definition toggle_fragment (show : bool) (f : fragment) : fragment :=
  if show then
    {| ids := ids f;
       pager := pager f;
       btnWrite := option_map (set_display "none") (btnWrite f);
       btnCancel := option_map (set_display "") (btnCancel f);
       formWrap := option_map (fun _ => "") (formWrap f);
       listWrap := option_map (fun _ => "none") (listWrap f) |}
  else
    {| ids := ids f;
       pager := pager f;
       btnWrite := option_map (set_display "") (btnWrite f);
       btnCancel := option_map (set_display "none") (btnCancel f);
       formWrap := option_map (fun _ => "none") (formWrap f);
       listWrap := option_map (fun _ => "") (listWrap f) |}.

Definition toggleReviewForm (show : bool) (d : document) : document :=
  match container d with
  | None => d
  | Some a => with_container (Some (with_content (toggle_fragment show (content a)) a)) d
  end.

(** The part of [bindHandlers] that works below the container: pager,
    initial toggle, the two buttons. *)
Definition bind_fragment (f : fragment) : fragment :=
  let f1 :=
    {| ids := ids f;
       pager := option_map (fun _ => true) (pager f);
       btnWrite := btnWrite f; btnCancel := btnCancel f;
       formWrap := formWrap f; listWrap := listWrap f |} in
  let f2 :=
    match formWrap f1, listWrap f1 with
    | Some _, Some _ => toggle_fragment false f1
    | _, _ => f1
    end in
  {| ids := ids f2;
     pager := pager f2;
     btnWrite := option_map add_click (btnWrite f2);
     btnCancel := option_map add_click (btnCancel f2);
     formWrap := formWrap f2; listWrap := listWrap f2 |}.

Definition bound_sort (x : sort_select) : sort_select :=
  {| sort_value := sort_value x; change_bound := true |}.

Definition bound_form (x : form) : form :=
  {| action := action x; submit_bound := true |}.

Definition bindHandlers (d : document) : document :=
  match container d with
  | None => d
  | Some _ =>
      let d1 := write reviews_sort (on_sort bound_sort) d in
      let d2 := write review_form (on_form bound_form) d1 in
      match container d2 with
      | Some a => with_container (Some (with_content (bind_fragment (content a)) a)) d2
      | None => d2
      end
  end.

(** *** The cookie reader *)

(** What [getCookie] gives: [undefined], a value, or the URIError
    [decodeURIComponent] throws. *)
Inductive cookie_read : Type :=
| Undefined
| Read (v : string)
| URIError.

Section Cookies.

(** [decodeURIComponent], taken as given; [None] where it throws. *)
Variable decodeURIComponent : string -> option string.

(** [getCookie(name)], with [document.cookie] as an argument. *)
Definition getCookie (document_cookie name : string) : cookie_read :=
  let value := ("; " ++ document_cookie)%string in
  let parts := Js.str_split ("; " ++ name ++ "=")%string value in
  if Nat.eqb (List.length parts) 2 then
    match decodeURIComponent (hd "" (Js.str_split ";" (last parts ""))) with
    | Some v => Read v
    | None => URIError
    end
  else Undefined.

End Cookies.

(** [sep] occurs in [s]. *)
Definition occurs (sep s : string) : Prop :=
  exists a b, s = (a ++ sep ++ b)%string.

(** [sep] occurs in [before ++ sep] at its end only: an occurrence of
    [sep] that starts right after [before] is the first one. *)
Definition first_after (sep before : string) : Prop :=
  forall a b, (before ++ sep = a ++ sep ++ b)%string -> b = "".

(** The text up to the first semicolon. *)
Fixpoint until_semicolon (s : string) : string :=
  match s with
  | EmptyString => EmptyString
  | String c t => if Ascii.eqb c ";"%char then EmptyString else String c (until_semicolon t)
  end.

Section Server.

(** The environment: the outcome of the [n]-th fetch, given its request. *)
Variable server : nat -> Net.request -> fetch_outcome.
(** [getCookie('csrftoken')], read once when the script loads. *)
Variable csrftoken : option string.

Definition fetch (rq : Net.request) : M state response :=
  fun s =>
    let s1 := {| doc := doc s; sent := sent s ++ [rq];
                 prevented := prevented s; unhandled := unhandled s |} in
    match server (List.length (sent s)) rq with
    | NetworkError => (Throw FetchRejected, s1)
    | Resolved r => (Ok r, s1)
    end.

Definition reviewsUrl (d : document) (s p : string) : string :=
  "/products/" ++ tpl (slug d) ++ "/reviews/?variant=" ++ tpl (variantId d)
    ++ "&sort=" ++ s ++ "&page=" ++ p.

Definition reviewsRequest (d : document) (s p : string) : Net.request :=
  {| Net.method := "GET";
     Net.url := reviewsUrl d s p;
     Net.headers := [("X-Requested-With", "XMLHttpRequest")];
     Net.req_body := Net.NoBody |}.

Definition loadReviews (ps : params) : M state unit :=
  s0 <- get ;;
  let d := doc s0 in
  let s := str_or (p_sort ps)
             (str_or (option_map sort_value (getElementById reviews_sort d)) "recent") in
  let p := str_or (p_page ps) "1" in
  res <- fetch (reviewsRequest d s p) ;;
  s1 <- get ;;
  match container (doc s1) with
  | None => throw TypeError
  | Some a =>
      modify (with_doc (with_container (Some (with_content (text_dom res) a)) (doc s1))) ;;
      modify (fun s => with_doc (bindHandlers (doc s)) s)
  end.

Definition recent_first : params := {| p_sort := Some "recent"; p_page := Some "1" |}.

Definition preventDefault : M state unit :=
  modify (fun s => {| doc := doc s; sent := sent s;
                      prevented := S (prevented s); unhandled := unhandled s |}).

Definition set_msg (f : message -> message) : M state unit :=
  modify (fun s => with_doc (map_msg f (doc s)) s).

Definition postRequest (f : form) : Net.request :=
  {| Net.method := "POST";
     Net.url := action f;
     Net.headers := [("X-CSRFToken", tpl csrftoken);
                     ("X-Requested-With", "XMLHttpRequest")];
     Net.req_body := Net.FormData |}.

(** [submitReview(e)], with [e.currentTarget] the form [f]. *)
Definition submitReview (f : form) : M state unit :=
  preventDefault ;;
  res <- fetch (postRequest f) ;;
  s <- get ;;
  let msg := getElementById review_form_msg (doc s) in
  if ok res then
    set_msg show_success ;;
    loadReviews recent_first ;;
    modify (fun s => with_doc (toggleReviewForm false (doc s)) s)
  else
    let data :=
      match parsed res with
      | Some j => j
      | None => JsonObject (Some "Error")
      end in
    match msg with
    | None => ret tt
    | Some _ =>
        set_msg (mark "text-danger" "text-success") ;;
        match data with
        | JsonNull => throw TypeError
        | JsonObject e => set_msg (set_text (str_or e "Something went wrong."))
        end
    end.

(** A call whose promise nobody awaits: a rejection is recorded, the
    caller goes on. *)
Definition detached (c : M state unit) : M state unit :=
  try_catch c
    (fun e => modify (fun s => {| doc := doc s; sent := sent s;
                                  prevented := prevented s;
                                  unhandled := unhandled s ++ [e] |})).

Definition onSortChange (target_value : string) : M state unit :=
  detached (loadReviews {| p_sort := Some target_value; p_page := Some "1" |}).

(** [onPaginate(e)]: [link] is the closest pagination link, when the
    click hit one, as [new URL(target.href, window.location.origin)]
    reads it. *)
Definition onPaginate (link : option link_url) : M state unit :=
  match link with
  | None => ret tt
  | Some u =>
      preventDefault ;;
      match u with
      | BadUrl => throw TypeError
      | PageOf page =>
          detached (loadReviews {| p_sort := None; p_page := Some (str_or page "1") |})
      end
  end.

(** [window.QSReviews.setVariant(newVariantId)]. *)
Definition setVariant (newVariantId : string) : M state unit :=
  s <- get ;;
  match container (doc s) with
  | None => ret tt
  | Some a =>
      modify (with_doc (with_container
        (Some {| dataset_slug := dataset_slug a;
                 dataset_variant := Some newVariantId;
                 content := content a |}) (doc s))) ;;
      detached (loadReviews recent_first)
  end.

(** The DOMContentLoaded listener. *)
Definition onReady : M state unit :=
  modify (fun s => with_doc (bindHandlers (doc s)) s).

(** The anonymous click listener of a toggler button. *)
Definition onTogglerClick (show : bool) : M state unit :=
  preventDefault ;;
  modify (fun s => with_doc (toggleReviewForm show (doc s)) s).

(** [n] listeners of the same kind on one element, run one after the
    other. *)
Fixpoint times (n : nat) (c : M state unit) : M state unit :=
  match n with
  | O => ret tt
  | S k => c ;; times k c
  end.

(** What reaches the script: the browser runs a listener only where the
    script registered one, and reports what a listener throws or rejects
    with instead of passing it on. *)
Definition handle (e : event) : M state unit :=
  s <- get ;;
  match e with
  | Ready => onReady
  | SetVariant v => setVariant v
  | SortChange =>
      match getElementById reviews_sort (doc s) with
      | Some x => when (change_bound x) (onSortChange (sort_value x))
      | None => ret tt
      end
  | PagerClick link =>
      match container (doc s) with
      | Some a =>
          match pager (content a) with
          | Some true => detached (onPaginate link)
          | _ => ret tt
          end
      | None => ret tt
      end
  | Submit =>
      match getElementById review_form (doc s) with
      | Some f => when (submit_bound f) (detached (submitReview f))
      | None => ret tt
      end
  | WriteClick =>
      match container (doc s) with
      | Some a =>
          match btnWrite (content a) with
          | Some b => times (b_clicks b) (onTogglerClick true)
          | None => ret tt
          end
      | None => ret tt
      end
  | CancelClick =>
      match container (doc s) with
      | Some a =>
          match btnCancel (content a) with
          | Some b => times (b_clicks b) (onTogglerClick false)
          | None => ret tt
          end
      | None => ret tt
      end
  end.

(** A run of events, oldest first. *)
Definition run (es : list event) : M state unit := forEach handle es.

End Server.


(** The document has its container. *)
Definition has_container (d : document) : bool :=
  match container d with
  | Some _ => true
  | None => false
  end.

End Reviews.


(** ** Concrete inputs *)

Module Samples.
Import Js.

(** The digits of a decimal numeral as a number; [None] on any other
    character. *)
Definition digits (s : string) : option Z :=
  match NilZero.uint_of_string s with
  | Some u => Some (Z.of_N (N.of_uint u))
  | None => None
  end.

(** StringToNumber on the empty string and on plain decimal literals,
    with or without a fraction: the double nearest to the numeral, as the
    quotient of two integers that are doubles themselves. *)
Definition decimal (s : string) : num :=
  if String.eqb s "" then Fin 0
  else
    match str_split "." s with
    | [whole] =>
        match digits whole with
        | Some n => Fin n
        | None => NaN
        end
    | [whole; fraction] =>
        match digits (whole ++ fraction) with
        | Some n => SFdiv 53 1024 (Fin n) (Fin (10 ^ Z.of_nat (String.length fraction)))
        | None => NaN
        end
    | _ => NaN
    end.

(** encodeURIComponent on text without reserved characters. *)
Definition plain (s : string) : string := s.

Definition entry (id amount compare_at : Z) : Fbt.item :=
  {| Fbt.variant_id := JNum (Fin id);
     Fbt.price := JNum (Fin amount);
     Fbt.compare_at_price := JNum (Fin compare_at);
     Fbt._isMain := JUndefined |}.

(** An entry whose prices are texts, as a backend that serializes
    decimals sends them. *)
Definition priced (id : Z) (amount compare_at : string) : Fbt.item :=
  {| Fbt.variant_id := JNum (Fin id);
     Fbt.price := JStr amount;
     Fbt.compare_at_price := JStr compare_at;
     Fbt._isMain := JUndefined |}.

(** A root without skeleton, with its variant in [data-source-variant]. *)
Definition bare_root : Fbt.root_el :=
  {| Fbt.data_source_variant := Some "7";
     Fbt.data_api_fbt := None;
     Fbt.data_cart_batch := None;
     Fbt.display := "";
     Fbt.itemsWrap := None;
     Fbt.totalsWrap := None;
     Fbt.saleEl := None;
     Fbt.compEl := None;
     Fbt.addBtn := None;
     Fbt.addBtn_in_form := false |}.

Definition shop : Fbt.document :=
  {| Fbt.root := Some bare_root;
     Fbt.url_variant := None;
     Fbt.csrf_input := Some "token";
     Fbt.location := "/products/bike/" |}.

Definition reply (l : list Fbt.item) : Fbt.fetch_outcome :=
  Fbt.Resolved {| Fbt.ok := true;
                  Fbt.json := Some (Fbt.Body {| Fbt.items := Some (map Fbt.Entry l) |}) |}.

(** A success whose body is the JSON [null]. *)
Definition null_reply : Fbt.fetch_outcome :=
  Fbt.Resolved {| Fbt.ok := true; Fbt.json := Some Fbt.NullBody |}.

(** A failure status. *)
Definition failure : Fbt.fetch_outcome :=
  Fbt.Resolved {| Fbt.ok := false; Fbt.json := None |}.

(** Two entries with different ids. *)
Definition two_items : list Fbt.item := [entry 1 100 150; entry 2 200 250].

(** Two entries priced with fractions: 99.50 and 50.25, compare prices
    120.00 and 60.40. *)
Definition fractions : list Fbt.item :=
  [priced 1 "99.50" "120.00"; priced 2 "50.25" "60.40"].

(** An entry without [price] next to a priced one. *)
Definition unpriced : list Fbt.item :=
  [ entry 1 100 0;
    {| Fbt.variant_id := JNum (Fin 2);
       Fbt.price := JUndefined;
       Fbt.compare_at_price := JUndefined;
       Fbt._isMain := JUndefined |} ].

(** Two entries whose ids are sent as texts, being too long for a
    number: 2^53 and 2^53 + 1. *)
Definition long_ids : list Fbt.item :=
  [ {| Fbt.variant_id := JStr "9007199254740992";
       Fbt.price := JNum (Fin 100);
       Fbt.compare_at_price := JNum (Fin 150);
       Fbt._isMain := JUndefined |};
    {| Fbt.variant_id := JStr "9007199254740993";
       Fbt.price := JNum (Fin 200);
       Fbt.compare_at_price := JNum (Fin 250);
       Fbt._isMain := JUndefined |} ].


(** The page the handler mounts from [shop] and the items [l]. *)
Definition mounted_page (l : list Fbt.item) : Fbt.page :=
  {| Fbt.w := Fbt.recompute decimal (Fbt.renderBox decimal bare_root l);
     Fbt.href := "/products/bike/";
     Fbt.csrf_value := Some "token";
     Fbt.sent := [Fbt.fbtRequest plain bare_root "7"];
     Fbt.form_submits := 0 |}.

(** A product page with the primary gallery, two slides and one colour
    button, before any mount. *)
Definition gallery_dom : Zoom.dom :=
  {| Zoom.present := [".thumbs-slider"; ".tf-product-media-main"];
     Zoom.main_el := 0;
     Zoom.elements := [[Some "red"; Some "blue"]];
     Zoom.color_btns :=
       [ {| Zoom.color := Some "red"; Zoom.active := false; Zoom.clicks := [] |} ];
     Zoom.value_currentColor := Some "";
     Zoom.select_currentColor := None |}.

Definition fresh_page : Zoom.state :=
  {| Zoom._mounted := [];
     Zoom.instances := [];
     Zoom.calls := [];
     Zoom.window_load := [];
     Zoom.timers := [];
     Zoom.page := gallery_dom |}.

(** The same page with a first slide whose colour holds a double quote:
    the text 5, quote, wheel. *)
Definition quoted_color : string :=
  String "5" (String "034" "wheel").

Definition quoted_page : Zoom.state :=
  Zoom.with_page
    {| Zoom.present := [".thumbs-slider"; ".tf-product-media-main"];
       Zoom.main_el := 0;
       Zoom.elements := [[Some quoted_color; Some "blue"]];
       Zoom.color_btns :=
         [ {| Zoom.color := Some "red"; Zoom.active := false; Zoom.clicks := [] |} ];
       Zoom.value_currentColor := Some "";
       Zoom.select_currentColor := None |}
    fresh_page.

(** The message element and the form, as the server renders them. *)
Definition blank_msg : Reviews.message :=
  {| Reviews.m_display := "none"; Reviews.classList := []; Reviews.textContent := "" |}.

Definition the_form : Reviews.form :=
  {| Reviews.action := "/reviews/submit/"; Reviews.submit_bound := false |}.

Definition rendered_ids : Reviews.named :=
  {| Reviews.reviews_sort := None;
     Reviews.review_form := Some the_form;
     Reviews.review_form_msg := Some blank_msg |}.

(** The fragment the server renders: list, pager, buttons and form. *)
Definition served : Reviews.fragment :=
  {| Reviews.ids := rendered_ids;
     Reviews.pager := Some false;
     Reviews.btnWrite := Some {| Reviews.b_display := ""; Reviews.b_clicks := 0 |};
     Reviews.btnCancel := Some {| Reviews.b_display := ""; Reviews.b_clicks := 0 |};
     Reviews.formWrap := Some "";
     Reviews.listWrap := Some "" |}.

(** The same fragment once bound, with the form open over the list. *)
Definition open_form : Reviews.fragment :=
  {| Reviews.ids :=
       {| Reviews.reviews_sort := None;
          Reviews.review_form := Some (Reviews.bound_form the_form);
          Reviews.review_form_msg := Some blank_msg |};
     Reviews.pager := Some true;
     Reviews.btnWrite := Some {| Reviews.b_display := "none"; Reviews.b_clicks := 1 |};
     Reviews.btnCancel := Some {| Reviews.b_display := ""; Reviews.b_clicks := 1 |};
     Reviews.formWrap := Some "";
     Reviews.listWrap := Some "none" |}.

Definition the_area : Reviews.area :=
  {| Reviews.dataset_slug := Some "bike";
     Reviews.dataset_variant := Some "7";
     Reviews.content := open_form |}.

Definition panel : Reviews.document :=
  {| Reviews.container := Some the_area;
     Reviews.outside := Reviews.nothing_named |}.

(** A page whose form and message sit outside the container, after the
    container left the document. *)
Definition panel_gone : Reviews.document :=
  {| Reviews.container := None;
     Reviews.outside :=
       {| Reviews.reviews_sort := None;
          Reviews.review_form := Some (Reviews.bound_form the_form);
          Reviews.review_form_msg := Some blank_msg |} |}.


(** A page whose message element sits outside the container. *)
Definition message_outside : Reviews.document :=
  {| Reviews.container :=
       Some {| Reviews.dataset_slug := Some "bike";
               Reviews.dataset_variant := Some "7";
               Reviews.content :=
                 {| Reviews.ids :=
                      {| Reviews.reviews_sort := None;
                         Reviews.review_form := Some (Reviews.bound_form the_form);
                         Reviews.review_form_msg := None |};
                    Reviews.pager := Some true;
                    Reviews.btnWrite := None;
                    Reviews.btnCancel := None;
                    Reviews.formWrap := Some "";
                    Reviews.listWrap := Some "none" |} |};
     Reviews.outside :=
       {| Reviews.reviews_sort := None;
          Reviews.review_form := None;
          Reviews.review_form_msg :=
            Some {| Reviews.m_display := "none";
                    Reviews.classList := ["note"; "text-danger"];
                    Reviews.textContent := "" |} |} |}.

Definition at_rest (d : Reviews.document) : Reviews.state :=
  {| Reviews.doc := d; Reviews.sent := []; Reviews.prevented := 0;
     Reviews.unhandled := [] |}.

Definition accepted : Reviews.response :=
  {| Reviews.ok := true; Reviews.text_dom := served; Reviews.parsed := None |}.

(** A failure status with a body that is not JSON. *)
Definition refused : Reviews.response :=
  {| Reviews.ok := false; Reviews.text_dom := served; Reviews.parsed := None |}.

(** The POST is accepted and every other fetch answered with the list. *)
Definition healthy : nat -> Net.request -> Reviews.fetch_outcome :=
  fun _ _ => Reviews.Resolved accepted.

(** The POST is accepted, then the network drops. *)
Definition drops_after_post : nat -> Net.request -> Reviews.fetch_outcome :=
  fun n _ => match n with
             | O => Reviews.Resolved accepted
             | _ => Reviews.NetworkError
             end.

(** Every request is refused with an unparseable body. *)
Definition refusing : nat -> Net.request -> Reviews.fetch_outcome :=
  fun _ _ => Reviews.Resolved refused.

(** The gallery page after its first mount, with the pair that mount
    registered and the colour button as it then is. *)
Definition mounted_once : Zoom.state :=
  snd (Zoom.mountAllGalleries Zoom.strict Zoom.quiet fresh_page).

Definition first_pair : Zoom.pair := {| Zoom.main := 1; Zoom.thumbs := 0 |}.

Definition first_listener : Zoom.listener :=
  {| Zoom.drives := first_pair; Zoom.reads := 0 |}.

Definition red_button : Zoom.color_btn :=
  {| Zoom.color := Some "red"; Zoom.active := true; Zoom.clicks := [first_listener] |}.

(** A library whose [destroy] always throws. *)
Definition destroy_fails : nat -> Zoom.lib_call -> bool :=
  fun _ c => Zoom.is_destroy c.

(** The mounted page after the gallery left the document. *)
Definition gallery_removed : Zoom.state :=
  Zoom.with_page
    {| Zoom.present := [];
       Zoom.main_el := 0;
       Zoom.elements := [[Some "red"; Some "blue"]];
       Zoom.color_btns := [];
       Zoom.value_currentColor := None;
       Zoom.select_currentColor := None |}
    mounted_once.

(** The gallery page with a second button, for a colour no slide has,
    after its first mount. *)
Definition green_mounted : Zoom.state :=
  snd (Zoom.mountAllGalleries Zoom.strict Zoom.quiet
         (Zoom.with_page
            (Zoom.with_color_btns
               [ {| Zoom.color := Some "red"; Zoom.active := false; Zoom.clicks := [] |};
                 {| Zoom.color := Some "green"; Zoom.active := false; Zoom.clicks := [] |} ]
               gallery_dom)
            fresh_page)).

(** The mounted page after the gallery markup was swapped for one whose
    slides come blue first, and mounted again. *)
Definition swapped_and_remounted : Zoom.state :=
  snd (Zoom.mountAllGalleries Zoom.strict Zoom.quiet
         (Zoom.replace_gallery [Some "blue"; Some "red"] mounted_once)).

(** The container as the server first renders it, and once bound. *)
Definition fresh_panel : Reviews.document :=
  {| Reviews.container :=
       Some {| Reviews.dataset_slug := Some "bike";
               Reviews.dataset_variant := Some "7";
               Reviews.content := served |};
     Reviews.outside := Reviews.nothing_named |}.

Definition bound_area : Reviews.area :=
  {| Reviews.dataset_slug := Some "bike";
     Reviews.dataset_variant := Some "7";
     Reviews.content :=
       {| Reviews.ids :=
            {| Reviews.reviews_sort := None;
               Reviews.review_form := Some (Reviews.bound_form the_form);
               Reviews.review_form_msg := Some blank_msg |};
          Reviews.pager := Some true;
          Reviews.btnWrite := Some {| Reviews.b_display := ""; Reviews.b_clicks := 1 |};
          Reviews.btnCancel := Some {| Reviews.b_display := "none"; Reviews.b_clicks := 1 |};
          Reviews.formWrap := Some "none";
          Reviews.listWrap := Some "" |} |}.

(** A failure status with a JSON body that names the error. *)
Definition explained : Reviews.response :=
  {| Reviews.ok := false;
     Reviews.text_dom := served;
     Reviews.parsed := Some (Reviews.JsonObject (Some "Please choose a rating.")) |}.

Definition explaining : nat -> Net.request -> Reviews.fetch_outcome :=
  fun _ _ => Reviews.Resolved explained.

(** No fetch gets through. *)
Definition offline : nat -> Net.request -> Reviews.fetch_outcome :=
  fun _ _ => Reviews.NetworkError.

(** decodeURIComponent on text without escape sequences. *)
Definition unescaped (s : string) : option string := Some s.

End Samples.


(** * Properties *)

(** ** Bundle (FBT) widget *)

Section FbtProperties.
Import Js Fbt.

Variable StringToNumber : string -> num.
Variable encodeURIComponent : string -> string.

#[local] Abbreviation Number := (Js.Number StringToNumber).
#[local] Abbreviation inr := (Fbt.inr StringToNumber).
#[local] Abbreviation recompute := (Fbt.recompute StringToNumber).
#[local] Abbreviation rows_checked := (Fbt.rows_checked StringToNumber).
#[local] Abbreviation picked := (Fbt.picked StringToNumber).
#[local] Abbreviation distinct_ids := (Fbt.distinct_ids StringToNumber).

(** *** How [includes] compares doubles *)

Lemma compare_cont_eq (m1 m2 : positive) :
  Pos.compare_cont Eq m1 m2 = Eq <-> m1 = m2.
Proof. apply Pos.compare_eq_iff. Qed.

(** Two finite doubles compare equal exactly when they are the same. *)
Lemma SFeqb_finite (s1 s2 : bool) (m1 m2 : positive) (e1 e2 : Z) :
  SFeqb (S754_finite s1 m1 e1) (S754_finite s2 m2 e2) = true
  <-> s1 = s2 /\ m1 = m2 /\ e1 = e2.
Proof.
  unfold SFeqb, SFcompare.
  destruct s1, s2; try (split; [discriminate | intros [H _]; discriminate]).
  - destruct (Z.compare_spec e1 e2) as [He|He|He].
    + subst e2. destruct (Pos.compare_cont Eq m1 m2) eqn:E; cbn.
      * apply compare_cont_eq in E. subst. tauto.
      * split; [discriminate|]. intros [_ [Hm _]]. subst.
        rewrite (proj2 (compare_cont_eq m2 m2) eq_refl) in E. discriminate.
      * split; [discriminate|]. intros [_ [Hm _]]. subst.
        rewrite (proj2 (compare_cont_eq m2 m2) eq_refl) in E. discriminate.
    + split; [discriminate|]. intros [_ [_ H]]. lia.
    + split; [discriminate|]. intros [_ [_ H]]. lia.
  - destruct (Z.compare_spec e1 e2) as [He|He|He].
    + subst e2. destruct (Pos.compare_cont Eq m1 m2) eqn:E; cbn.
      * apply compare_cont_eq in E. subst. tauto.
      * split; [discriminate|]. intros [_ [Hm _]]. subst.
        rewrite (proj2 (compare_cont_eq m2 m2) eq_refl) in E. discriminate.
      * split; [discriminate|]. intros [_ [Hm _]]. subst.
        rewrite (proj2 (compare_cont_eq m2 m2) eq_refl) in E. discriminate.
    + split; [discriminate|]. intros [_ [_ H]]. lia.
    + split; [discriminate|]. intros [_ [_ H]]. lia.
Qed.

Lemma sameValueZero_refl (a : num) : sameValueZero a a = true.
Proof.
  destruct a as [s|s| |s m e]; try reflexivity.
  - now destruct s.
  - cbn. now apply SFeqb_finite.
Qed.

Lemma sameValueZero_sym (a b : num) : sameValueZero a b = sameValueZero b a.
Proof.
  assert (H : forall x y, sameValueZero x y = true -> sameValueZero y x = true).
  { intros x y.
    destruct x as [s1|s1| |s1 m1 e1], y as [s2|s2| |s2 m2 e2];
      unfold sameValueZero;
      try (intro E; apply SFeqb_finite in E; destruct E as [-> [-> ->]];
           now apply SFeqb_finite);
      cbn; try reflexivity; try discriminate;
      try (destruct s1; discriminate); try (destruct s2; discriminate);
      destruct s1, s2; (reflexivity || discriminate). }
  destruct (sameValueZero a b) eqn:E1, (sameValueZero b a) eqn:E2;
    try reflexivity.
  - apply H in E1. congruence.
  - apply H in E2. congruence.
Qed.

(** Reading an id back from the attribute changes nothing for
    [includes]: the two zeros are the same to it. *)
Lemma sameValueZero_reread (a b : num) :
  sameValueZero (reread a) b = sameValueZero a b.
Proof. now destruct a as [s|s| |s m e]. Qed.

Lemma includes_reread (f : item -> num) (l : list item) (x : num) :
  includes (map (fun it => reread (f it)) l) x = includes (map f l) x.
Proof.
  unfold includes. induction l as [|a l IH]; [reflexivity|].
  cbn [map existsb]. now rewrite sameValueZero_reread, IH.
Qed.

Lemma checked_vids_rows (l : list item) (checks : list bool) :
  checked_vids (rows_checked l checks)
  = map (fun it => reread (Number (variant_id it))) (selection l checks).
Proof.
  unfold checked_vids, Fbt.rows_checked, selection.
  induction (combine l checks) as [|[it b] t IH]; [reflexivity|].
  cbn [map filter fst snd checked]. destruct b; cbn [map fst vid]; now rewrite IH.
Qed.

Lemma selection_incl (l : list item) (checks : list bool) :
  incl (selection l checks) l.
Proof.
  unfold selection. intros it Hin.
  apply in_map_iff in Hin. destruct Hin as [[it' b] [Heq Hin]].
  simpl in Heq. subst it'. apply filter_In in Hin. destruct Hin as [Hin _].
  now apply in_combine_l in Hin.
Qed.

Lemma picked_none (l : list item) : picked l [] = [].
Proof. unfold Fbt.picked. induction l; simpl; auto. Qed.

(** An id that differs from every id of [l] is not among the ids of a
    part of [l]. *)
Lemma includes_apart (a : item) (l sel : list item) :
  Forall (fun b => sameValueZero (Number (variant_id a)) (Number (variant_id b)) = false) l ->
  incl sel l ->
  includes (map (fun it => Number (variant_id it)) sel) (Number (variant_id a)) = false.
Proof.
  intros Hall Hincl. unfold includes.
  destruct (existsb _ _) eqn:E; [|reflexivity].
  apply existsb_exists in E. destruct E as [v [Hv Hs]].
  apply in_map_iff in Hv. destruct Hv as [r [<- Hr]].
  rewrite Forall_forall in Hall.
  rewrite sameValueZero_sym, (Hall r (Hincl r Hr)) in Hs. discriminate.
Qed.

(** With pairwise distinct variant ids, matching the rows by id picks the
    items of the checked rows and no other. *)
Lemma picked_selection (l : list item) (checks : list bool) :
  distinct_ids l ->
  picked l (map (fun it => reread (Number (variant_id it))) (selection l checks))
  = selection l checks.
Proof.
  unfold Fbt.picked.
  assert (Hre : forall sel,
            filter (fun r => includes (map (fun it => reread (Number (variant_id it))) sel)
                                      (Number (variant_id r))) l
            = filter (fun r => includes (map (fun it => Number (variant_id it)) sel)
                                        (Number (variant_id r))) l).
  { intro sel. apply filter_ext. intro r.
    apply (includes_reread (fun it => Number (variant_id it))). }
  rewrite Hre. clear Hre.
  revert checks. induction l as [|a l IH]; intros checks Hd; [reflexivity|].
  inversion Hd as [|a' l' Hall Hd']; subst.
  destruct checks as [|b checks].
  - apply (picked_none (a :: l)).
  - specialize (IH checks Hd').
    unfold selection in *. cbn [combine filter map fst snd].
    destruct b; cbn [filter map fst snd].
    + unfold includes at 1. cbn [existsb].
      rewrite sameValueZero_refl. cbn [orb]. f_equal.
      etransitivity; [|exact IH].
      apply filter_ext_in. intros r Hr.
      unfold includes. cbn [existsb].
      rewrite Forall_forall in Hall. now rewrite (Hall r Hr).
    + pose proof (includes_apart a l _ Hall (selection_incl l checks)) as Hx.
      unfold selection in Hx. rewrite Hx. exact IH.
Qed.

Lemma inr_nonempty (v : value) : inr v <> "".
Proof. unfold Fbt.inr. cbn [append]. discriminate. Qed.

Lemma sumSale_sum_of (l : list item) :
  Fbt.sumSale StringToNumber l = sum_of (fun b => Number (or_else (price b) zero)) l.
Proof. reflexivity. Qed.

Lemma sumComp_sum_of (l : list item) :
  Fbt.sumComp StringToNumber l
  = sum_of (fun b => Number (or_else (compare_at_price b) zero)) l.
Proof. reflexivity. Qed.

(** C1, as the code has it.  For a payload whose items carry variant ids
    that are pairwise different as numbers, the way [includes] compares
    them, and every subset of checked rows, [recompute] writes into the
    sale total the rounded, rupee-formatted sum, a sum of doubles taken
    in payload order, of [Number(price || 0)] over exactly the items of
    the checked rows (a sum that is [NaN] shows as zero); the compare
    total is non-empty exactly when the sum of
    [Number(compare_at_price || 0)] over those items strictly exceeds the
    sale sum, and it then shows that sum. *)
Theorem recompute_totals_distinct_ids (x : widget) (checks : list bool) :
  distinct_ids (all x) ->
  rows x = rows_checked (all x) checks ->
  let chosen := selection (all x) checks in
  let sale := sum_of (fun b => Number (or_else (price b) zero)) chosen in
  let comp := sum_of (fun b => Number (or_else (compare_at_price b) zero)) chosen in
  w_saleEl (recompute x)
  = ("₹" ++ toLocaleString_en_IN (Math_round (Number (or_else (JNum sale) zero))))%string
  /\ (w_compEl (recompute x) <> "" <-> gt comp sale = true)
  /\ (gt comp sale = true ->
      w_compEl (recompute x)
      = ("₹" ++ toLocaleString_en_IN (Math_round (Number (or_else (JNum comp) zero))))%string).
Proof.
  intros Hnd Hrows chosen sale comp.
  assert (Hpick : picked (all x) (checked_vids (rows x)) = chosen).
  { rewrite Hrows, checked_vids_rows. now apply picked_selection. }
  unfold Fbt.recompute. cbn [w_saleEl w_compEl]. fold picked. rewrite Hpick.
  rewrite sumSale_sum_of, sumComp_sum_of. fold chosen sale comp.
  split; [reflexivity|]. split.
  - destruct (gt comp sale); split; intro H.
    + reflexivity.
    + apply inr_nonempty.
    + now contradiction H.
    + discriminate H.
  - intros ->. reflexivity.
Qed.

#[local] Abbreviation hasLinked := (Fbt.hasLinked).
#[local] Abbreviation onReady := (Fbt.onReady StringToNumber encodeURIComponent).
#[local] Abbreviation rowHTML := (Fbt.rowHTML StringToNumber).
#[local] Abbreviation toggle := (Fbt.toggle StringToNumber).
#[local] Abbreviation toggles := (Fbt.toggles StringToNumber).
#[local] Abbreviation render := (Fbt.render StringToNumber).
#[local] Abbreviation fbtRequest := (Fbt.fbtRequest encodeURIComponent).





(** The two ways to render agree on what the listeners close over: case
    analysis on the five anchors. *)
Ltac by_anchors r :=
  unfold Fbt.render;
  destruct (itemsWrap r), (saleEl r), (compEl r), (addBtn r), (totalsWrap r);
  reflexivity.

Lemma render_rows (r : root_el) (l : list item) : rows (render r l) = map rowHTML l.
Proof. by_anchors r. Qed.


Lemma render_all (r : root_el) (l : list item) : all (render r l) = l.
Proof. by_anchors r. Qed.

Lemma render_cartBatch (r : root_el) (l : list item) :
  cartBatch (render r l) = getCartBatch r.
Proof. by_anchors r. Qed.


(** *** Reachable widgets *)

Lemma recompute_rows (x : widget) : rows (recompute x) = rows x.
Proof. reflexivity. Qed.

Lemma toggles_all (idxs : list nat) (x : widget) : all (toggles idxs x) = all x.
Proof.
  unfold Fbt.toggles. revert x.
  induction idxs as [|i t IH]; intro x; simpl; [reflexivity|].
  now rewrite IH.
Qed.

Lemma toggles_cartBatch (idxs : list nat) (x : widget) :
  cartBatch (toggles idxs x) = cartBatch x.
Proof.
  unfold Fbt.toggles. revert x.
  induction idxs as [|i t IH]; intro x; simpl; [reflexivity|].
  now rewrite IH.
Qed.

Lemma toggles_addBtn_submits (idxs : list nat) (x : widget) :
  addBtn_submits (toggles idxs x) = addBtn_submits x.
Proof.
  unfold Fbt.toggles. revert x.
  induction idxs as [|i t IH]; intro x; simpl; [reflexivity|].
  now rewrite IH.
Qed.

(** Every state the listeners see is the result of a [recompute]. *)
Lemma toggles_recomputed (idxs : list nat) (y : widget) :
  exists z, toggles idxs (recompute y) = recompute z.
Proof.
  unfold Fbt.toggles. revert y.
  induction idxs as [|i t IH]; intro y; simpl.
  - now exists y.
  - unfold Fbt.toggle at 2. unfold onChange. apply IH.
Qed.

Lemma filter_checked_nil (cs : list checkbox) :
  Nat.eqb (List.length (checked_vids cs)) 0 = negb (existsb checked cs).
Proof.
  unfold checked_vids. induction cs as [|c t IH]; [reflexivity|].
  simpl. destruct (checked c); simpl; [reflexivity | exact IH].
Qed.

Lemma recompute_disabled (y : widget) :
  addBtn_disabled (recompute y) = negb (existsb checked (rows (recompute y))).
Proof. cbn [addBtn_disabled Fbt.recompute rows]. apply filter_checked_nil. Qed.

Lemma lines_length (cs : list checkbox) :
  Nat.eqb (List.length (lines cs)) 0 = negb (existsb checked cs).
Proof.
  unfold lines. induction cs as [|c t IH]; [reflexivity|].
  simpl. destruct (checked c); simpl; [reflexivity | exact IH].
Qed.

(** A mounted page comes from a root and an item list, and still holds
    what the handler read from the document. *)
Lemma onReady_mounted_inv (d : document) (net : fetch_outcome) (p : page) :
  onReady d net = Mounted p ->
  exists r l,
    root d = Some r
    /\ w p = recompute (render r l)
    /\ href p = location d
    /\ csrf_value p = csrf_input d
    /\ form_submits p = 0%nat.
Proof.
  intro Hm. unfold Fbt.onReady in Hm.
  destruct (root d) as [r|]; [|discriminate].
  destruct (String.eqb _ _); [discriminate|].
  destruct net as [|res]; [discriminate|].
  destruct (negb (ok res)); [discriminate|].
  destruct (json res) as [[|pl]|]; try discriminate.
  destruct (objects _) as [l|]; [|discriminate].
  destruct (negb _); [discriminate|].
  injection Hm as <-. exists r, l. repeat split.
Qed.

(** C9.  On the initial render and after every run of checkbox change
    events, the add button is disabled exactly when no box is checked,
    and a click with no box checked leaves the page as it is: nothing is
    sent. *)
Theorem add_button_disabled_iff_none_checked
    (d : document) (net : fetch_outcome) (p : page) (idxs : list nat) :
  onReady d net = Mounted p ->
  let x := toggles idxs (w p) in
  addBtn_disabled x = negb (existsb checked (rows x))
  /\ (existsb checked (rows x) = false ->
      forall net', onAddClick net' (with_widget p x) = with_widget p x).
Proof.
  intros Hm x.
  destruct (onReady_mounted_inv d net p Hm) as [r [l [_ [Hy _]]]].
  set (y := render r l) in Hy.
  destruct (toggles_recomputed idxs y) as [z Hz].
  assert (Hx : x = recompute z) by (unfold x; now rewrite Hy).
  split.
  - rewrite Hx. apply recompute_disabled.
  - intros Hnone net'. unfold onAddClick. cbn [w with_widget].
    rewrite lines_length, Hnone. reflexivity.
Qed.

(** The click listener of the add button, for every page the widget can
    be in and whatever the token input holds when the click comes: with
    a box checked it issues exactly one request, a POST to the cart-batch
    path of the root ([/cart/batch-add/] unless [data-cart-batch] names
    another), with the token of that moment in [X-CSRFToken] and the body
    [{ lines }]; it leaves the widget as it is, and sets the location to
    [/cart/] when the response is a success and not otherwise. *)
Lemma add_click_posts_once
    (d : document) (r : root_el) (net0 : fetch_outcome) (p : page)
    (idxs : list nat) (token : option string) (net : fetch_outcome) :
  root d = Some r ->
  onReady d net0 = Mounted p ->
  let q := {| w := toggles idxs (w p); href := href p; csrf_value := token;
              sent := sent p; form_submits := form_submits p |} in
  existsb checked (rows (w q)) = true ->
  let rq :=
    {| Net.method := "POST";
       Net.url := str_or (data_cart_batch r) "/cart/batch-add/";
       Net.headers := [("Content-Type", "application/json");
                       ("X-Requested-With", "XMLHttpRequest");
                       ("X-CSRFToken", csrf token)];
       Net.req_body := Net.JsonLines (lines (rows (w q))) |} in
  sent (onAddClick net q) = sent q ++ [rq]
  /\ w (onAddClick net q) = w q
  /\ csrf_value (onAddClick net q) = token
  /\ form_submits (onAddClick net q) = form_submits q
  /\ href (onAddClick net q)
     = match net with
       | NetworkError => href q
       | Resolved res => if ok res then "/cart/" else href q
       end.
Proof.
  intros Hr Hm q Hsome rq.
  destruct (onReady_mounted_inv d net0 p Hm) as [r' [l [Hr' [Hw _]]]].
  rewrite Hr in Hr'. injection Hr' as <-.
  assert (Hurl : cartBatch (w q) = str_or (data_cart_batch r) "/cart/batch-add/").
  { unfold q. cbn [w]. rewrite toggles_cartBatch, Hw. cbn [cartBatch Fbt.recompute].
    apply render_cartBatch. }
  assert (Hrq : batchRequest q (lines (rows (w q))) = rq).
  { unfold batchRequest, rq. rewrite Hurl. reflexivity. }
  unfold onAddClick. rewrite lines_length, Hsome. cbn [negb]. cbv iota.
  rewrite Hrq.
  destruct net as [|res]; [now repeat split|].
  destruct (ok res); now repeat split.
Qed.

(** C10.  The body of the batch-add request holds one line per checked
    box, in DOM order: the [i]-th line is the variant id of the [i]-th
    checked box with quantity 1.  Unchecked boxes contribute no line. *)
Theorem batch_lines_follow_checked_rows (q : page) (net : fetch_outcome) :
  existsb checked (rows (w q)) = true ->
  exists rq ls,
    sent (onAddClick net q) = sent q ++ [rq]
    /\ Net.req_body rq = Net.JsonLines ls
    /\ List.length ls = List.length (filter checked (rows (w q)))
    /\ Forall (fun ln => snd ln = 1) ls
    /\ forall i, nth_error ls i
                 = option_map (fun c => (vid c, 1))
                              (nth_error (filter checked (rows (w q))) i).
Proof.
  intro Hsome.
  exists (batchRequest q (lines (rows (w q)))), (lines (rows (w q))).
  split.
  - unfold onAddClick. rewrite lines_length, Hsome. cbn [negb]. cbv iota.
    destruct net as [|res]; [reflexivity|]. now destruct (ok res).
  - split; [reflexivity|]. unfold lines. split; [apply length_map|]. split.
    + apply Forall_forall. intros ln Hin. apply in_map_iff in Hin.
      destruct Hin as [c [<- _]]. reflexivity.
    + intro i. apply nth_error_map.
Qed.

(** The boxes of a reachable widget are the rows of its items, and the
    lines of the request are then the ids of the selected items. *)
Lemma flip_rows_checked (l : list item) (checks : list bool) (i : nat) :
  exists checks', flip i (rows_checked l checks) = rows_checked l checks'
                  /\ List.length checks' = List.length checks.
Proof.
  unfold Fbt.rows_checked. revert checks i.
  induction l as [|a l IH]; intros checks i.
  - exists checks. split; [now destruct i | reflexivity].
  - destruct checks as [|b checks].
    + exists []. split; [now destruct i | reflexivity].
    + destruct i as [|j]; cbn [combine map flip fst snd].
      * exists (negb b :: checks). split; reflexivity.
      * destruct (IH checks j) as [cs [Hcs Hlen]].
        exists (b :: cs). cbn [combine map fst snd List.length].
        rewrite Hcs. split; [reflexivity | now rewrite Hlen].
Qed.

Lemma rowHTML_rows_checked (l : list item) :
  map rowHTML l = rows_checked l (repeat true (List.length l)).
Proof.
  unfold Fbt.rows_checked. induction l as [|a l IH]; [reflexivity|].
  cbn [map List.length repeat combine fst snd]. now rewrite IH.
Qed.

Lemma toggles_rows_checked (idxs : list nat) (x : widget) (checks : list bool) :
  rows x = rows_checked (all x) checks ->
  List.length checks = List.length (all x) ->
  exists checks', rows (toggles idxs x) = rows_checked (all x) checks'
                  /\ List.length checks' = List.length (all x).
Proof.
  unfold Fbt.toggles. revert x checks.
  induction idxs as [|i t IH]; intros x checks Hrows Hlen; simpl.
  - now exists checks.
  - destruct (flip_rows_checked (all x) checks i) as [cs [Hcs Hl]].
    destruct (IH (toggle i x) cs) as [cs' [H1 H2]].
    + simpl. now rewrite Hrows.
    + simpl. congruence.
    + exists cs'. simpl in H1, H2. split; assumption.
Qed.

Lemma mounted_rows_checked
    (d : document) (net : fetch_outcome) (p : page) (idxs : list nat) :
  onReady d net = Mounted p ->
  exists checks,
    rows (toggles idxs (w p)) = rows_checked (all (toggles idxs (w p))) checks
    /\ List.length checks = List.length (all (toggles idxs (w p))).
Proof.
  intro Hm. destruct (onReady_mounted_inv d net p Hm) as [r [l [_ [Hw _]]]].
  rewrite toggles_all.
  apply (toggles_rows_checked idxs (w p) (repeat true (List.length l))).
  - rewrite Hw. cbn [rows all Fbt.recompute].
    rewrite render_rows, render_all. apply rowHTML_rows_checked.
  - rewrite Hw. cbn [all Fbt.recompute]. rewrite render_all. apply repeat_length.
Qed.

Lemma lines_of_selection (l : list item) (checks : list bool) :
  lines (rows_checked l checks)
  = map (fun it => (reread (Number (variant_id it)), 1)) (selection l checks).
Proof.
  unfold lines, Fbt.rows_checked, selection.
  induction (combine l checks) as [|[it b] t IH]; [reflexivity|].
  cbn [map filter fst snd checked]. destruct b; cbn [map fst vid]; now rewrite IH.
Qed.

End FbtProperties.

(** The handler mounts the sample pages. *)
Lemma shop_mounts_two_items :
  Fbt.onReady Samples.decimal Samples.plain Samples.shop (Samples.reply Samples.two_items)
  = Fbt.Mounted (Samples.mounted_page Samples.two_items).
Proof. reflexivity. Qed.

(** C1 as stated fails on two entries whose variant ids differ and read
    as the same number: the ids 2^53 and 2^53 + 1 are both the double
    2^53, so once the second box is unchecked the first box still picks
    both entries, and the total shown is 300 where the checked row costs
    100. *)
Lemma recompute_long_ids_counterexample :
  let l := Samples.long_ids in
  let x := Fbt.toggle Samples.decimal 1 (Fbt.w (Samples.mounted_page l)) in
  Fbt.onReady Samples.decimal Samples.plain Samples.shop (Samples.reply l)
  = Fbt.Mounted (Samples.mounted_page l)
  /\ NoDup (map Fbt.variant_id l)
  /\ map Fbt.checked (Fbt.rows x) = [true; false]
  /\ map Fbt.price (Fbt.selection l [true; false]) = [Js.JNum (Js.Fin 100)]
  /\ ("₹" ++ Js.toLocaleString_en_IN
              (Js.Math_round
                 (Fbt.sum_of (fun b => Js.Number Samples.decimal (Fbt.price b))
                             (Fbt.selection l [true; false]))))%string
     = "₹100"
  /\ Fbt.w_saleEl x = "₹300"
  /\ Fbt.w_saleEl x <> "₹100".
Proof.
  cbv zeta. split; [vm_compute; reflexivity|]. split.
  - cbn [map Samples.long_ids Fbt.variant_id].
    constructor; [intros [H|[]]; discriminate|].
    constructor; [intros []|constructor].
  - do 4 (split; [vm_compute; reflexivity|]).
    vm_compute. discriminate.
Qed.

(** The code also counts an entry without [price] as zero, where
    [Number(undefined)] is [NaN]: it shows the price of the other
    entry. *)
Lemma recompute_missing_price_counts_zero :
  Fbt.onReady Samples.decimal Samples.plain Samples.shop
              (Samples.reply Samples.unpriced)
  = Fbt.Mounted (Samples.mounted_page Samples.unpriced)
  /\ let x := Fbt.w (Samples.mounted_page Samples.unpriced) in
     let stated_sum :=
       Fbt.sum_of (fun b => Js.Number Samples.decimal (Fbt.price b))
                  (Fbt.selection Samples.unpriced [true; true]) in
     Fbt.rows x = Fbt.rows_checked Samples.decimal Samples.unpriced [true; true]
     /\ Fbt.distinct_ids Samples.decimal Samples.unpriced
     /\ Fbt.w_saleEl x = "₹100"
     /\ stated_sum = Js.NaN
     /\ ("₹" ++ Js.toLocaleString_en_IN (Js.Math_round stated_sum))%string = "₹NaN".
Proof.
  split; [reflexivity|]. cbv zeta.
  split; [reflexivity|]. split.
  - repeat constructor.
  - repeat split.
Qed.

(** Two entries priced 99.50 and 50.25, both boxes checked: the sum
    149.75 is shown rounded, and so is the compare sum 180.4. *)
Lemma recompute_totals_distinct_ids_witness :
  let x := Fbt.w (Samples.mounted_page Samples.fractions) in
  Fbt.w_saleEl (Fbt.recompute Samples.decimal x) = "₹150"
  /\ Fbt.w_compEl (Fbt.recompute Samples.decimal x) = "₹180".
Proof.
  assert (Hd : Fbt.distinct_ids Samples.decimal Samples.fractions)
    by (repeat constructor).
  destruct (recompute_totals_distinct_ids Samples.decimal
              (Fbt.w (Samples.mounted_page Samples.fractions)) [true; true]
              Hd eq_refl) as [Hsale [_ Hcomp]].
  split; [exact Hsale | exact (Hcomp eq_refl)].
Defined.


(** Both boxes of a two-row widget unchecked, one after the other. *)
Lemma add_button_disabled_iff_none_checked_witness :
  let x := Fbt.toggles Samples.decimal [0; 1]%nat
                       (Fbt.w (Samples.mounted_page Samples.two_items)) in
  Fbt.addBtn_disabled x = negb (existsb Fbt.checked (Fbt.rows x))
  /\ (existsb Fbt.checked (Fbt.rows x) = false ->
      forall net',
        Fbt.onAddClick net' (Fbt.with_widget (Samples.mounted_page Samples.two_items) x)
        = Fbt.with_widget (Samples.mounted_page Samples.two_items) x).
Proof.
  apply (add_button_disabled_iff_none_checked Samples.decimal Samples.plain
           Samples.shop (Samples.reply Samples.two_items)
           (Samples.mounted_page Samples.two_items) [0; 1]%nat).
  reflexivity.
Defined.

(** C8.  The box the script renders itself, both rows checked, and a
    click on the add button.  The listener sends its one POST and, on a
    failure, leaves the location alone; but the button is a submit button
    inside the form of the box and the listener never cancels the click,
    so in every case the form is submitted as well: the page is left
    also when the request fails. *)
Theorem add_click_submits_form :
  let q := Samples.mounted_page Samples.two_items in
  let rq := {| Net.method := "POST";
               Net.url := "/cart/batch-add/";
               Net.headers := [("Content-Type", "application/json");
                               ("X-Requested-With", "XMLHttpRequest");
                               ("X-CSRFToken", "token")];
               Net.req_body := Net.JsonLines [(Js.Fin 1, 1); (Js.Fin 2, 1)] |} in
  Fbt.onReady Samples.decimal Samples.plain Samples.shop (Samples.reply Samples.two_items)
  = Fbt.Mounted q
  /\ Fbt.addBtn_submits (Fbt.w q) = true
  /\ Fbt.form_submits q = 0%nat
  /\ (let after := Fbt.clickAddBtn Fbt.NetworkError q in
      Fbt.sent after = Fbt.sent q ++ [rq]
      /\ Fbt.href after = Fbt.href q
      /\ Fbt.form_submits after = 1%nat)
  /\ (let after := Fbt.clickAddBtn Samples.failure q in
      Fbt.sent after = Fbt.sent q ++ [rq]
      /\ Fbt.href after = Fbt.href q
      /\ Fbt.form_submits after = 1%nat)
  /\ (let after := Fbt.clickAddBtn (Samples.reply []) q in
      Fbt.sent after = Fbt.sent q ++ [rq]
      /\ Fbt.href after = "/cart/"
      /\ Fbt.form_submits after = 1%nat).
Proof. cbv zeta. repeat split. Qed.

(** A click on the freshly rendered two-row widget, the network down. *)
Lemma batch_lines_follow_checked_rows_witness :
  let q := Samples.mounted_page Samples.two_items in
  exists rq ls,
    Fbt.sent (Fbt.onAddClick Fbt.NetworkError q) = Fbt.sent q ++ [rq]
    /\ Net.req_body rq = Net.JsonLines ls
    /\ List.length ls = List.length (filter Fbt.checked (Fbt.rows (Fbt.w q)))
    /\ Forall (fun ln => snd ln = 1) ls
    /\ forall i, nth_error ls i
                 = option_map (fun c => (Fbt.vid c, 1))
                              (nth_error (filter Fbt.checked (Fbt.rows (Fbt.w q))) i).
Proof.
  apply (batch_lines_follow_checked_rows
           (Samples.mounted_page Samples.two_items) Fbt.NetworkError).
  reflexivity.
Defined.


(** ** Gallery mounter *)

Section EffFacts.
Import Eff.

Context {S : Type}.

Lemma never_throws_ret {A : Type} (a : A) : never_throws (@ret S A a).
Proof. intro s. exact I. Qed.

Lemma never_throws_get : never_throws (@get S).
Proof. intro s. exact I. Qed.

Lemma never_throws_modify (f : S -> S) : never_throws (modify f).
Proof. intro s. exact I. Qed.

Lemma never_throws_bind {A B : Type} (c : M S A) (k : A -> M S B) :
  never_throws c -> (forall a, never_throws (k a)) -> never_throws (bind c k).
Proof.
  intros Hc Hk s. unfold returns, bind. specialize (Hc s). unfold returns in Hc.
  destruct (c s) as [[a|e] s']; simpl in *; [apply (Hk a s') | contradiction].
Qed.

Lemma never_throws_try_catch {A : Type} (c : M S A) (h : exn -> M S A) :
  (forall e, never_throws (h e)) -> never_throws (try_catch c h).
Proof.
  intros Hh s. unfold returns, try_catch.
  destruct (c s) as [[a|e] s']; simpl; [exact I | apply (Hh e s')].
Qed.

Lemma never_throws_forEach {A : Type} (f : A -> M S unit) (l : list A) :
  (forall x, never_throws (f x)) -> never_throws (forEach f l).
Proof.
  intro Hf. induction l as [|x t IH]; simpl.
  - apply never_throws_ret.
  - apply never_throws_bind; [apply Hf | intros _; exact IH].
Qed.

Lemma never_throws_when (b : bool) (c : M S unit) :
  never_throws c -> never_throws (when b c).
Proof. intro Hc. destruct b; simpl; [exact Hc | apply never_throws_ret]. Qed.

Lemma keeps_ret {A B : Type} (proj : S -> B) (a : A) : keeps proj (@ret S A a).
Proof. intro s. reflexivity. Qed.

Lemma keeps_get {B : Type} (proj : S -> B) : keeps proj (@get S).
Proof. intro s. reflexivity. Qed.

Lemma keeps_modify {B : Type} (proj : S -> B) (f : S -> S) :
  (forall s, proj (f s) = proj s) -> keeps proj (modify f).
Proof. intros H s. apply H. Qed.

Lemma keeps_bind {A B C : Type} (proj : S -> C) (c : M S A) (k : A -> M S B) :
  keeps proj c -> (forall a, keeps proj (k a)) -> keeps proj (bind c k).
Proof.
  intros Hc Hk s. unfold bind. specialize (Hc s).
  destruct (c s) as [[a|e] s']; simpl in *; [|exact Hc].
  now rewrite (Hk a s').
Qed.

Lemma keeps_try_catch {A C : Type} (proj : S -> C) (c : M S A) (h : exn -> M S A) :
  keeps proj c -> (forall e, keeps proj (h e)) -> keeps proj (try_catch c h).
Proof.
  intros Hc Hh s. unfold try_catch. specialize (Hc s).
  destruct (c s) as [[a|e] s']; simpl in *; [exact Hc|].
  now rewrite (Hh e s').
Qed.

Lemma keeps_forEach {A C : Type} (proj : S -> C) (f : A -> M S unit) (l : list A) :
  (forall x, keeps proj (f x)) -> keeps proj (forEach f l).
Proof.
  intro Hf. induction l as [|x t IH]; simpl.
  - apply keeps_ret.
  - apply keeps_bind; [apply Hf | intros _; exact IH].
Qed.

Lemma keeps_when {C : Type} (proj : S -> C) (b : bool) (c : M S unit) :
  keeps proj c -> keeps proj (when b c).
Proof. intro Hc. destruct b; simpl; [exact Hc | apply keeps_ret]. Qed.

(** A sequence returns when its first part does and the rest returns
    from where the first part ended. *)
Lemma returns_bind {A B : Type} (c : M S A) (k : A -> M S B) (s : S) :
  returns c s -> (forall a, fst (c s) = Ok a -> returns (k a) (snd (c s))) ->
  returns (bind c k) s.
Proof.
  unfold returns, bind. destruct (c s) as [[a|e] s']; simpl; [|contradiction].
  intros _ H. now apply H.
Qed.

(** What keeps a part of the store keeps everything read from it. *)
Lemma keeps_within {A B C : Type} (proj : S -> B) (f : B -> C) (c : M S A) :
  keeps proj c -> keeps (fun s => f (proj s)) c.
Proof. intros H s. unfold keeps in H. now rewrite H. Qed.

(** After a computation that returned, [bind] goes on with its result. *)
Lemma bind_returned {A B : Type} (c : M S A) (k : A -> M S B) (s : S) :
  returns c s ->
  exists a, fst (c s) = Ok a /\ bind c k s = k a (snd (c s)).
Proof.
  unfold returns, bind. destruct (c s) as [[a|e] s']; simpl; [|contradiction].
  intros _. now exists a.
Qed.

End EffFacts.

Create HintDb safe.

Section ZoomProperties.
Import Eff Zoom.

Variable engine : string -> dom -> found.
Variable throws : nat -> lib_call -> bool.

#[local] Abbreviation lib := (Zoom.lib throws).
#[local] Abbreviation resetToFirst := (Zoom.resetToFirst throws).
#[local] Abbreviation destroyMounted := (Zoom.destroyMounted throws).
#[local] Abbreviation updateBtn := (Zoom.updateBtn engine).
#[local] Abbreviation initOneGallery := (Zoom.initOneGallery engine throws).
#[local] Abbreviation mountGroup := (Zoom.mountGroup engine throws).
#[local] Abbreviation mountAllGalleries := (Zoom.mountAllGalleries engine throws).

Lemma lib_never_throws (c : lib_call) (effect : list swiper -> list swiper) :
  (forall n, throws n c = false) -> never_throws (lib c effect).
Proof. intros H s. unfold returns, Zoom.lib. now rewrite H. Qed.

(** A sequence never throws when none of its steps does. *)
Ltac sequence :=
  repeat first
    [ apply never_throws_ret
    | apply never_throws_get
    | apply never_throws_modify
    | apply never_throws_when
    | apply never_throws_forEach; intro
    | apply never_throws_try_catch; intro
    | apply never_throws_bind; [ | intro ] ].

(** [resetToFirst] swallows whatever [update] and [slideTo] throw. *)
Lemma resetToFirst_never_throws (p : pair) : never_throws (resetToFirst p).
Proof. unfold Zoom.resetToFirst. sequence. Qed.

(** [destroyMounted] swallows whatever [destroy] throws. *)
Lemma destroyMounted_never_throws : never_throws destroyMounted.
Proof. unfold Zoom.destroyMounted. sequence. Qed.

#[local] Hint Resolve resetToFirst_never_throws destroyMounted_never_throws : safe.

(** The deferred reset calls never throw either. *)
Lemma fireLoad_never_throws : never_throws (Zoom.fireLoad throws).
Proof. unfold Zoom.fireLoad. sequence; auto with safe. Qed.

Lemma runTimers_never_throws : never_throws (Zoom.runTimers throws).
Proof. unfold Zoom.runTimers. sequence; auto with safe. Qed.

(** *** What the steps of a mount leave alone *)


Lemma keeps_gallery {A : Type} (c : M state A) : keeps page c -> keeps gallery c.
Proof. intros H x. unfold gallery. now rewrite (H x). Qed.

Lemma lib_keeps_page (c : lib_call) (effect : list swiper -> list swiper) :
  keeps page (lib c effect).
Proof. intro s. unfold Zoom.lib. now destruct (throws _ _). Qed.

Lemma resetToFirst_keeps_page (p : pair) : keeps page (resetToFirst p).
Proof.
  apply keeps_try_catch; [|intro e; apply keeps_ret].
  repeat (apply keeps_bind; [apply lib_keeps_page | intros _]).
  apply lib_keeps_page.
Qed.

(** Teardown removes no listener of the page: it only destroys instances. *)
Lemma destroyMounted_keeps_page : keeps page destroyMounted.
Proof.
  unfold Zoom.destroyMounted.
  apply keeps_bind; [apply keeps_get | intro s].
  apply keeps_bind; [| intros _; apply keeps_modify; reflexivity].
  apply keeps_forEach. intro p.
  apply keeps_try_catch; [|intro e; apply keeps_ret].
  apply keeps_bind; [apply lib_keeps_page | intros _; apply lib_keeps_page].
Qed.

Lemma destroyMounted_keeps_window_load : keeps window_load destroyMounted.
Proof.
  unfold Zoom.destroyMounted.
  apply keeps_bind; [apply keeps_get | intro s].
  apply keeps_bind; [| intros _; apply keeps_modify; reflexivity].
  apply keeps_forEach. intro p.
  apply keeps_try_catch; [|intro e; apply keeps_ret].
  apply keeps_bind; intros; intro s'; unfold Zoom.destroy, Zoom.lib;
    now destruct (throws _ _).
Qed.

Lemma newSwiper_keeps_page (selector : string) (link : option nat) :
  keeps page (Zoom.newSwiper throws selector link).
Proof.
  unfold Zoom.newSwiper.
  apply keeps_bind; [apply keeps_get | intro s].
  apply keeps_bind; [apply lib_keeps_page | intros _; apply keeps_ret].
Qed.

(** [updateBtn] moves the [active] class and rewrites the two labels,
    also when it throws; elements, selectors, colours and listeners stay
    as they are. *)
Lemma on_button_frame (k : nat) (l : list color_btn) :
  map color (on_button k activate l) = map color l
  /\ map clicks (on_button k activate l) = map clicks l.
Proof.
  revert k. induction l as [|b t IH]; intro k; [now destruct k|].
  destruct k as [|j]; cbn [on_button map]; [now split|].
  destruct (IH j) as [H1 H2]. now rewrite H1, H2.
Qed.

Lemma updateBtn_frame (el idx : nat) (s : state) :
  let s' := snd (updateBtn el idx s) in
  _mounted s' = _mounted s
  /\ instances s' = instances s
  /\ calls s' = calls s
  /\ window_load s' = window_load s
  /\ timers s' = timers s
  /\ present (page s') = present (page s)
  /\ gallery s' = gallery s
  /\ map color (color_btns (page s')) = map color (color_btns (page s))
  /\ map clicks (color_btns (page s')) = map clicks (color_btns (page s)).
Proof.
  unfold Zoom.updateBtn, bind, get, modify, gallery.
  destruct (nth_error (slides_of (page s) el) idx) as [[col|]|]; try now repeat split.
  destruct (String.eqb col ""); [now repeat split|].
  cbn [fst snd].
  assert (Hd : map color (color_btns (deactivated (page s))) = map color (color_btns (page s))
               /\ map clicks (color_btns (deactivated (page s)))
                  = map clicks (color_btns (page s))).
  { unfold deactivated. cbn [color_btns with_color_btns]. rewrite !map_map. now split. }
  destruct Hd as [Hc Hl].
  destruct (querySelector_color engine col _) as [| |k|]; cbn [fst snd throw];
    cbn [_mounted instances calls window_load timers page with_page present main_el
         elements color_btns marked deactivated with_color_btns];
    repeat split; try assumption;
    destruct (on_button_frame k (map deactivate (color_btns (page s)))) as [H1 H2];
    unfold deactivated in Hc, Hl; cbn [color_btns with_color_btns] in Hc, Hl;
    congruence.
Qed.

(** It returns unless the selector it builds is not valid. *)
Lemma updateBtn_returns (el idx : nat) (s : state) :
  (forall col d', nth_error (slides_of (page s) el) idx = Some (Some col) ->
                  querySelector_color engine col d' <> Invalid) ->
  fst (updateBtn el idx s) = Ok tt.
Proof.
  intro H. unfold Zoom.updateBtn, bind, get, modify.
  destruct (nth_error (slides_of (page s) el) idx) as [[col|]|]; try reflexivity.
  destruct (String.eqb col ""); [reflexivity|]. cbn [fst snd].
  specialize (H col (page (with_page (deactivated (page s)) s)) eq_refl).
  now destruct (querySelector_color engine col _).
Qed.

Section Builds.

Hypothesis builds_quietly : forall n c, builds c = true -> throws n c = false.

Lemma builds_never_throw (c : lib_call) (effect : list swiper -> list swiper) :
  builds c = true -> never_throws (lib c effect).
Proof. intro H. apply lib_never_throws. intro n. now apply builds_quietly. Qed.

Lemma newSwiper_never_throws (selector : string) (link : option nat) :
  never_throws (Zoom.newSwiper throws selector link).
Proof. unfold Zoom.newSwiper. sequence. now apply builds_never_throw. Qed.

#[local] Hint Resolve newSwiper_never_throws : safe.

(** A step that neither throws nor touches the gallery, before a rest
    that returns from every state with the same gallery. *)
Lemma returns_after {A B : Type} (c : M state A) (k : A -> M state B) (s : state) :
  never_throws c -> keeps gallery c ->
  (forall a s', gallery s' = gallery s -> returns (k a) s') ->
  returns (bind c k) s.
Proof.
  intros Hc Hk Hrest. apply returns_bind; [apply Hc|].
  intros a _. apply Hrest. apply Hk.
Qed.

Lemma selectable_gallery (s s' : state) :
  gallery s' = gallery s -> selectable engine (page s) -> selectable engine (page s').
Proof.
  unfold gallery, selectable, slides, slides_of. intros H Hs col d' Hin.
  injection H as _ H1 H2. rewrite H1, H2 in Hin. now apply Hs.
Qed.

(** With the selectors its slides give rise to all valid, building a
    gallery returns. *)
Lemma initOneGallery_returns (mainSel thumbsSel : string) (colorSync : bool) (s : state) :
  selectable engine (page s) ->
  returns (initOneGallery mainSel thumbsSel colorSync) s.
Proof.
  intro Hs. unfold Zoom.initOneGallery.
  apply returns_bind; [exact I | intros s0 E]. injection E as <-. cbn [snd get].
  destruct (negb _); [exact I|].
  apply returns_after; [auto with safe | apply keeps_gallery, newSwiper_keeps_page|].
  intros t s1 H1.
  apply returns_after; [auto with safe | apply keeps_gallery, newSwiper_keeps_page|].
  intros m s2 H2.
  apply returns_after;
    [auto with safe | apply keeps_gallery, resetToFirst_keeps_page|].
  intros _ s3 H3.
  apply returns_after;
    [apply never_throws_modify | apply keeps_modify; reflexivity|].
  intros _ s4 H4.
  apply returns_after;
    [apply never_throws_modify | apply keeps_modify; reflexivity|].
  intros _ s5 H5.
  apply returns_bind; [|intros; exact I].
  destruct colorSync; [|exact I]. cbn [when].
  apply returns_after;
    [now apply builds_never_throw | apply keeps_gallery, lib_keeps_page|].
  intros _ s6 H6.
  apply returns_after;
    [apply never_throws_modify | apply keeps_modify; reflexivity|].
  intros _ s7 H7.
  apply returns_bind; [exact I | intros s8 E]. injection E as <-. cbn [snd get].
  assert (Hg : gallery s7 = gallery s) by congruence.
  pose proof (selectable_gallery s s7 Hg Hs) as Hs7.
  unfold returns. rewrite updateBtn_returns; [exact I|].
  intros col d' Hcol. apply Hs7.
  unfold slides. unfold gallery in Hg. injection Hg as _ Hm _. rewrite Hm.
  now apply (nth_error_In _ (index_of m s7)).
Qed.

Lemma mountGroup_returns (t m : string) (colorSync : bool) (s : state) :
  selectable engine (page s) -> returns (mountGroup t m colorSync) s.
Proof.
  intro Hs. unfold Zoom.mountGroup.
  apply returns_bind; [exact I | intros s0 E]. injection E as <-. cbn [snd get].
  destruct (_ && _); [|exact I]. cbn [when].
  apply returns_bind; [now apply initOneGallery_returns|].
  intros p _. now destruct p.
Qed.

(** A gallery without colour sync is built whatever the slides are. *)
Lemma mountGroup_plain_never_throws (t m : string) :
  never_throws (mountGroup t m false).
Proof.
  unfold Zoom.mountGroup, Zoom.initOneGallery.
  apply never_throws_bind; [apply never_throws_get | intro s].
  apply never_throws_when.
  apply never_throws_bind; [|intros [q|]; cbn [push]; sequence].
  apply never_throws_bind; [apply never_throws_get | intro s0].
  destruct (negb _); sequence; auto with safe; now apply builds_never_throw.
Qed.

Lemma mountGroup_keeps_gallery (t m : string) (c : bool) : keeps gallery (mountGroup t m c).
Proof.
  unfold Zoom.mountGroup, Zoom.initOneGallery.
  apply keeps_bind; [apply keeps_get | intro s].
  apply keeps_when.
  apply keeps_bind; [|intros [q|]; [apply keeps_modify; reflexivity | apply keeps_ret]].
  apply keeps_bind; [apply keeps_get | intro s0].
  destruct (negb _); [apply keeps_ret|].
  apply keeps_bind; [apply keeps_gallery, newSwiper_keeps_page | intro t'].
  apply keeps_bind; [apply keeps_gallery, newSwiper_keeps_page | intro m'].
  apply keeps_bind; [apply keeps_gallery, resetToFirst_keeps_page | intros _].
  apply keeps_bind; [apply keeps_modify; reflexivity | intros _].
  apply keeps_bind; [apply keeps_modify; reflexivity | intros _].
  apply keeps_bind; [|intros _; apply keeps_ret].
  apply keeps_when.
  apply keeps_bind; [apply keeps_gallery, lib_keeps_page | intros _].
  apply keeps_bind; [apply keeps_modify; reflexivity | intros _].
  apply keeps_bind; [apply keeps_get | intro s1].
  intro x. apply (updateBtn_frame (main_el (page s0)) (index_of m' s1) x).
Qed.

Lemma mountAllGalleries_returns (s : state) :
  selectable engine (page s) -> returns mountAllGalleries s.
Proof.
  intro Hs. unfold Zoom.mountAllGalleries.
  apply returns_after;
    [auto with safe | apply keeps_gallery, destroyMounted_keeps_page|].
  intros _ s1 H1.
  apply returns_bind;
    [apply mountGroup_returns; now apply (selectable_gallery s s1)|].
  intros _ _.
  apply never_throws_forEach. intro tm. apply mountGroup_plain_never_throws.
Qed.

End Builds.

Lemma mountAllGalleries_keeps_gallery : keeps gallery mountAllGalleries.
Proof.
  unfold Zoom.mountAllGalleries.
  apply keeps_bind; [apply keeps_gallery, destroyMounted_keeps_page | intros _].
  apply keeps_bind; [apply mountGroup_keeps_gallery | intros _].
  apply keeps_forEach. intro tm. apply mountGroup_keeps_gallery.
Qed.

(** C7, as the code has it.  Whatever the slider library throws from
    [destroy], [update] or [slideTo], teardown and the reset calls,
    immediate or deferred, return normally; gallery mount returns
    normally for every behaviour of the library in which the constructor
    and the [slideChange] registration do not throw, on a page where the
    colour of every slide of the main element makes a valid selector. *)
Theorem mount_and_teardown_swallow_library_errors (s : state) :
  returns destroyMounted s
  /\ (forall p, returns (resetToFirst p) s)
  /\ returns (Zoom.fireLoad throws) s
  /\ returns (Zoom.runTimers throws) s
  /\ ((forall n c, builds c = true -> throws n c = false) ->
      selectable engine (page s) ->
      returns mountAllGalleries s).
Proof.
  split; [apply destroyMounted_never_throws|].
  split; [intro p; apply resetToFirst_never_throws|].
  split; [apply fireLoad_never_throws|].
  split; [apply runTimers_never_throws|].
  intros H Hs. now apply mountAllGalleries_returns.
Qed.

End ZoomProperties.

(** Plain colours make valid selectors, whatever the engine does with
    the others. *)
Lemma plain_selectable (engine : string -> Zoom.dom -> Zoom.found) (d : Zoom.dom) :
  (forall col, In (Some col) (Zoom.slides d) -> Zoom.plain col = true) ->
  Zoom.selectable engine d.
Proof.
  intros H col d' Hin. unfold Zoom.querySelector_color. rewrite (H col Hin).
  now destruct (Zoom.first_of_color col (Zoom.color_btns d')).
Qed.

(** C7 as stated fails: an exception of the constructor leaves
    [mountAllGalleries] uncaught. *)
Lemma mount_constructor_throw_counterexample :
  fst (Zoom.mountAllGalleries Zoom.strict Zoom.broken_constructor Samples.fresh_page)
  = Eff.Throw Eff.LibraryError
  /\ ~ Eff.returns (Zoom.mountAllGalleries Zoom.strict Zoom.broken_constructor)
                   Samples.fresh_page.
Proof. split; [reflexivity | intro H; exact H]. Qed.

(** A library in which [destroy], [update] and [slideTo] always throw,
    on the mounted sample page, whose slides are red and blue. *)
Lemma mount_and_teardown_swallow_library_errors_witness :
  Eff.returns
    (Zoom.mountAllGalleries Zoom.strict (fun _ c => negb (Zoom.builds c)))
    Samples.mounted_once.
Proof.
  apply (mount_and_teardown_swallow_library_errors Zoom.strict
           (fun _ c => negb (Zoom.builds c)) Samples.mounted_once).
  - intros n c H. rewrite H. reflexivity.
  - apply plain_selectable. intros col [H|[H|[]]]; injection H as <-; reflexivity.
Defined.

(** With a library that never throws, a slide colour that holds a double
    quote makes [updateBtn] build a selector that is not valid: the
    SyntaxError leaves [mountAllGalleries] with the instances built and
    the registry empty. *)
Lemma mount_quoted_color_throws :
  let r := Zoom.mountAllGalleries Zoom.strict Zoom.quiet Samples.quoted_page in
  fst r = Eff.Throw Eff.SyntaxError
  /\ Zoom._mounted (snd r) = []
  /\ Zoom.flags (snd r) = [false; false].
Proof. cbv zeta. repeat split. Qed.

(** *** Listeners across remounts *)

Section ZoomListeners.
Import Eff Zoom.

Variable engine : string -> dom -> found.
Variable throws : nat -> lib_call -> bool.

(** A numbered gallery is mounted without touching the colour buttons. *)
Lemma mountGroup_plain_keeps_page (t m : string) :
  keeps page (Zoom.mountGroup engine throws t m false).
Proof.
  unfold Zoom.mountGroup.
  apply keeps_bind; [apply keeps_get | intro s].
  apply keeps_when.
  apply keeps_bind.
  - unfold Zoom.initOneGallery.
    apply keeps_bind; [apply keeps_get | intro s0].
    destruct (negb _); [apply keeps_ret|].
    apply keeps_bind; [apply newSwiper_keeps_page | intro t'].
    apply keeps_bind; [apply newSwiper_keeps_page | intro m'].
    apply keeps_bind; [apply resetToFirst_keeps_page | intros _].
    apply keeps_bind; [apply keeps_modify; reflexivity | intros _].
    apply keeps_bind; [apply keeps_modify; reflexivity | intros _].
    apply keeps_bind; [simpl; apply keeps_ret | intros _; apply keeps_ret].
  - intros [q|]; simpl; [apply keeps_modify; reflexivity | apply keeps_ret].
Qed.

Lemma numbered_keep_page :
  keeps page
    (forEach (fun tm => Zoom.mountGroup engine throws (fst tm) (snd tm) false) numbered).
Proof. apply keeps_forEach. intro tm. apply mountGroup_plain_keeps_page. Qed.

End ZoomListeners.

Section ZoomQuiet.
Import Eff Zoom.

Variable engine : string -> dom -> found.

(** With a library that does not throw, [initOneGallery] on a group that
    is in the page reaches [built], and with colour sync [synced], from
    where [updateBtn] runs. *)
Lemma initOneGallery_quiet (m t : string) (c : bool) (x : state) :
  querySelector m (page x) && querySelector t (page x) = true ->
  initOneGallery engine quiet m t c x
  = if c
    then bind (updateBtn engine (main_el (page x))
                 (index_of (S (List.length (instances x))) (synced t m x)))
              (fun _ => ret (Some (next_pair x))) (synced t m x)
    else (Ok (Some (next_pair x)), built t m x).
Proof.
  intro Hp. unfold initOneGallery, bind at 1, get. rewrite Hp. cbn [negb].
  assert (Hn : List.length (instances x ++ [fresh t None])
               = S (List.length (instances x)))
    by (rewrite length_app; simpl; lia).
  destruct c;
    unfold newSwiper, resetToFirst, update, slideTo, on_slideChange, lib, quiet,
      try_catch, bind, get, modify, when, ret;
    cbn [fst snd main thumbs builds instances calls with_instances with_calls page
         with_window_load with_timers with_page window_load timers _mounted];
    rewrite !Hn; unfold synced, built, next_pair, with_page;
    cbn [fst snd main thumbs builds instances calls with_instances with_calls page
         with_window_load with_timers with_page window_load timers _mounted];
    rewrite <- !app_assoc; reflexivity.
Qed.

(** One selector group that is in the page, with such a library. *)
Lemma mountGroup_quiet (t m : string) (c : bool) (x : state) :
  querySelector t (page x) && querySelector m (page x) = true ->
  mountGroup engine quiet t m c x
  = if c
    then match updateBtn engine (main_el (page x))
                 (index_of (S (List.length (instances x))) (synced t m x))
                 (synced t m x) with
         | (Ok _, y) => (Ok tt, with_mounted (_mounted y ++ [next_pair x]) y)
         | (Throw e, y) => (Throw e, y)
         end
    else (Ok tt, with_mounted (_mounted x ++ [next_pair x]) (built t m x)).
Proof.
  intro Hp.
  assert (Hp' : querySelector m (page x) && querySelector t (page x) = true)
    by (now rewrite andb_comm).
  unfold mountGroup, bind at 1, get. rewrite Hp. cbn [when].
  unfold bind at 1. rewrite (initOneGallery_quiet m t c x Hp').
  destruct c; [|reflexivity].
  unfold bind at 1. now destruct (updateBtn engine _ _ _) as [[u|e] y].
Qed.

(** [updateBtn] adds or drops no listener, also when it throws. *)
Lemma updateBtn_clicks (el idx : nat) (s : state) :
  click_counts (snd (updateBtn engine el idx s)) = click_counts s.
Proof.
  destruct (updateBtn_frame engine el idx s) as (_ & _ & _ & _ & _ & _ & _ & _ & H).
  unfold click_counts.
  rewrite <- (map_map clicks (@List.length listener)), H, map_map. reflexivity.
Qed.

Lemma click_counts_synced (t m : string) (x : state) :
  click_counts (synced t m x) = map S (click_counts x).
Proof.
  unfold click_counts, synced. cbn [page color_btns with_color_btns].
  rewrite !map_map. apply map_ext. intro b. cbn [add_click clicks].
  rewrite length_app. simpl. lia.
Qed.

(** With the primary gallery in the page and a library that does not
    throw, one mount adds one click listener to every colour button,
    whether [updateBtn] throws or not. *)
Lemma mountGroup_primary_adds_click (s : state) :
  group_present (page s) (".thumbs-slider", ".tf-product-media-main") = true ->
  let s' := snd (mountGroup engine quiet ".thumbs-slider" ".tf-product-media-main" true s) in
  click_counts s' = map S (click_counts s)
  /\ present (page s') = present (page s).
Proof.
  unfold group_present. cbn [fst snd]. intro Hp.
  rewrite (mountGroup_quiet _ _ true s Hp).
  set (el := main_el (page s)). set (idx := index_of _ _).
  pose proof (updateBtn_clicks el idx (synced ".thumbs-slider" ".tf-product-media-main" s))
    as Hc.
  destruct (updateBtn_frame engine el idx
              (synced ".thumbs-slider" ".tf-product-media-main" s))
    as (_ & _ & _ & _ & _ & Hq & _).
  rewrite click_counts_synced in Hc.
  destruct (updateBtn engine el idx _) as [[u|e] y]; cbn [fst snd] in *;
    split; assumption.
Qed.

Lemma mountAllGalleries_adds_click (s : state) :
  group_present (page s) (".thumbs-slider", ".tf-product-media-main") = true ->
  click_counts (snd (mountAllGalleries engine quiet s)) = map S (click_counts s)
  /\ present (page (snd (mountAllGalleries engine quiet s))) = present (page s).
Proof.
  intro Hp. unfold mountAllGalleries.
  destruct (bind_returned (destroyMounted quiet)
              (fun _ => bind (mountGroup engine quiet ".thumbs-slider"
                                ".tf-product-media-main" true)
                          (fun _ => forEach (fun tm => mountGroup engine quiet
                                                         (fst tm) (snd tm) false)
                                            numbered))
              s (destroyMounted_never_throws quiet s)) as [u [_ ->]].
  pose proof (destroyMounted_keeps_page quiet s) as Hd.
  set (sd := snd (destroyMounted quiet s)) in *.
  assert (Hpd : group_present (page sd)
                  (".thumbs-slider", ".tf-product-media-main") = true)
    by (now rewrite Hd).
  destruct (mountGroup_primary_adds_click sd Hpd) as [Hcnt Hpresent].
  set (r := bind (mountGroup _ _ _ _ _) _ sd).
  assert (Hr : click_counts (snd r) = map S (click_counts sd)
               /\ present (page (snd r)) = present (page sd)).
  { unfold r, bind.
    destruct (mountGroup engine quiet ".thumbs-slider" ".tf-product-media-main" true sd)
      as [[[]|e] sm]; cbn [fst snd] in *; [|now split].
    pose proof (numbered_keep_page engine quiet sm) as Hn.
    unfold click_counts in *. rewrite Hn. now split. }
  unfold click_counts in *. destruct Hr as [-> ->]. now rewrite Hd.
Qed.

(** Every remount leaves a further click listener on every colour
    button: after [n] mounts each button carries [n] more. *)
Lemma remount_accumulates_clicks (n : nat) (s : state) :
  group_present (page s) (".thumbs-slider", ".tf-product-media-main") = true ->
  click_counts (remount engine quiet n s) = map (Nat.add n) (click_counts s)
  /\ present (page (remount engine quiet n s)) = present (page s).
Proof.
  intro Hp. induction n as [|n [IHc IHp]]; simpl.
  - split; [|reflexivity]. rewrite <- (map_id (click_counts s)) at 1.
    apply map_ext. reflexivity.
  - assert (Hp' : group_present (page (remount engine quiet n s))
                    (".thumbs-slider", ".tf-product-media-main") = true).
    { unfold group_present, querySelector in *. now rewrite IHp. }
    destruct (mountAllGalleries_adds_click _ Hp') as [Hc Hq].
    rewrite Hc, IHc, map_map, Hq, IHp. split; reflexivity.
Qed.

End ZoomQuiet.

(** *** The registry across remounts *)

Section ZoomRegistry.
Import Eff Zoom.

Variable engine : string -> dom -> found.

Lemma flags_update_at_keep (i : nat) (f : swiper -> swiper) (l : list swiper) :
  (forall x, destroyed (f x) = destroyed x) ->
  map destroyed (update_at i f l) = map destroyed l.
Proof.
  intro Hf. revert i. induction l as [|x t IH]; intro i; [now destruct i|].
  destruct i as [|j]; simpl; [now rewrite Hf | now rewrite IH].
Qed.

Lemma flags_update_at_mark (i : nat) (l : list swiper) :
  map destroyed (update_at i mark_destroyed l) = mark_flag i (map destroyed l).
Proof.
  revert i. induction l as [|x t IH]; intro i; [now destruct i|].
  destruct i as [|j]; simpl; [reflexivity | now rewrite IH].
Qed.

Lemma mark_flag_length (i : nat) (l : list bool) :
  List.length (mark_flag i l) = List.length l.
Proof.
  revert i. induction l as [|b t IH]; intro i; [now destruct i|].
  destruct i as [|j]; simpl; [reflexivity | now rewrite IH].
Qed.

Lemma mark_flag_hit (i : nat) (l : list bool) :
  (i < List.length l)%nat -> nth_error (mark_flag i l) i = Some true.
Proof.
  revert i. induction l as [|b t IH]; intros i Hi; simpl in Hi; [lia|].
  destruct i as [|j]; simpl; [reflexivity | apply IH; lia].
Qed.

Lemma mark_flag_mono (i j : nat) (l : list bool) :
  nth_error l j = Some true -> nth_error (mark_flag i l) j = Some true.
Proof.
  revert i j. induction l as [|b t IH]; intros i j H; [now destruct j|].
  destruct i as [|i], j as [|j]; simpl in *; auto.
Qed.

Lemma is_destroyed_flags (s : state) (id : nat) :
  is_destroyed s id = match nth_error (flags s) id with
                      | Some b => b
                      | None => false
                      end.
Proof.
  unfold is_destroyed, flags. rewrite nth_error_map.
  now destruct (nth_error (instances s) id).
Qed.

(** Teardown with a library that does not throw: every pair of the
    registry gets its two [destroy] calls, in order, and nothing else
    happens. *)
Lemma teardown_each (l : list pair) (x : state) :
  let x' := snd (forEach (fun p => try_catch
                                     (bind (destroy quiet (main p))
                                           (fun _ => destroy quiet (thumbs p)))
                                     (fun _ => ret tt)) l x) in
  _mounted x' = _mounted x
  /\ page x' = page x
  /\ calls x' = calls x ++ destroys l
  /\ flags x' = fold_left (fun fl p => mark_flag (thumbs p) (mark_flag (main p) fl))
                          l (flags x).
Proof.
  revert x. induction l as [|p t IH]; intro x; simpl.
  - now rewrite app_nil_r.
  - set (y := with_instances
                (update_at (thumbs p) mark_destroyed
                   (update_at (main p) mark_destroyed (instances x)))
                (with_calls ((calls x ++ [Destroy (main p)]) ++ [Destroy (thumbs p)]) x)).
    assert (Hstep : try_catch (bind (destroy quiet (main p))
                                    (fun _ => destroy quiet (thumbs p)))
                              (fun _ => ret tt) x = (Ok tt, y)) by reflexivity.
    assert (Hrun : forall k : unit -> M state unit,
               bind (fun s => try_catch (bind (destroy quiet (main p))
                                              (fun _ => destroy quiet (thumbs p)))
                                        (fun _ => ret tt) s) k x = k tt y)
      by (intro k; unfold bind at 1; now rewrite Hstep).
    rewrite !Hrun.
    specialize (IH y). cbv zeta in IH. destruct IH as [Hm [Hp [Hc Hf]]].
    rewrite Hm, Hp, Hc, Hf. unfold y, flags. simpl.
    repeat split.
    + now rewrite <- !app_assoc.
    + now rewrite !flags_update_at_mark.
Qed.

Lemma destroyMounted_quiet (x : state) :
  let x' := snd (destroyMounted quiet x) in
  fst (destroyMounted quiet x) = Ok tt
  /\ _mounted x' = []
  /\ page x' = page x
  /\ calls x' = calls x ++ destroys (_mounted x)
  /\ flags x' = fold_left (fun fl p => mark_flag (thumbs p) (mark_flag (main p) fl))
                          (_mounted x) (flags x).
Proof.
  pose proof (teardown_each (_mounted x) x) as H. cbv zeta in H.
  pose proof (never_throws_forEach
                (fun p => try_catch
                            (bind (destroy quiet (main p))
                                  (fun _ => destroy quiet (thumbs p)))
                            (fun _ => ret tt))
                (_mounted x)
                (fun p => never_throws_try_catch _ _ (fun e => never_throws_ret tt))
                x) as Hr.
  unfold returns in Hr.
  unfold destroyMounted, bind, get, modify. simpl.
  destruct (forEach _ (_mounted x) x) as [[u|e] y]; simpl in *; [|contradiction].
  destruct H as [Hm [Hp [Hc Hf]]]. destruct u. now repeat split.
Qed.

Lemma group_present_ext (d d' : dom) (tm : string * string) :
  present d = present d' -> group_present d tm = group_present d' tm.
Proof. intro H. unfold group_present, querySelector. now rewrite H. Qed.

(** One selector group, with a library that does not throw and, where
    colour sync is asked, a page whose slide colours make valid
    selectors: when both elements are in the page, two fresh instances
    are built and their pair is appended to the registry; otherwise
    nothing happens. *)
Lemma mountGroup_quiet_step (t m : string) (c : bool) (x : state) :
  (c = true -> selectable engine (page x)) ->
  let x' := snd (mountGroup engine quiet t m c x) in
  fst (mountGroup engine quiet t m c x) = Ok tt
  /\ List.length (_mounted x')
     = (List.length (_mounted x) + if group_present (page x) (t, m) then 1 else 0)%nat
  /\ (exists k, flags x' = flags x ++ repeat false k)
  /\ (exists cs, calls x' = calls x ++ cs /\ no_destroy cs = true)
  /\ present (page x') = present (page x)
  /\ (intact x -> intact x').
Proof.
  intro Hsel. unfold group_present. cbn [fst snd].
  destruct (querySelector t (page x) && querySelector m (page x)) eqn:Hp.
  - set (n := List.length (instances x)).
    assert (Hfl : forall h : bool,
              map destroyed
                ((if h then update_at (S n) add_handler else fun l => l)
                   (update_at n (set_index 0)
                      (update_at (S n) (set_index 0)
                         ((instances x ++ [fresh t None]) ++ [fresh m (Some n)]))))
              = flags x ++ [false; false]).
    { intro h. unfold flags.
      destruct h; rewrite !flags_update_at_keep by reflexivity;
        rewrite !map_app, <- app_assoc; reflexivity. }
    assert (Hlive : forall fl : list bool,
              fl = flags x ++ [false; false] ->
              (forall p, In p (_mounted x) ->
                 nth_error (flags x) (main p) = Some false
                 /\ nth_error (flags x) (thumbs p) = Some false) ->
              forall p, In p (_mounted x ++ [ {| main := S n; thumbs := n |} ]) ->
                nth_error fl (main p) = Some false
                /\ nth_error fl (thumbs p) = Some false).
    { intros fl -> Hi p Hin.
      assert (Hlen : List.length (flags x) = n) by (unfold flags; apply length_map).
      apply in_app_or in Hin. destruct Hin as [Hin|[<-|[]]]; cbn [main thumbs].
      - destruct (Hi p Hin) as [H1 H2].
        split; rewrite nth_error_app1; try assumption;
          apply nth_error_Some; congruence.
      - split; rewrite nth_error_app2 by lia; rewrite Hlen.
        + replace (S n - n)%nat with 1%nat by lia. reflexivity.
        + rewrite Nat.sub_diag. reflexivity. }
    rewrite (mountGroup_quiet engine t m c x Hp).
    destruct c.
    + set (el := main_el (page x)). set (idx := index_of _ _).
      destruct (updateBtn_frame engine el idx (synced t m x))
        as (Hm & Hi & Hc & _ & _ & Hq & _).
      assert (Hok : fst (updateBtn engine el idx (synced t m x)) = Ok tt).
      { apply updateBtn_returns. intros col d' Hcol.
        apply (Hsel eq_refl). apply (nth_error_In _ idx). exact Hcol. }
      destruct (updateBtn engine el idx (synced t m x)) as [r y].
      cbn [fst snd] in *. subst r. cbn [fst snd].
      split; [reflexivity|].
      cbn [_mounted with_mounted page].
      split; [rewrite length_app, Hm; reflexivity|].
      split; [exists 2%nat; unfold flags; cbn [instances with_mounted];
              rewrite Hi; apply (Hfl true)|].
      split; [eexists; cbn [calls with_mounted]; rewrite Hc;
              unfold synced, built; cbn [calls];
              split; [rewrite <- !app_assoc; reflexivity | reflexivity]|].
      split; [exact Hq|].
      intro Hint. unfold intact, flags. cbn [_mounted instances with_mounted].
      rewrite Hm, Hi. exact (Hlive _ (Hfl true) Hint).
    + cbn [fst snd].
      split; [reflexivity|].
      cbn [_mounted with_mounted page built].
      split; [rewrite length_app; reflexivity|].
      split; [exists 2%nat; unfold flags; cbn [instances with_mounted built];
              apply (Hfl false)|].
      split; [eexists; cbn [calls with_mounted built];
              split; [reflexivity | reflexivity]|].
      split; [reflexivity|].
      intro Hint. unfold intact, flags. cbn [_mounted instances with_mounted built].
      exact (Hlive _ (Hfl false) Hint).
  - unfold mountGroup, bind, get, when. rewrite Hp. cbn [fst snd ret].
    split; [reflexivity|]. split; [lia|].
    split; [exists 0%nat; now rewrite app_nil_r|].
    split; [exists []; now rewrite app_nil_r|].
    split; [reflexivity | auto].
Qed.

(** The numbered galleries, one after the other. *)
Lemma mount_each_quiet (l : list (string * string)) (x : state) :
  let x' := snd (forEach (fun tm => mountGroup engine quiet (fst tm) (snd tm) false) l x) in
  fst (forEach (fun tm => mountGroup engine quiet (fst tm) (snd tm) false) l x) = Ok tt
  /\ List.length (_mounted x')
     = (List.length (_mounted x) + List.length (filter (group_present (page x)) l))%nat
  /\ (exists k, flags x' = flags x ++ repeat false k)
  /\ (exists cs, calls x' = calls x ++ cs /\ no_destroy cs = true)
  /\ present (page x') = present (page x)
  /\ (intact x -> intact x').
Proof.
  revert x. induction l as [|[t m] l IH]; intro x; simpl.
  - split; [reflexivity|]. split; [lia|].
    split; [exists 0%nat; now rewrite app_nil_r|].
    split; [exists []; now rewrite app_nil_r|].
    split; [reflexivity | auto].
  - destruct (mountGroup_quiet_step t m false x ltac:(discriminate))
      as [Hok [Hlen [[k Hk] [[cs [Hcs Hnd]] [Hpres Hint]]]]].
    unfold bind.
    destruct (mountGroup engine quiet t m false x) as [r y]. simpl in *. subst r.
    destruct (IH y) as [Hok' [Hlen' [[k' Hk'] [[cs' [Hcs' Hnd']] [Hpres' Hint']]]]].
    split; [exact Hok'|].
    split.
    { rewrite Hlen', Hlen.
      assert (Hf : filter (group_present (page y)) l = filter (group_present (page x)) l)
        by (apply filter_ext; intro tm; now apply group_present_ext).
      rewrite Hf. destruct (group_present (page x) (t, m)); simpl; lia. }
    split.
    { exists (k + k')%nat. rewrite Hk', Hk, <- app_assoc. f_equal.
      symmetry. apply repeat_app. }
    split.
    { exists (cs ++ cs'). rewrite Hcs', Hcs, <- app_assoc. split; [reflexivity|].
      unfold no_destroy in *. rewrite forallb_app. now rewrite Hnd, Hnd'. }
    split; [now rewrite Hpres', Hpres | auto].
Qed.

Lemma fold_mark_length (l : list pair) (fl : list bool) :
  List.length (fold_left (fun a p => mark_flag (thumbs p) (mark_flag (main p) a)) l fl)
  = List.length fl.
Proof.
  revert fl. induction l as [|p t IH]; intro fl; simpl; [reflexivity|].
  now rewrite IH, !mark_flag_length.
Qed.

Lemma fold_mark_mono (l : list pair) (fl : list bool) (j : nat) :
  nth_error fl j = Some true ->
  nth_error (fold_left (fun a p => mark_flag (thumbs p) (mark_flag (main p) a)) l fl) j
  = Some true.
Proof.
  revert fl. induction l as [|p t IH]; intros fl H; simpl; [exact H|].
  apply IH. now apply mark_flag_mono, mark_flag_mono.
Qed.

(** Teardown marks both instances of every registered pair. *)
Lemma fold_mark_hit (l : list pair) (fl : list bool) (p : pair) :
  In p l ->
  (main p < List.length fl)%nat ->
  (thumbs p < List.length fl)%nat ->
  let fl' := fold_left (fun a q => mark_flag (thumbs q) (mark_flag (main q) a)) l fl in
  nth_error fl' (main p) = Some true /\ nth_error fl' (thumbs p) = Some true.
Proof.
  revert fl. induction l as [|q t IH]; intros fl Hin Hm Ht; [contradiction|].
  simpl. destruct Hin as [->|Hin].
  - split; apply fold_mark_mono.
    + apply mark_flag_mono. now apply mark_flag_hit.
    + apply mark_flag_hit. now rewrite mark_flag_length.
  - apply IH; [exact Hin | |]; now rewrite !mark_flag_length.
Qed.

(** The registry after a mount, with a library that does not throw, on
    a page whose slide colours make valid selectors: one pair of live
    instances per selector group found in the page; the two instances of
    every pair mounted before are destroyed, and their [destroy] calls
    come first, before any instance is built. *)
Lemma mount_registry_quiet (s : state) :
  selectable engine (page s) ->
  let s' := snd (mountAllGalleries engine quiet s) in
  fst (mountAllGalleries engine quiet s) = Ok tt
  /\ List.length (_mounted s') = List.length (filter (group_present (page s)) groups)
  /\ intact s'
  /\ (forall p, In p (_mounted s) ->
        (main p < List.length (instances s))%nat ->
        (thumbs p < List.length (instances s))%nat ->
        is_destroyed s' (main p) = true /\ is_destroyed s' (thumbs p) = true)
  /\ (exists cs, calls s' = calls s ++ destroys (_mounted s) ++ cs
                 /\ no_destroy cs = true).
Proof.
  intro Hsel. unfold mountAllGalleries, groups. generalize numbered. intro nb.
  destruct (destroyMounted_quiet s) as [Hok [Hm [Hp [Hc Hf]]]].
  assert (Hrun1 : forall k : unit -> M state unit,
            bind (destroyMounted quiet) k s = k tt (snd (destroyMounted quiet s))).
  { intro k. unfold bind at 1.
    destruct (destroyMounted quiet s) as [[[]|e] y]; [reflexivity | discriminate]. }
  rewrite !Hrun1. clear Hrun1 Hok.
  set (sd := snd (destroyMounted quiet s)) in *.
  assert (Hsd : selectable engine (page sd)) by (now rewrite Hp).
  destruct (mountGroup_quiet_step ".thumbs-slider" ".tf-product-media-main" true sd
              (fun _ => Hsd))
    as [Hok1 [Hlen1 [[k1 Hk1] [[cs1 [Hcs1 Hnd1]] [Hpres1 Hint1]]]]].
  assert (Hrun2 : forall k : unit -> M state unit,
            bind (mountGroup engine quiet ".thumbs-slider" ".tf-product-media-main" true)
                 k sd
            = k tt (snd (mountGroup engine quiet ".thumbs-slider"
                           ".tf-product-media-main" true sd))).
  { intro k. unfold bind at 1.
    destruct (mountGroup engine quiet ".thumbs-slider" ".tf-product-media-main" true sd)
      as [[[]|e] y]; [reflexivity | discriminate]. }
  rewrite !Hrun2. clear Hrun2 Hok1.
  set (s1 := snd (mountGroup engine quiet ".thumbs-slider" ".tf-product-media-main"
                    true sd)) in *.
  destruct (mount_each_quiet nb s1)
    as [Hok2 [Hlen2 [[k2 Hk2] [[cs2 [Hcs2 Hnd2]] [Hpres2 Hint2]]]]].
  cbv zeta.
  set (s2 := snd (forEach (fun tm => mountGroup engine quiet (fst tm) (snd tm) false)
                          nb s1)) in *.
  assert (Hg : forall tm, group_present (page s1) tm = group_present (page s) tm).
  { intro tm. apply group_present_ext. now rewrite Hpres1, Hp. }
  assert (Hg' : forall tm, group_present (page sd) tm = group_present (page s) tm).
  { intro tm. apply group_present_ext. now rewrite Hp. }
  split; [exact Hok2|].
  split.
  { rewrite Hlen2, Hlen1, Hm, (filter_ext _ _ Hg), Hg'.
    cbn [filter List.length Nat.add].
    destruct (group_present (page s) (".thumbs-slider", ".tf-product-media-main"));
      reflexivity. }
  split.
  { apply Hint2, Hint1. intros p Hin. rewrite Hm in Hin. contradiction. }
  split.
  { intros p Hin Hmain Hthumbs.
    assert (Hlen : List.length (flags s) = List.length (instances s))
      by (unfold flags; apply length_map).
    destruct (fold_mark_hit (_mounted s) (flags s) p Hin) as [H1 H2];
      try (now rewrite Hlen).
    rewrite !is_destroyed_flags, Hk2, Hk1, Hf, <- app_assoc.
    rewrite !nth_error_app1 by (now rewrite fold_mark_length, Hlen).
    now rewrite H1, H2. }
  exists (cs1 ++ cs2). split.
  - rewrite Hcs2, Hcs1, Hc. now rewrite <- !app_assoc.
  - unfold no_destroy in *. rewrite forallb_app. now rewrite Hnd1, Hnd2.
Qed.

End ZoomRegistry.

(** C4.  Two mounts in a row on a page with the primary gallery and one
    colour button, with a library that never throws, whatever the
    selector engine does with colours that are not plain: the registry
    ends with exactly one pair and the first pair was destroyed before
    the second was built, but the listeners of the first mount are still
    there — the colour button carries two click listeners and the window
    two [load] listeners, one of each closing over the destroyed pair. *)
Theorem mount_twice_duplicates_listeners (engine : string -> Zoom.dom -> Zoom.found) :
  let s1 := snd (Zoom.mountAllGalleries engine Zoom.quiet Samples.fresh_page) in
  let s2 := snd (Zoom.mountAllGalleries engine Zoom.quiet s1) in
  Zoom._mounted s1 = [ {| Zoom.main := 1; Zoom.thumbs := 0 |} ]
  /\ Zoom._mounted s2 = [ {| Zoom.main := 3; Zoom.thumbs := 2 |} ]
  /\ Zoom.is_destroyed s2 0 = true /\ Zoom.is_destroyed s2 1 = true
  /\ Zoom.is_destroyed s2 2 = false /\ Zoom.is_destroyed s2 3 = false
  /\ skipn 7 (Zoom.calls s2)
     = [ Zoom.Destroy 1; Zoom.Destroy 0;
         Zoom.New ".thumbs-slider"; Zoom.New ".tf-product-media-main";
         Zoom.Update 3; Zoom.Update 2; Zoom.SlideTo 3 0; Zoom.SlideTo 2 0;
         Zoom.On 3 ]
  /\ map Zoom.clicks (Zoom.color_btns (Zoom.page s2))
     = [ [ {| Zoom.drives := {| Zoom.main := 1; Zoom.thumbs := 0 |}; Zoom.reads := 0 |};
           {| Zoom.drives := {| Zoom.main := 3; Zoom.thumbs := 2 |}; Zoom.reads := 0 |} ] ]
  /\ Zoom.window_load s2
     = [ {| Zoom.main := 1; Zoom.thumbs := 0 |};
         {| Zoom.main := 3; Zoom.thumbs := 2 |} ].
Proof. cbv zeta. repeat split. Qed.


(** ** Review panel *)

Section ReviewsProperties.
Import Eff Reviews.

Variable server : nat -> Net.request -> fetch_outcome.
Variable csrftoken : option string.

#[local] Abbreviation fetch := (Reviews.fetch server).
#[local] Abbreviation loadReviews := (Reviews.loadReviews server).
#[local] Abbreviation submitReview := (Reviews.submitReview server csrftoken).
#[local] Abbreviation setVariant := (Reviews.setVariant server).
#[local] Abbreviation postRequest := (Reviews.postRequest csrftoken).
#[local] Abbreviation msg_of := (getElementById review_form_msg).


(** A write to the message element is seen by the next lookup. *)
Lemma msg_of_map_msg (f : message -> message) (d : document) :
  msg_of (map_msg f d) = option_map f (msg_of d).
Proof.
  unfold map_msg, write, getElementById, inside.
  destruct (container d) as [a|]; simpl.
  - destruct (review_form_msg (ids (content a))) as [m|] eqn:E; simpl.
    + now rewrite E.
    + now rewrite E.
  - reflexivity.
Qed.

(** It leaves the container's data attributes and the sort select alone. *)
Lemma reviewsRequest_map_msg (f : message -> message) (d : document) (s p : string) :
  reviewsRequest (map_msg f d) s p = reviewsRequest d s p.
Proof.
  unfold reviewsRequest, reviewsUrl, slug, variantId, map_msg, write, inside.
  destruct (container d) as [a|]; simpl; [|reflexivity].
  now destruct (review_form_msg (ids (content a))).
Qed.

Lemma container_map_msg (f : message -> message) (d : document) (a : area) :
  container d = Some a ->
  exists n, container (map_msg f d) = Some (with_content (with_ids n (content a)) a).
Proof.
  intro Ha. unfold map_msg, write, inside. rewrite Ha.
  destruct (review_form_msg (ids (content a))); simpl.
  - eexists. reflexivity.
  - exists (ids (content a)). now destruct a as [sl va [n pg bw bc fw lw]].
Qed.

(** After binding and collapsing, the form section is hidden and the
    list shown, wherever the fragment has them. *)
Lemma collapsed_after_bind (d : document) (a : area) :
  container d = Some a ->
  exists a',
    container (toggleReviewForm false (bindHandlers d)) = Some a'
    /\ formWrap (content a') = option_map (fun _ => "none") (formWrap (content a))
    /\ listWrap (content a') = option_map (fun _ => "") (listWrap (content a)).
Proof.
  intro Ha. unfold toggleReviewForm, bindHandlers, write, inside. rewrite Ha.
  destruct (reviews_sort (ids (content a))); simpl;
    destruct (review_form _); simpl;
    (eexists; split; [reflexivity|]; simpl;
     destruct (formWrap (content a)), (listWrap (content a)); simpl; split; reflexivity).
Qed.

(** What [mark] leaves on the message: it is displayed, carries the
    class added and not the class removed, keeps its text and every
    other class. *)
Lemma remove_class_In (r c : string) (l : list string) :
  In c (remove_class r l) <-> In c l /\ c <> r.
Proof.
  unfold remove_class. rewrite filter_In, negb_true_iff, String.eqb_neq. tauto.
Qed.

Lemma add_class_In (a c : string) (l : list string) :
  In c (add_class a l) <-> In c l \/ c = a.
Proof.
  unfold add_class. destruct (existsb (String.eqb a) l) eqn:E.
  - split; [tauto|]. intros [H | ->]; [exact H|].
    apply existsb_exists in E. destruct E as [x [Hx Heq]].
    apply String.eqb_eq in Heq. now subst x.
  - rewrite in_app_iff. cbn [In]. intuition.
Qed.

Lemma mark_fields (add remove : string) (m : message) :
  add <> remove ->
  m_display (mark add remove m) = "block"
  /\ textContent (mark add remove m) = textContent m
  /\ In add (classList (mark add remove m))
  /\ ~ In remove (classList (mark add remove m))
  /\ (forall c, c <> add -> c <> remove ->
        (In c (classList (mark add remove m)) <-> In c (classList m))).
Proof.
  intro Hne. cbn [mark m_display textContent classList].
  split; [reflexivity|]. split; [reflexivity|].
  split; [apply add_class_In; now right|].
  split.
  - rewrite add_class_In, remove_class_In. intros [[_ H]|H]; congruence.
  - intros c Ha Hr. rewrite add_class_In, remove_class_In. tauto.
Qed.

(** C6.  When the POST of the review form is answered with a failure
    status and a body that [res.json()] cannot parse, the handler returns
    normally after that one request, and the message element, when the
    page has one, ends displayed ([block]) with the text of the parse
    fallback, [Error], with the class [text-danger] and without
    [text-success], its other classes as they were; a page without the
    message element is left as it was. *)
Theorem submit_failure_unparseable_shows_fallback
    (s : state) (f : form) (res : response) :
  server (List.length (sent s)) (postRequest f) = Resolved res ->
  ok res = false ->
  parsed res = None ->
  let s' := snd (submitReview f s) in
  fst (submitReview f s) = Ok tt
  /\ sent s' = sent s ++ [postRequest f]
  /\ prevented s' = S (prevented s)
  /\ msg_of (doc s') = option_map (show_error "Error") (msg_of (doc s))
  /\ option_map textContent (msg_of (doc s'))
     = option_map (fun _ => "Error") (msg_of (doc s))
  /\ (forall m, msg_of (doc s) = Some m ->
        exists m', msg_of (doc s') = Some m'
                   /\ m_display m' = "block"
                   /\ textContent m' = "Error"
                   /\ In "text-danger" (classList m')
                   /\ ~ In "text-success" (classList m')
                   /\ (forall c, c <> "text-danger" -> c <> "text-success" ->
                         (In c (classList m') <-> In c (classList m))))
  /\ (msg_of (doc s) = None -> doc s' = doc s).
Proof.
  intros Hsrv Hok Hparse.
  unfold Reviews.submitReview, bind, preventDefault, modify, Reviews.fetch, get.
  simpl. rewrite Hsrv. simpl. rewrite Hok, Hparse. simpl.
  destruct (msg_of (doc s)) as [m|] eqn:Hm; simpl.
  - unfold set_msg, modify. simpl.
    rewrite !msg_of_map_msg, Hm. simpl.
    do 5 (split; [reflexivity|]).
    split; [|discriminate].
    intros m0 E. injection E as <-. eexists. split; [reflexivity|].
    destruct (mark_fields "text-danger" "text-success" m ltac:(discriminate))
      as (H1 & _ & H3 & H4 & H5).
    cbn [set_text m_display textContent classList].
    split; [exact H1|]. split; [reflexivity|]. split; [exact H3|].
    split; [exact H4 | exact H5].
  - rewrite Hm. do 5 (split; [reflexivity|]). split; [discriminate | reflexivity].
Qed.

(** The reload, when its fetch resolves and the container is there. *)
Lemma loadReviews_resolved (s : state) (ps : params) (res : response) (a : area) :
  let rq := reviewsRequest (doc s)
              (str_or (p_sort ps)
                 (str_or (option_map sort_value (getElementById reviews_sort (doc s)))
                         "recent"))
              (str_or (p_page ps) "1") in
  server (List.length (sent s)) rq = Resolved res ->
  container (doc s) = Some a ->
  loadReviews ps s
  = (Ok tt,
     {| doc := bindHandlers (with_container (Some (with_content (text_dom res) a)) (doc s));
        sent := sent s ++ [rq];
        prevented := prevented s;
        unhandled := unhandled s |}).
Proof.
  intros rq Hsrv Ha.
  unfold Reviews.loadReviews, bind, get, Reviews.fetch. fold rq.
  rewrite Hsrv. simpl. rewrite Ha. reflexivity.
Qed.

(** The reload that does not get its fragment: the fetch rejects, or
    the container is not there to take it. *)
Lemma loadReviews_failed (s : state) (ps : params) :
  let rq := reviewsRequest (doc s)
              (str_or (p_sort ps)
                 (str_or (option_map sort_value (getElementById reviews_sort (doc s)))
                         "recent"))
              (str_or (p_page ps) "1") in
  let s1 := {| doc := doc s; sent := sent s ++ [rq];
               prevented := prevented s; unhandled := unhandled s |} in
  (server (List.length (sent s)) rq = NetworkError ->
   loadReviews ps s = (Throw FetchRejected, s1))
  /\ (forall res, server (List.length (sent s)) rq = Resolved res ->
        container (doc s) = None ->
        loadReviews ps s = (Throw TypeError, s1)).
Proof.
  intros rq s1. split.
  - intro Hsrv. unfold Reviews.loadReviews, bind, get, Reviews.fetch. fold rq.
    now rewrite Hsrv.
  - intros res Hsrv Hc. unfold Reviews.loadReviews, bind, get, Reviews.fetch. fold rq.
    rewrite Hsrv. simpl. now rewrite Hc.
Qed.

(** Whatever the reload meets, it issues exactly its request. *)
Lemma loadReviews_sent (s : state) (ps : params) :
  let rq := reviewsRequest (doc s)
              (str_or (p_sort ps)
                 (str_or (option_map sort_value (getElementById reviews_sort (doc s)))
                         "recent"))
              (str_or (p_page ps) "1") in
  sent (snd (loadReviews ps s)) = sent s ++ [rq].
Proof.
  intro rq. unfold Reviews.loadReviews, bind, get, Reviews.fetch. fold rq.
  destruct (server _ rq) as [|res]; simpl; [reflexivity|].
  now destruct (container (doc s)).
Qed.

(** The handler up to the reload, after an accepted POST. *)
Lemma submitReview_accepted (s : state) (f : form) (res : response) :
  server (List.length (sent s)) (postRequest f) = Resolved res ->
  ok res = true ->
  submitReview f s
  = bind (loadReviews recent_first)
         (fun _ => modify (fun x => with_doc (toggleReviewForm false (doc x)) x))
         {| doc := map_msg show_success (doc s);
            sent := sent s ++ [postRequest f];
            prevented := S (prevented s);
            unhandled := unhandled s |}.
Proof.
  intros Hsrv Hok.
  unfold Reviews.submitReview, preventDefault.
  unfold bind at 1. unfold modify at 1. simpl.
  unfold bind at 1. unfold Reviews.fetch at 1. simpl. rewrite Hsrv.
  unfold bind at 1. unfold get at 1. simpl. rewrite Hok.
  unfold bind at 1. unfold set_msg, modify at 1. simpl.
  reflexivity.
Qed.

(** The message as [show_success] leaves it, field by field. *)
Lemma show_success_fields (m : message) :
  m_display (show_success m) = "block"
  /\ textContent (show_success m) = "Thanks! Your review has been submitted."
  /\ In "text-success" (classList (show_success m))
  /\ ~ In "text-danger" (classList (show_success m)).
Proof.
  destruct (mark_fields "text-success" "text-danger" m ltac:(discriminate))
    as (H1 & _ & H3 & H4 & _).
  unfold show_success. cbn [set_text m_display textContent classList].
  now repeat split.
Qed.

(** Binding handlers and toggling the form leave the message element
    outside the container alone. *)
Lemma write_outside_msg {A : Type} (which : named -> option A) (g : named -> named)
    (d : document) :
  (forall n, review_form_msg (g n) = review_form_msg n) ->
  review_form_msg (outside (write which g d)) = review_form_msg (outside d).
Proof.
  intro Hg. unfold write.
  destruct (which (inside d)), (container d); cbn [outside with_container]; auto.
Qed.

Lemma bindHandlers_outside_msg (d : document) :
  review_form_msg (outside (bindHandlers d)) = review_form_msg (outside d).
Proof.
  unfold bindHandlers. destruct (container d); [|reflexivity].
  cbv zeta.
  set (d1 := write reviews_sort (on_sort bound_sort) d).
  set (d2 := write review_form (on_form bound_form) d1).
  assert (H2 : review_form_msg (outside d2) = review_form_msg (outside d)).
  { unfold d2, d1. now rewrite !write_outside_msg. }
  now destruct (container d2).
Qed.

Lemma toggleReviewForm_outside (b : bool) (d : document) :
  outside (toggleReviewForm b d) = outside d.
Proof. unfold toggleReviewForm. now destruct (container d). Qed.

(** Binding handlers keeps the message element of the fragment. *)
Lemma write_inside_msg {A : Type} (which : named -> option A) (g : named -> named)
    (d : document) :
  (forall n, review_form_msg (g n) = review_form_msg n) ->
  review_form_msg (inside (write which g d)) = review_form_msg (inside d).
Proof.
  intro Hg. unfold write, inside.
  destruct (container d) as [a|]; cbn [container];
    destruct (which _); cbn [container with_container content with_content ids with_ids];
    auto.
Qed.

Lemma bindHandlers_inside_msg (d : document) :
  review_form_msg (inside (bindHandlers d)) = review_form_msg (inside d).
Proof.
  unfold bindHandlers. destruct (container d) eqn:Hc; [|reflexivity].
  cbv zeta.
  set (d1 := write reviews_sort (on_sort bound_sort) d).
  set (d2 := write review_form (on_form bound_form) d1).
  assert (H2 : review_form_msg (inside d2) = review_form_msg (inside d)).
  { unfold d2, d1. now rewrite !write_inside_msg. }
  rewrite <- H2. unfold inside.
  destruct (container d2) as [a2|] eqn:E2; [|now rewrite E2].
  cbn [container with_container content with_content].
  unfold bind_fragment. cbv zeta. cbn [formWrap listWrap ids].
  now destruct (formWrap (content a2)), (listWrap (content a2)).
Qed.

Lemma toggleReviewForm_inside_msg (b : bool) (d : document) :
  review_form_msg (inside (toggleReviewForm b d)) = review_form_msg (inside d).
Proof.
  unfold toggleReviewForm, inside. destruct (container d) as [a|] eqn:E.
  - cbn [container with_container content with_content].
    unfold toggle_fragment. now destruct b.
  - now rewrite E.
Qed.

(** C5, as the code has it.  When the POST of the review form is
    answered with a success status, the handler has cancelled the default
    submission and issues exactly one more request, the fetch of the
    reviews with sort [recent] and page [1].  When that fetch rejects, or
    resolves with the container gone, the handler rejects: the message
    element, when the page has one, ends displayed with the success text,
    with the class [text-success] and without [text-danger], and the form
    section and the list are not toggled.  When it resolves with the
    container in the document, the handler returns normally, the form
    section of the fresh fragment is collapsed and its list shown; a
    message element outside the container ends with the success text and
    classes, one inside is replaced by that of the fresh fragment. *)
Theorem submit_success_reloads_recent
    (s : state) (f : form) (res : response) :
  server (List.length (sent s)) (postRequest f) = Resolved res ->
  ok res = true ->
  let reload := reviewsRequest (doc s) "recent" "1" in
  let s' := snd (submitReview f s) in
  prevented s' = S (prevented s)
  /\ sent s' = sent s ++ [postRequest f; reload]
  /\ (server (S (List.length (sent s))) reload = NetworkError
      \/ ((exists res2, server (S (List.length (sent s))) reload = Resolved res2)
          /\ container (doc s) = None) ->
      (exists e, fst (submitReview f s) = Throw e
                 /\ (server (S (List.length (sent s))) reload = NetworkError ->
                     e = FetchRejected))
      /\ (forall m, msg_of (doc s) = Some m ->
            exists m', msg_of (doc s') = Some m'
                       /\ m_display m' = "block"
                       /\ textContent m' = "Thanks! Your review has been submitted."
                       /\ In "text-success" (classList m')
                       /\ ~ In "text-danger" (classList m'))
      /\ (forall a, container (doc s) = Some a ->
            exists a', container (doc s') = Some a'
                       /\ formWrap (content a') = formWrap (content a)
                       /\ listWrap (content a') = listWrap (content a)))
  /\ (forall (res2 : response) (a : area),
        server (S (List.length (sent s))) reload = Resolved res2 ->
        container (doc s) = Some a ->
        fst (submitReview f s) = Ok tt
        /\ (exists a',
             container (doc s') = Some a'
             /\ formWrap (content a')
                = option_map (fun _ => "none") (formWrap (text_dom res2))
             /\ listWrap (content a')
                = option_map (fun _ => "") (listWrap (text_dom res2))
             /\ review_form_msg (ids (content a'))
                = review_form_msg (ids (text_dom res2)))
        /\ (forall m, review_form_msg (ids (content a)) = None ->
              review_form_msg (outside (doc s)) = Some m ->
              exists m', review_form_msg (outside (doc s')) = Some m'
                         /\ m_display m' = "block"
                         /\ textContent m' = "Thanks! Your review has been submitted."
                         /\ In "text-success" (classList m')
                         /\ ~ In "text-danger" (classList m'))).
Proof.
  intros Hsrv Hok reload s'.
  set (s1 := {| doc := map_msg show_success (doc s);
                sent := sent s ++ [postRequest f];
                prevented := S (prevented s);
                unhandled := unhandled s |}).
  pose proof (submitReview_accepted s f res Hsrv Hok) as Hrun. fold s1 in Hrun.
  assert (Hrq : reviewsRequest (doc s1)
                  (str_or (p_sort recent_first)
                     (str_or (option_map sort_value
                                (getElementById reviews_sort (doc s1))) "recent"))
                  (str_or (p_page recent_first) "1") = reload).
  { unfold s1. simpl. apply reviewsRequest_map_msg. }
  assert (Hlen : List.length (sent s1) = S (List.length (sent s)))
    by (unfold s1; simpl; rewrite length_app; simpl; lia).
  assert (Hprev : keeps prevented (loadReviews recent_first)).
  { intro x. unfold Reviews.loadReviews, bind, get, Reviews.fetch, modify, throw.
    destruct (server (List.length (sent x)) _); cbn [fst snd prevented doc];
      [reflexivity|].
    now destruct (container (doc x)). }
  split.
  { unfold s'. rewrite Hrun. unfold bind. specialize (Hprev s1).
    destruct (loadReviews recent_first s1) as [[u|e] s2]; simpl in *; now rewrite Hprev. }
  split.
  { unfold s'. rewrite Hrun. unfold bind.
    pose proof (loadReviews_sent s1 recent_first) as Hs. cbv zeta in Hs.
    rewrite Hrq in Hs.
    destruct (loadReviews recent_first s1) as [[u|e] s2]; simpl in *;
      rewrite Hs; unfold s1; simpl; now rewrite <- app_assoc. }
  split.
  { intro Hfail.
    destruct (loadReviews_failed s1 recent_first) as [Hrej Hgone]. cbv zeta in Hrej, Hgone.
    rewrite Hrq, Hlen in Hrej, Hgone.
    assert (Hend : exists e, loadReviews recent_first s1
                             = (Throw e,
                                {| doc := doc s1; sent := sent s1 ++ [reload];
                                   prevented := prevented s1;
                                   unhandled := unhandled s1 |})
                             /\ (server (S (List.length (sent s))) reload = NetworkError ->
                                 e = FetchRejected)).
    { destruct Hfail as [Hn|[[res2 Hres2] Hnone]].
      - exists FetchRejected. split; [now apply Hrej | reflexivity].
      - exists TypeError. split.
        + apply (Hgone res2 Hres2). unfold s1. cbn [doc].
          unfold map_msg, write, inside. rewrite Hnone. reflexivity.
        + intro Hn. rewrite Hn in Hres2. discriminate. }
    destruct Hend as [e [Hload He]].
    assert (Hdoc : doc s' = map_msg show_success (doc s)).
    { unfold s'. rewrite Hrun. unfold bind. rewrite Hload. reflexivity. }
    split.
    { exists e. split; [|exact He]. rewrite Hrun. unfold bind. now rewrite Hload. }
    split.
    { intros m Hm. exists (show_success m).
      rewrite Hdoc, msg_of_map_msg, Hm. split; [reflexivity|].
      apply show_success_fields. }
    intros a Ha. rewrite Hdoc.
    destruct (container_map_msg show_success (doc s) a Ha) as [n Hn].
    eexists. split; [exact Hn|]. split; reflexivity. }
  intros res2 a Hsrv2 Ha.
  destruct (container_map_msg show_success (doc s) a Ha) as [n Hn].
  pose proof (loadReviews_resolved s1 recent_first res2
                (with_content (with_ids n (content a)) a)) as Hl.
  cbv zeta in Hl. rewrite Hrq, Hlen in Hl.
  specialize (Hl Hsrv2 Hn).
  set (d2 := with_container
               (Some (with_content (text_dom res2)
                        (with_content (with_ids n (content a)) a)))
               (map_msg show_success (doc s))) in *.
  assert (Hdoc : doc s' = toggleReviewForm false (bindHandlers d2)).
  { unfold s'. rewrite Hrun. unfold bind. rewrite Hl. reflexivity. }
  split; [rewrite Hrun; unfold bind; now rewrite Hl|].
  split.
  { destruct (collapsed_after_bind d2
                (with_content (text_dom res2) (with_content (with_ids n (content a)) a))
                eq_refl) as [a' [Ha' [Hf Hw]]].
    exists a'. rewrite Hdoc. split; [exact Ha'|]. split; [exact Hf|]. split; [exact Hw|].
    pose proof (toggleReviewForm_inside_msg false (bindHandlers d2)) as Hi.
    rewrite bindHandlers_inside_msg in Hi.
    unfold inside in Hi. rewrite Ha' in Hi. exact Hi. }
  intros m Hin Hout. exists (show_success m).
  rewrite Hdoc, toggleReviewForm_outside, bindHandlers_outside_msg.
  unfold d2. cbn [outside with_container].
  unfold map_msg, write, inside. rewrite Ha, Hin. cbn [outside on_msg review_form_msg].
  rewrite Hout. split; [reflexivity|]. apply show_success_fields.
Qed.

(** *** Without the container *)

(** The script never takes the container out of the document nor puts
    one in. *)
Lemma write_has_container {A : Type} (which : named -> option A) (g : named -> named)
    (d : document) :
  has_container (write which g d) = has_container d.
Proof.
  unfold has_container, write, inside.
  destruct (container d) as [a|]; cbn [container];
    now destruct (which _).
Qed.

Lemma bindHandlers_has_container (d : document) :
  has_container (bindHandlers d) = has_container d.
Proof.
  unfold bindHandlers. destruct (container d) eqn:Hc; [|reflexivity].
  cbv zeta.
  set (d2 := write review_form _ _).
  assert (H2 : has_container d2 = has_container d)
    by (unfold d2; now rewrite !write_has_container).
  unfold has_container in *. rewrite Hc in *.
  now destruct (container d2).
Qed.

Lemma toggleReviewForm_has_container (b : bool) (d : document) :
  has_container (toggleReviewForm b d) = has_container d.
Proof.
  unfold toggleReviewForm, has_container.
  destruct (container d) eqn:E; [reflexivity | now rewrite E].
Qed.

Lemma fetch_keeps_doc (rq : Net.request) : keeps doc (fetch rq).
Proof. intro x. unfold Reviews.fetch. now destruct (server _ _). Qed.

Lemma loadReviews_keeps_container (ps : params) :
  keeps (fun x => has_container (doc x)) (loadReviews ps).
Proof.
  intro x. unfold Reviews.loadReviews, bind, get, Reviews.fetch, modify, throw.
  destruct (server _ _); cbn [fst snd doc]; [reflexivity|].
  destruct (container (doc x)) eqn:E; cbn [fst snd doc with_doc]; [|reflexivity].
  rewrite bindHandlers_has_container. unfold has_container.
  cbn [container with_container]. now rewrite E.
Qed.

Lemma set_msg_keeps_container (f : message -> message) :
  keeps (fun x => has_container (doc x)) (set_msg f).
Proof. intro x. apply write_has_container. Qed.

Lemma submitReview_keeps_container (f : form) :
  keeps (fun x => has_container (doc x)) (submitReview f).
Proof.
  unfold Reviews.submitReview.
  apply keeps_bind; [apply keeps_modify; reflexivity | intros _].
  apply keeps_bind; [apply (keeps_within doc), fetch_keeps_doc | intro r].
  apply keeps_bind; [apply keeps_get | intro s1].
  destruct (ok r).
  - apply keeps_bind; [apply set_msg_keeps_container | intros _].
    apply keeps_bind; [apply loadReviews_keeps_container | intros _].
    apply keeps_modify. intro x. apply toggleReviewForm_has_container.
  - destruct (getElementById review_form_msg (doc s1)); [|apply keeps_ret].
    apply keeps_bind; [apply set_msg_keeps_container | intros _].
    destruct (match parsed r with Some j => j | None => _ end);
      [intro x; reflexivity | apply set_msg_keeps_container].
Qed.

Lemma detached_keeps_container (c : M state unit) :
  keeps (fun x => has_container (doc x)) c ->
  keeps (fun x => has_container (doc x)) (detached c).
Proof.
  intro H. apply keeps_try_catch; [exact H | intro e; apply keeps_modify; reflexivity].
Qed.

Lemma setVariant_keeps_container (v : string) :
  keeps (fun x => has_container (doc x)) (setVariant v).
Proof.
  intro x. unfold Reviews.setVariant, bind, get. cbn [fst snd].
  destruct (container (doc x)) eqn:E; [|reflexivity].
  unfold modify at 1. cbn [fst snd].
  rewrite (detached_keeps_container _ (loadReviews_keeps_container recent_first)).
  unfold has_container. cbn [doc with_doc container with_container]. now rewrite E.
Qed.

Lemma onTogglerClick_keeps_container (show : bool) :
  keeps (fun x => has_container (doc x)) (onTogglerClick show).
Proof.
  unfold onTogglerClick.
  apply keeps_bind; [apply keeps_modify; reflexivity | intros _].
  apply keeps_modify. intro x. apply toggleReviewForm_has_container.
Qed.

Lemma times_keeps_container (n : nat) (c : M state unit) :
  keeps (fun x => has_container (doc x)) c ->
  keeps (fun x => has_container (doc x)) (times n c).
Proof.
  intro H. induction n as [|n IH]; [apply keeps_ret|].
  apply keeps_bind; [exact H | intros _; exact IH].
Qed.

(** No event makes the script remove the container or create one: a
    page is with or without it for as long as only this script runs. *)
Lemma handle_keeps_container (e : event) :
  keeps (fun x => has_container (doc x)) (handle server csrftoken e).
Proof.
  unfold handle. apply keeps_bind; [apply keeps_get | intro s].
  destruct e.
  - apply keeps_modify. intro x. apply bindHandlers_has_container.
  - apply setVariant_keeps_container.
  - destruct (getElementById reviews_sort (doc s)); [|apply keeps_ret].
    apply keeps_when, detached_keeps_container, loadReviews_keeps_container.
  - destruct (container (doc s)) as [a|]; [|apply keeps_ret].
    destruct (pager (content a)) as [[|]|]; try apply keeps_ret.
    apply detached_keeps_container. unfold onPaginate.
    destruct link as [[|pg]|]; [| |apply keeps_ret].
    + apply keeps_bind; [apply keeps_modify; reflexivity | intros _; intro x; reflexivity].
    + apply keeps_bind; [apply keeps_modify; reflexivity | intros _].
      apply detached_keeps_container, loadReviews_keeps_container.
  - destruct (getElementById review_form (doc s)); [|apply keeps_ret].
    apply keeps_when, detached_keeps_container, submitReview_keeps_container.
  - destruct (container (doc s)) as [a|]; [|apply keeps_ret].
    destruct (btnWrite (content a)); [|apply keeps_ret].
    apply times_keeps_container, onTogglerClick_keeps_container.
  - destruct (container (doc s)) as [a|]; [|apply keeps_ret].
    destruct (btnCancel (content a)); [|apply keeps_ret].
    apply times_keeps_container, onTogglerClick_keeps_container.
Qed.

Lemma run_keeps_container (es : list event) :
  keeps (fun x => has_container (doc x)) (run server csrftoken es).
Proof. apply keeps_forEach. intro e. apply handle_keeps_container. Qed.



End ReviewsProperties.


(** The guard is in the binding, not in the operations: once something
    else has taken the container out of a page whose form was bound, a
    submission still cancels the default action, posts the form and
    rewrites the message element. *)
Lemma submit_after_container_removed :
  let s0 := Samples.at_rest Samples.panel_gone in
  let s1 := snd (Reviews.submitReview Samples.refusing None Samples.the_form s0) in
  Reviews.container (Reviews.doc s0) = None
  /\ Reviews.sent s1 = [Reviews.postRequest None Samples.the_form]
  /\ Reviews.prevented s1 = 1%nat
  /\ Reviews.getElementById Reviews.review_form_msg (Reviews.doc s1)
     = Some {| Reviews.m_display := "block";
               Reviews.classList := ["text-danger"];
               Reviews.textContent := "Error" |}.
Proof. cbv zeta. repeat split. Qed.

(** [loadReviews] itself, entered with the container gone, still sends
    its request, for the slug and variant [undefined], and then fails on
    the missing container. *)
Lemma loadReviews_after_container_removed :
  let r := Reviews.loadReviews Samples.healthy Reviews.recent_first
             (Samples.at_rest Samples.panel_gone) in
  fst r = Eff.Throw Eff.TypeError
  /\ map Net.url (Reviews.sent (snd r))
     = ["/products/undefined/reviews/?variant=undefined&sort=recent&page=1"].
Proof. split; reflexivity. Qed.

(** C5 as stated fails when the reload does not come back: the review
    was accepted and the fetch for the recent reviews issued, but the
    form stays open and the handler rejects. *)
Lemma submit_success_reload_rejected_counterexample :
  let r := Reviews.submitReview Samples.drops_after_post (Some "token")
             Samples.the_form (Samples.at_rest Samples.panel) in
  fst r = Eff.Throw Eff.FetchRejected
  /\ map Net.url (Reviews.sent (snd r))
     = ["/reviews/submit/"; "/products/bike/reviews/?variant=7&sort=recent&page=1"]
  /\ option_map (fun a => Reviews.formWrap (Reviews.content a))
                (Reviews.container (Reviews.doc (snd r)))
     = Some (Some "").
Proof. cbv zeta. repeat split. Qed.

(** An accepted review on a page whose message sits outside the
    container.  On a healthy network both requests go out, the handler
    returns, the form section ends hidden and the message shows the
    success text in the success class; when the network drops after the
    POST the handler rejects, the message shows the same and the form
    section stays open. *)
Lemma submit_success_reloads_recent_witness :
  let s := Samples.at_rest Samples.message_outside in
  let success :=
    {| Reviews.m_display := "block";
       Reviews.classList := ["note"; "text-success"];
       Reviews.textContent := "Thanks! Your review has been submitted." |} in
  let r := Reviews.submitReview Samples.healthy (Some "token") Samples.the_form s in
  let r' := Reviews.submitReview Samples.drops_after_post (Some "token")
              Samples.the_form s in
  (map Net.url (Reviews.sent (snd r))
   = ["/reviews/submit/"; "/products/bike/reviews/?variant=7&sort=recent&page=1"]
   /\ fst r = Eff.Ok tt
   /\ option_map (fun a => Reviews.formWrap (Reviews.content a))
                 (Reviews.container (Reviews.doc (snd r)))
      = Some (Some "none")
   /\ Reviews.review_form_msg (Reviews.outside (Reviews.doc (snd r))) = Some success)
  /\ (map Net.url (Reviews.sent (snd r'))
      = ["/reviews/submit/"; "/products/bike/reviews/?variant=7&sort=recent&page=1"]
      /\ fst r' = Eff.Throw Eff.FetchRejected
      /\ option_map (fun a => Reviews.formWrap (Reviews.content a))
                    (Reviews.container (Reviews.doc (snd r')))
         = Some (Some "")
      /\ Reviews.getElementById Reviews.review_form_msg (Reviews.doc (snd r'))
         = Some success).
Proof.
  cbv zeta. split.
  - destruct (submit_success_reloads_recent Samples.healthy (Some "token")
                (Samples.at_rest Samples.message_outside) Samples.the_form
                Samples.accepted eq_refl eq_refl) as [_ [Hsent [_ Hform]]].
    cbv zeta in *.
    destruct (Hform Samples.accepted _ eq_refl eq_refl) as [Hok [[a' [Ha [Hf _]]] _]].
    split; [|split; [|split]].
    + rewrite Hsent. reflexivity.
    + exact Hok.
    + rewrite Ha. simpl. rewrite Hf. reflexivity.
    + reflexivity.
  - destruct (submit_success_reloads_recent Samples.drops_after_post (Some "token")
                (Samples.at_rest Samples.message_outside) Samples.the_form
                Samples.accepted eq_refl eq_refl) as [_ [Hsent [Hfail _]]].
    cbv zeta in *.
    destruct (Hfail (or_introl eq_refl)) as [[e [He Hrej]] [_ Hopen]].
    destruct (Hopen _ eq_refl) as [a' [Ha [Hf _]]].
    split; [|split; [|split]].
    + rewrite Hsent. reflexivity.
    + rewrite He, (Hrej eq_refl). reflexivity.
    + rewrite Ha. simpl. rewrite Hf. reflexivity.
    + reflexivity.
Defined.

(** A refused review with a body that is not JSON. *)
Lemma submit_failure_unparseable_shows_fallback_witness :
  let s := Samples.at_rest Samples.panel in
  let s' := snd (Reviews.submitReview Samples.refusing (Some "token") Samples.the_form s) in
  fst (Reviews.submitReview Samples.refusing (Some "token") Samples.the_form s) = Eff.Ok tt
  /\ Reviews.getElementById Reviews.review_form_msg (Reviews.doc s')
     = Some {| Reviews.m_display := "block";
               Reviews.classList := ["text-danger"];
               Reviews.textContent := "Error" |}.
Proof.
  destruct (submit_failure_unparseable_shows_fallback Samples.refusing (Some "token")
              (Samples.at_rest Samples.panel) Samples.the_form Samples.refused
              eq_refl eq_refl eq_refl) as [Hok _].
  split; [exact Hok | reflexivity].
Defined.


(** * Further properties of the scripts *)

(** ** Bundle (FBT) widget: start-up, totals, formatting *)

Section FbtStartup.
Import Js Fbt.

Variable StringToNumber : string -> num.
Variable encodeURIComponent : string -> string.

#[local] Abbreviation onReady := (Fbt.onReady StringToNumber encodeURIComponent).
#[local] Abbreviation fbtRequest := (Fbt.fbtRequest encodeURIComponent).
#[local] Abbreviation recompute := (Fbt.recompute StringToNumber).
#[local] Abbreviation toggle := (Fbt.toggle StringToNumber).
#[local] Abbreviation inr := (Fbt.inr StringToNumber).
#[local] Abbreviation priceBlock := (Fbt.priceBlock StringToNumber).
#[local] Abbreviation Number := (Js.Number StringToNumber).


(** X2.  The handler issues at most one request: none when the root or
    the variant id is missing, and otherwise exactly the GET of the FBT
    endpoint for that variant, whatever the answer turns out to be. *)
Theorem onReady_requests (d : document) (net : fetch_outcome) :
  requests (onReady d net)
  = match root d with
    | None => []
    | Some r =>
        if String.eqb (getVariantId d r) "" then []
        else [ {| Net.method := "GET";
                  Net.url := str_or (data_api_fbt r) "/api/fbt/" ++ "?variant="
                             ++ encodeURIComponent
                                  (str_or (data_source_variant r)
                                          (str_or (url_variant d) ""));
                  Net.headers := [("X-Requested-With", "XMLHttpRequest")];
                  Net.req_body := Net.NoBody |} ]
    end.
Proof.
  unfold Fbt.onReady.
  destruct (root d) as [r|]; [|reflexivity].
  destruct (String.eqb _ _); [reflexivity|].
  destruct net as [|res]; [reflexivity|].
  destruct (ok res); simpl; [|reflexivity].
  destruct (json res) as [[|pl]|]; try reflexivity.
  destruct (objects (items_array pl)); [|reflexivity].
  now destruct (negb _).
Qed.

(** *** Totals *)

Lemma show_show (el : option string) : show (show el) = show el.
Proof. now destruct el. Qed.

(** [recompute] reads the items, the boxes and nothing it wrote before. *)
Lemma recompute_reads_rows (x y : widget) :
  all x = all y ->
  cartBatch x = cartBatch y ->
  root_display x = root_display y ->
  rows x = rows y ->
  show (w_totalsWrap x) = show (w_totalsWrap y) ->
  addBtn_submits x = addBtn_submits y ->
  recompute x = recompute y.
Proof.
  intros Ha Hc Hd Hr Ht Hs. unfold Fbt.recompute.
  now rewrite Ha, Hc, Hd, Hr, Ht, Hs.
Qed.

(** X3.  [recompute] is idempotent: a change event that alters no box
    leaves every total, the totals wrapper and the button as they are. *)
Theorem recompute_idempotent (x : widget) : recompute (recompute x) = recompute x.
Proof.
  apply recompute_reads_rows; try reflexivity.
  simpl. apply show_show.
Qed.

Lemma flip_flip (i : nat) (cs : list checkbox) : flip i (flip i cs) = cs.
Proof.
  revert i. induction cs as [|c t IH]; intro i; [now destruct i|].
  destruct i as [|j]; simpl.
  - rewrite Bool.negb_involutive. now destruct c.
  - now rewrite IH.
Qed.

(** X4.  Flipping the same box twice brings back the totals of the
    current selection: the widget is as a plain [recompute] leaves it,
    also when the position names no box. *)
Theorem toggle_twice (i : nat) (x : widget) :
  toggle i (toggle i x) = recompute x.
Proof.
  unfold Fbt.toggle, onChange.
  apply recompute_reads_rows; try reflexivity.
  - simpl. apply flip_flip.
  - simpl. apply show_show.
Qed.

(** X5.  With no box checked, whatever the payload, the sale total reads
    zero rupees, the compare total is empty and the add button is
    disabled. *)
Theorem recompute_nothing_checked (x : widget) :
  existsb checked (rows x) = false ->
  w_saleEl (recompute x) = "₹0"
  /\ w_compEl (recompute x) = ""
  /\ addBtn_disabled (recompute x) = true.
Proof.
  intro Hnone.
  assert (Hv : checked_vids (rows x) = []).
  { unfold checked_vids. induction (rows x) as [|c t IH]; [reflexivity|].
    simpl in *. destruct (checked c); [discriminate | now apply IH]. }
  unfold Fbt.recompute. simpl. rewrite Hv, picked_none. repeat split.
Qed.

(** *** The price block *)

(** X6.  The price block of a row always ends with one sale price, and
    shows a compare-at price before it only when both prices are non-zero
    numbers and the compare-at price is strictly the greater; a row whose
    price is missing or zero shows its compare-at price as the sale
    price. *)
Theorem priceBlock_shape (mrp price : value) :
  let M := Number (or_else mrp zero) in
  let P := Number (or_else price zero) in
  (priceBlock mrp price
   = [("compare-at-price", inr (JNum M)); ("price-on-sale", inr (JNum P))]
   /\ gt M P = true /\ truthy (JNum M) = true /\ truthy (JNum P) = true)
  \/ (exists text, priceBlock mrp price = [("price-on-sale", text)]
                   /\ (truthy (JNum P) = false -> text = inr (JNum M))
                   /\ (truthy (JNum P) = true -> text = inr (JNum P))
                   /\ (gt M P = false \/ truthy (JNum M) = false
                       \/ truthy (JNum P) = false)).
Proof.
  intros M P. unfold Fbt.priceBlock. fold M P. simpl Js.Number.
  destruct (truthy (JNum M)) eqn:HM, (truthy (JNum P)) eqn:HP, (gt M P) eqn:Hgt;
    simpl; try (left; now repeat split); right; eexists;
    (split; [reflexivity|]);
    unfold or_else; rewrite ?HP, ?HM; repeat split;
    try discriminate; try reflexivity; auto.
  all: unfold Fbt.inr, or_else; rewrite HM; reflexivity.
Qed.

(** *** The add button *)

(** X7.  What one click on the enabled add button does, whatever the
    answer: with a row checked, one request is issued, the POST of the
    checked lines with the token the page holds at that moment; the page
    moves to [/cart/] exactly when the answer is a success; the widget is
    left as it was; and as the listener never cancels the default action,
    a button that is a submit button of a form also submits that form,
    which is how [renderBox] builds it. *)
Theorem click_posts_and_submits (net : fetch_outcome) (p : page) :
  addBtn_disabled (w p) = false ->
  existsb checked (rows (w p)) = true ->
  let q := clickAddBtn net p in
  sent q = sent p ++ [batchRequest p (lines (rows (w p)))]
  /\ href q = match net with
              | NetworkError => href p
              | Resolved res => if ok res then "/cart/" else href p
              end
  /\ form_submits q
     = (form_submits p + if addBtn_submits (w p) then 1 else 0)%nat
  /\ w q = w p
  /\ csrf_value q = csrf_value p
  /\ (forall r l, addBtn_submits (recompute (Fbt.renderBox StringToNumber r l)) = true).
Proof.
  intros Hen Hsome. unfold clickAddBtn, onAddClick. rewrite Hen. cbv zeta.
  assert (Hl : Nat.eqb (List.length (lines (rows (w p)))) 0 = false).
  { apply Nat.eqb_neq. unfold lines. rewrite length_map.
    apply existsb_exists in Hsome. destruct Hsome as [c [Hin Hc]].
    assert (Hf : In c (filter checked (rows (w p)))) by (apply filter_In; now split).
    destruct (filter checked (rows (w p))); [contradiction | discriminate]. }
  rewrite Hl.
  destruct net as [|res]; [|destruct (ok res)];
    destruct (addBtn_submits (w p));
    cbn [negb sent href form_submits w csrf_value with_sent with_href];
    repeat split; try reflexivity; lia.
Qed.

End FbtStartup.

(** ** Gallery mounter: teardown, reset, colour buttons *)

Lemma bind_after {S A B : Type} (c : Eff.M S A) (k : A -> Eff.M S B)
    (s s' : S) (a : A) :
  c s = (Eff.Ok a, s') -> Eff.bind c k s = k a s'.
Proof. intro H. unfold Eff.bind. now rewrite H. Qed.

Section ZoomTeardown.
Import Eff Zoom.

Variable engine : string -> dom -> found.
Variable throws : nat -> lib_call -> bool.

#[local] Abbreviation destroyMounted := (Zoom.destroyMounted throws).
#[local] Abbreviation mountAllGalleries := (Zoom.mountAllGalleries engine throws).
#[local] Abbreviation mountGroup := (Zoom.mountGroup engine throws).
#[local] Abbreviation resetToFirst := (Zoom.resetToFirst throws).
#[local] Abbreviation destroy := (Zoom.destroy throws).

#[local] Abbreviation teardown_loop := (Zoom.teardown_loop throws).

Lemma teardown_loop_returns (l : list pair) (s : state) :
  fst (teardown_loop l s) = Ok tt.
Proof.
  assert (H : never_throws (teardown_loop l)).
  { unfold Zoom.teardown_loop.
    apply never_throws_forEach. intro p. apply never_throws_try_catch.
    intro e. apply never_throws_ret. }
  specialize (H s). unfold returns in H.
  destruct (teardown_loop l s) as [[[]|e] y]; [reflexivity | contradiction].
Qed.

Lemma destroyMounted_unfold (s : state) :
  destroyMounted s = (Ok tt, with_mounted [] (snd (teardown_loop (_mounted s) s))).
Proof.
  pose proof (teardown_loop_returns (_mounted s) s) as H.
  change (destroyMounted s)
    with (bind (teardown_loop (_mounted s)) (fun _ => modify (with_mounted [])) s).
  unfold bind.
  destruct (teardown_loop (_mounted s) s) as [[u|e] y]; simpl in *;
    [reflexivity | discriminate].
Qed.

(** X8.  Teardown is idempotent.  Whatever the library throws,
    [destroyMounted] returns normally with the registry empty and the
    page and the pending [load] listeners untouched; run again, it calls
    nothing and changes nothing. *)
Theorem destroyMounted_idempotent (s : state) :
  let s1 := snd (destroyMounted s) in
  fst (destroyMounted s) = Ok tt
  /\ _mounted s1 = []
  /\ page s1 = page s
  /\ window_load s1 = window_load s
  /\ destroyMounted s1 = (Ok tt, s1).
Proof.
  cbv zeta.
  pose proof (destroyMounted_keeps_page throws s) as Hp.
  pose proof (destroyMounted_keeps_window_load throws s) as Hw.
  rewrite (destroyMounted_unfold s) in *. simpl in *.
  repeat split; assumption.
Qed.

Section DestroyThrows.

Hypothesis destroy_throws : forall n id, throws n (Destroy id) = true.

Lemma teardown_loop_leaks (l : list pair) (s : state) :
  let s1 := snd (teardown_loop l s) in
  instances s1 = instances s
  /\ _mounted s1 = _mounted s
  /\ calls s1 = calls s ++ map (fun p => Destroy (main p)) l.
Proof.
  revert s. induction l as [|p t IH]; intro s; simpl.
  - now rewrite app_nil_r.
  - unfold Zoom.teardown_loop. simpl.
    set (y := with_calls (calls s ++ [Destroy (main p)]) s).
    assert (Hstep : try_catch (bind (destroy (main p)) (fun _ => destroy (thumbs p)))
                              (fun _ => ret tt) s = (Ok tt, y)).
    { unfold try_catch, bind, Zoom.destroy, Zoom.lib.
      now rewrite destroy_throws. }
    assert (Hrun : forall k : unit -> M state unit,
              bind (fun x => try_catch (bind (destroy (main p))
                                             (fun _ => destroy (thumbs p)))
                                       (fun _ => ret tt) x) k s = k tt y)
      by (intro k; unfold bind at 1; now rewrite Hstep).
    rewrite !Hrun.
    destruct (IH y) as [Hi [Hm Hc]]. unfold Zoom.teardown_loop in *.
    rewrite Hi, Hm, Hc. unfold y. simpl.
    repeat split. now rewrite <- app_assoc.
Qed.

(** X9.  When every [destroy] call throws, teardown still returns and
    empties the registry, but it has only tried [main.destroy] of each
    pair, never [thumbs.destroy], and no instance has changed: the
    sliders are dropped from the registry while still alive. *)
Theorem destroyMounted_drops_live_pairs (s : state) :
  let s1 := snd (destroyMounted s) in
  fst (destroyMounted s) = Ok tt
  /\ _mounted s1 = []
  /\ instances s1 = instances s
  /\ calls s1 = calls s ++ map (fun p => Destroy (main p)) (_mounted s).
Proof.
  cbv zeta. rewrite destroyMounted_unfold. simpl.
  destruct (teardown_loop_leaks (_mounted s) s) as [Hi [_ Hc]].
  now repeat split.
Qed.

End DestroyThrows.

Lemma mountGroup_absent (t m : string) (c : bool) (x : state) :
  group_present (page x) (t, m) = false ->
  mountGroup t m c x = (Ok tt, x).
Proof.
  unfold group_present, Zoom.mountGroup, bind, get, when. simpl.
  now intros ->.
Qed.

Lemma mount_each_absent (l : list (string * string)) (x : state) :
  (forall tm, In tm l -> group_present (page x) tm = false) ->
  forEach (fun tm => mountGroup (fst tm) (snd tm) false) l x = (Ok tt, x).
Proof.
  induction l as [|[t m] l IH]; intro H; [reflexivity|].
  simpl. unfold bind.
  rewrite mountGroup_absent by (apply H; now left).
  apply IH. intros tm Hin. apply H. now right.
Qed.

(** X10.  On a page where no selector group has both its elements,
    mounting is teardown and nothing more: no slider is constructed, no
    listener added, and the registry ends empty. *)
Theorem mount_without_gallery_is_teardown (s : state) :
  (forall tm, In tm groups -> group_present (page s) tm = false) ->
  mountAllGalleries s = destroyMounted s.
Proof.
  intro H. unfold Zoom.mountAllGalleries.
  pose proof (destroyMounted_keeps_page throws s) as Hp.
  rewrite (bind_after _ _ _ _ _ (destroyMounted_unfold s)).
  rewrite destroyMounted_unfold in *.
  set (sd := with_mounted [] (snd (teardown_loop (_mounted s) s))) in *.
  assert (Habs : forall tm, In tm groups -> group_present (page sd) tm = false).
  { intros tm Hin. rewrite <- (H tm Hin). apply group_present_ext.
    f_equal. exact Hp. }
  rewrite (bind_after _ _ _ _ _
             (mountGroup_absent ".thumbs-slider" ".tf-product-media-main" true sd
                (Habs _ (or_introl eq_refl)))).
  apply mount_each_absent. intros tm Hin. apply Habs. now right.
Qed.


End ZoomTeardown.

Section ZoomSlides.
Import Eff Zoom.

Variable engine : string -> dom -> found.

Lemma nth_error_update_at_same (i : nat) (f : swiper -> swiper) (l : list swiper) :
  nth_error (update_at i f l) i = option_map f (nth_error l i).
Proof.
  revert i. induction l as [|x t IH]; intro i; [now destruct i|].
  destruct i as [|j]; simpl; [reflexivity | apply IH].
Qed.

Lemma nth_error_update_at_other (i j : nat) (f : swiper -> swiper) (l : list swiper) :
  i <> j -> nth_error (update_at i f l) j = nth_error l j.
Proof.
  revert i j. induction l as [|x t IH]; intros i j H; [now destruct i|].
  destruct i as [|i], j as [|j]; simpl; try reflexivity; try contradiction.
  apply IH. congruence.
Qed.

Lemma activeIndex_update_at (i j k : nat) (l : list swiper) :
  option_map activeIndex (nth_error (update_at i (set_index k) l) j)
  = if Nat.eqb i j then option_map (fun _ => k) (nth_error l j)
    else option_map activeIndex (nth_error l j).
Proof.
  destruct (Nat.eqb i j) eqn:E.
  - apply Nat.eqb_eq in E. subst j. rewrite nth_error_update_at_same.
    now destruct (nth_error l i).
  - apply Nat.eqb_neq in E. now rewrite nth_error_update_at_other.
Qed.

Lemma presence_update_at (i j k : nat) (f : swiper -> swiper) (l : list swiper) :
  option_map (fun _ => k) (nth_error (update_at i f l) j)
  = option_map (fun _ => k) (nth_error l j).
Proof.
  destruct (Nat.eq_dec i j) as [->|H].
  - rewrite nth_error_update_at_same. now destruct (nth_error l j).
  - now rewrite nth_error_update_at_other.
Qed.

Lemma filter_active_deactivated (l : list color_btn) :
  filter active (map deactivate l) = [].
Proof. induction l as [|b t IH]; [reflexivity | exact IH]. Qed.

Lemma filter_active_on_button (k : nat) (l : list color_btn) :
  filter active (on_button k activate (map deactivate l))
  = match nth_error l k with
    | Some b => [activate b]
    | None => []
    end.
Proof.
  revert k. induction l as [|b t IH]; intro k; [now destruct k|].
  destruct k as [|j]; cbn [map on_button filter nth_error activate deactivate active].
  - now rewrite filter_active_deactivated.
  - apply IH.
Qed.

Lemma first_of_color_deactivated (col : string) (l : list color_btn) :
  first_of_color col (map deactivate l) = first_of_color col l.
Proof.
  induction l as [|b t IH]; [reflexivity|].
  cbn [map first_of_color deactivate color]. now rewrite IH.
Qed.

(** [first_of_color] finds the first button of the colour. *)
Lemma first_of_color_first (col : string) (l : list color_btn) (k : nat) :
  first_of_color col l = Some k ->
  (exists b, nth_error l k = Some b /\ color b = Some col)
  /\ (forall j b, (j < k)%nat -> nth_error l j = Some b -> color b <> Some col).
Proof.
  revert k. induction l as [|b t IH]; intros k H; [discriminate|].
  cbn [first_of_color] in H.
  destruct (color b) as [c|] eqn:Ec.
  - destruct (String.eqb c col) eqn:E.
    + injection H as <-. apply String.eqb_eq in E. subst c. split.
      * exists b. now split.
      * intros j b' Hj. lia.
    + destruct (first_of_color col t) as [k'|]; [|discriminate].
      injection H as <-. destruct (IH k' eq_refl) as [Hx Hfirst]. split; [exact Hx|].
      intros [|j] b' Hj Hn.
      * injection Hn as <-. rewrite Ec. intro Heq. injection Heq as ->.
        rewrite String.eqb_refl in E. discriminate.
      * apply (Hfirst j b'); [lia | exact Hn].
  - destruct (first_of_color col t) as [k'|]; [|discriminate].
    injection H as <-. destruct (IH k' eq_refl) as [Hx Hfirst]. split; [exact Hx|].
    intros [|j] b' Hj Hn.
    + injection Hn as <-. rewrite Ec. discriminate.
    + apply (Hfirst j b'); [lia | exact Hn].
Qed.

(** X12.  With a library that does not throw, [resetToFirst] puts both
    instances of the pair on their first slide and leaves every other
    instance, and every [destroyed] flag, as it was. *)
Theorem resetToFirst_reaches_first_slide (p : pair) (s : state) :
  let s' := snd (resetToFirst quiet p s) in
  (forall id, id = main p \/ id = thumbs p ->
     option_map activeIndex (nth_error (instances s') id)
     = option_map (fun _ => 0%nat) (nth_error (instances s) id))
  /\ (forall id, id <> main p -> id <> thumbs p ->
        nth_error (instances s') id = nth_error (instances s) id)
  /\ flags s' = flags s.
Proof.
  cbv zeta.
  assert (Hs : instances (snd (resetToFirst quiet p s))
               = update_at (thumbs p) (set_index 0)
                   (update_at (main p) (set_index 0) (instances s)))
    by reflexivity.
  unfold flags. rewrite Hs. split; [|split].
  - intros id Hid. rewrite activeIndex_update_at.
    destruct (Nat.eqb (thumbs p) id) eqn:E1.
    + apply presence_update_at.
    + rewrite activeIndex_update_at.
      destruct (Nat.eqb (main p) id) eqn:E2; [reflexivity|].
      apply Nat.eqb_neq in E1, E2. destruct Hid; congruence.
  - intros id H1 H2. rewrite !nth_error_update_at_other by congruence. reflexivity.
  - now rewrite !flags_update_at_keep.
Qed.

(** X13.  [updateBtn] follows the slide's colour, as far as the selector
    it builds from that colour goes.  For a slide of its main element
    that carries a colour, every button first loses the [active] class;
    then, when the selector is not valid, the call ends in a SyntaxError
    with no button active and the labels as they were; otherwise it
    returns, the button the selector finds, if any, is the one active
    button and both colour labels, where the page has them, read the
    colour.  For a colour without quote, backslash, line break or NUL the
    selector is valid and finds the first button of that colour.  The
    buttons keep their colours and listeners.  For a slide without
    colour, or an index past the slides, nothing changes. *)
Theorem updateBtn_marks_one_button (el idx : nat) (s : state) :
  (forall col, nth_error (slides_of (page s) el) idx = Some (Some col) -> col <> "" ->
     let r := updateBtn engine el idx s in
     let d := page s in
     let d' := page (snd r) in
     map color (color_btns d') = map color (color_btns d)
     /\ map clicks (color_btns d') = map clicks (color_btns d)
     /\ match querySelector_color engine col (deactivated d) with
        | Invalid =>
            fst r = Throw SyntaxError
            /\ filter active (color_btns d') = []
            /\ value_currentColor d' = value_currentColor d
            /\ select_currentColor d' = select_currentColor d
        | Button k =>
            fst r = Ok tt
            /\ filter active (color_btns d')
               = match nth_error (color_btns d) k with
                 | Some b => [activate b]
                 | None => []
                 end
            /\ value_currentColor d' = option_map (fun _ => col) (value_currentColor d)
            /\ select_currentColor d' = option_map (fun _ => col) (select_currentColor d)
        | _ =>
            fst r = Ok tt
            /\ filter active (color_btns d') = []
            /\ value_currentColor d' = option_map (fun _ => col) (value_currentColor d)
            /\ select_currentColor d' = option_map (fun _ => col) (select_currentColor d)
        end
     /\ (plain col = true ->
         match first_of_color col (color_btns d) with
         | Some k =>
             querySelector_color engine col (deactivated d) = Button k
             /\ (exists b, nth_error (color_btns d) k = Some b /\ color b = Some col)
             /\ (forall j b, (j < k)%nat -> nth_error (color_btns d) j = Some b ->
                             color b <> Some col)
         | None => querySelector_color engine col (deactivated d) = Nothing
         end))
  /\ ((forall col, nth_error (slides_of (page s) el) idx = Some (Some col) -> col = "") ->
      updateBtn engine el idx s = (Ok tt, s)).
Proof.
  split.
  - intros col Hs Hne. cbv zeta.
    destruct (updateBtn_frame engine el idx s) as (_ & _ & _ & _ & _ & _ & _ & Hc & Hl).
    split; [exact Hc|]. split; [exact Hl|]. clear Hc Hl.
    split.
    + unfold updateBtn, bind, get, modify. cbn [fst snd]. rewrite Hs.
      destruct (String.eqb col "") eqn:E;
        [apply String.eqb_eq in E; contradiction|].
      cbn [fst snd page with_page].
      destruct (querySelector_color engine col (deactivated (page s))) as [| |k|];
        cbn [fst snd throw page with_page marked deactivated color_btns with_color_btns
             value_currentColor select_currentColor];
        repeat split;
        try apply filter_active_deactivated; apply filter_active_on_button.
    + intro Hplain. unfold querySelector_color. rewrite Hplain.
      unfold deactivated. cbn [color_btns with_color_btns].
      rewrite first_of_color_deactivated.
      destruct (first_of_color col (color_btns (page s))) as [k|] eqn:Hk; [|reflexivity].
      split; [reflexivity|]. now apply first_of_color_first.
  - intro H. unfold updateBtn, bind, get. cbn [fst snd].
    destruct (nth_error (slides_of (page s) el) idx) as [[col|]|]; try reflexivity.
    now rewrite (H col eq_refl).
Qed.

End ZoomSlides.

Section ZoomClicks.
Import Eff Zoom.

Variable engine : string -> dom -> found.

(** X14.  A click on a colour button none of whose listeners finds the
    colour among the slides of the main element it captured calls nothing
    in the library and changes nothing, however many listeners the button
    has and whatever the library would throw; so does a click past the
    last button. *)
Theorem clickColorBtn_without_slide
    (throws : nat -> lib_call -> bool) (k : nat) (s : state) :
  (forall b l, nth_error (color_btns (page s)) k = Some b -> In l (clicks b) ->
               findIndex (color b) (slides_of (page s) (reads l)) = None) ->
  clickColorBtn throws k s = (Ok [], s).
Proof.
  intro H. unfold clickColorBtn, bind, get. cbn [fst snd].
  destruct (nth_error (color_btns (page s)) k) as [b|]; [|reflexivity].
  specialize (H b). 
  assert (Hall : forall l, In l (clicks b) ->
                   findIndex (color b) (slides_of (page s) (reads l)) = None)
    by (intros l Hin; now apply H).
  clear H. induction (clicks b) as [|l t IH]; [reflexivity|].
  cbn [map dispatch]. unfold colorClick at 1. unfold bind, get. cbn [fst snd].
  rewrite (Hall l (or_introl eq_refl)). cbn [ret].
  apply IH. intros l' Hin. apply Hall. now right.
Qed.

(** The calls one click asks of the listeners [ls]. *)
Lemma dispatch_quiet (col : option string) (ls : list listener) (s : state) :
  let r := dispatch (map (fun l => colorClick quiet l col) ls) s in
  fst r = Ok []
  /\ page (snd r) = page s
  /\ _mounted (snd r) = _mounted s
  /\ flags (snd r) = flags s
  /\ calls (snd r) = calls s ++ asked col (page s) ls.
Proof.
  revert s. induction ls as [|l t IH]; intro s.
  - cbn. now rewrite app_nil_r.
  - cbv zeta. cbn [map dispatch asked flat_map].
    destruct (findIndex col (slides_of (page s) (reads l))) as [i|] eqn:Hi.
    + set (y := with_instances
                  (update_at (thumbs (drives l)) (set_index i)
                     (update_at (main (drives l)) (set_index i) (instances s)))
                  (with_calls ((calls s ++ [SlideTo (main (drives l)) i])
                                 ++ [SlideTo (thumbs (drives l)) i]) s)).
      assert (Hstep : colorClick quiet l col s = (Ok tt, y)).
      { unfold colorClick, bind, get. cbn [fst snd]. rewrite Hi. reflexivity. }
      rewrite Hstep.
      destruct (IH y) as [H1 [H2 [H3 [H4 H5]]]].
      repeat split; try assumption.
      * rewrite H4. unfold y, flags. cbn [instances with_instances with_calls].
        now rewrite !flags_update_at_keep.
      * rewrite H5. unfold y, asked. cbn [calls page with_instances with_calls].
        now rewrite <- !app_assoc.
    + assert (Hstep : colorClick quiet l col s = (Ok tt, s)).
      { unfold colorClick, bind, get. cbn [fst snd]. now rewrite Hi. }
      rewrite Hstep. apply IH.
Qed.


(** What one mount of the primary gallery does to the page, with a
    library that does not throw, whether [updateBtn] throws or not:
    elements and button colours stay, and every button gets one more
    listener, for the new pair and the main element now in the document. *)
Lemma mountGroup_primary_appends_listener (s : state) :
  group_present (page s) (".thumbs-slider", ".tf-product-media-main") = true ->
  let s' := snd (mountGroup engine quiet ".thumbs-slider" ".tf-product-media-main" true s) in
  elements (page s') = elements (page s)
  /\ map color (color_btns (page s')) = map color (color_btns (page s))
  /\ map clicks (color_btns (page s'))
     = map (fun b => clicks b ++ [ {| drives := next_pair s; reads := main_el (page s) |} ])
           (color_btns (page s)).
Proof.
  unfold group_present. cbn [fst snd]. intro Hp.
  rewrite (mountGroup_quiet engine _ _ true s Hp).
  set (el := main_el (page s)). set (idx := index_of _ _).
  destruct (updateBtn_frame engine el idx
              (synced ".thumbs-slider" ".tf-product-media-main" s))
    as (_ & _ & _ & _ & _ & _ & Hg & Hc & Hl).
  assert (He : elements (page (snd (updateBtn engine el idx
                                      (synced ".thumbs-slider"
                                         ".tf-product-media-main" s))))
               = elements (page s)).
  { unfold gallery in Hg. injection Hg as _ _ Hg. exact Hg. }
  unfold synced in Hc, Hl. cbn [page color_btns with_color_btns] in Hc, Hl.
  rewrite map_map in Hc, Hl. cbn [add_click color clicks] in Hc, Hl.
  destruct (updateBtn engine el idx _) as [[u|e] y]; cbn [fst snd] in *;
    cbn [page with_mounted]; now repeat split.
Qed.

Lemma mountAllGalleries_page_quiet (s : state) :
  group_present (page s) (".thumbs-slider", ".tf-product-media-main") = true ->
  let s' := snd (mountAllGalleries engine quiet s) in
  elements (page s') = elements (page s)
  /\ map color (color_btns (page s')) = map color (color_btns (page s))
  /\ exists q, map clicks (color_btns (page s'))
               = map (fun b => clicks b ++ [q]) (color_btns (page s)).
Proof.
  intro Hp. cbv zeta. unfold mountAllGalleries.
  rewrite (bind_after _ _ _ _ _ (destroyMounted_unfold quiet s)).
  pose proof (destroyMounted_keeps_page quiet s) as Hd.
  rewrite destroyMounted_unfold in Hd.
  set (sd := with_mounted [] (snd (teardown_loop quiet (_mounted s) s))) in *.
  change (page (snd (Ok tt, sd))) with (page sd) in Hd.
  assert (Hpd : group_present (page sd)
                  (".thumbs-slider", ".tf-product-media-main") = true)
    by (now rewrite Hd).
  destruct (mountGroup_primary_appends_listener sd Hpd) as [He [Hc Hl]].
  set (r := bind (mountGroup _ _ _ _ _) _ sd).
  assert (Hr : page (snd r)
               = page (snd (mountGroup engine quiet ".thumbs-slider"
                              ".tf-product-media-main" true sd))).
  { unfold r, bind.
    destruct (mountGroup engine quiet ".thumbs-slider" ".tf-product-media-main" true sd)
      as [[[]|e] sm]; cbn [fst snd]; [|reflexivity].
    apply (numbered_keep_page engine quiet sm). }
  rewrite Hr, He, Hc, Hl, Hd. repeat split. eexists. reflexivity.
Qed.

(** X16.  Remounting leaves stale listeners at work.  With a library
    that does not throw, on a page whose slide colours make valid
    selectors, after [mountAllGalleries] a pair that was mounted and
    driven by a listener of a colour button is destroyed and gone from
    the registry, yet the listener is still on the button: the next click
    makes it look the colour up among the slides of the main element it
    captured, in the document or not, and call [slideTo] on its destroyed
    instances. *)
Theorem remount_leaves_stale_listener
    (s : state) (k i : nat) (b : color_btn) (l : listener) :
  group_present (page s) (".thumbs-slider", ".tf-product-media-main") = true ->
  selectable engine (page s) ->
  nth_error (color_btns (page s)) k = Some b ->
  In l (clicks b) ->
  findIndex (color b) (slides_of (page s) (reads l)) = Some i ->
  In (drives l) (_mounted s) ->
  (main (drives l) < List.length (instances s))%nat ->
  (thumbs (drives l) < List.length (instances s))%nat ->
  let s' := snd (mountAllGalleries engine quiet s) in
  is_destroyed s' (main (drives l)) = true
  /\ is_destroyed s' (thumbs (drives l)) = true
  /\ ~ In (drives l) (_mounted s')
  /\ (exists b', nth_error (color_btns (page s')) k = Some b' /\ In l (clicks b'))
  /\ In (SlideTo (main (drives l)) i) (calls (snd (clickColorBtn quiet k s')))
  /\ In (SlideTo (thumbs (drives l)) i) (calls (snd (clickColorBtn quiet k s'))).
Proof.
  intros Hp Hsel Hb Hin Hi Hm Hmain Hthumbs. cbv zeta.
  destruct (mount_registry_quiet engine s Hsel) as [_ [_ [Hint [Hdes _]]]].
  destruct (Hdes (drives l) Hm Hmain Hthumbs) as [Hd1 Hd2].
  destruct (mountAllGalleries_page_quiet s Hp) as [Hsl [Hcol [q Hcl]]].
  set (s' := snd (mountAllGalleries engine quiet s)) in *.
  assert (Hb' : exists b', nth_error (color_btns (page s')) k = Some b'
                           /\ clicks b' = clicks b ++ [q] /\ color b' = color b).
  { assert (H1 : nth_error (map clicks (color_btns (page s'))) k
                 = Some (clicks b ++ [q]))
      by (rewrite Hcl, nth_error_map, Hb; reflexivity).
    assert (H2 : nth_error (map color (color_btns (page s'))) k = Some (color b))
      by (rewrite Hcol, nth_error_map, Hb; reflexivity).
    rewrite nth_error_map in H1, H2.
    destruct (nth_error (color_btns (page s')) k) as [b'|]; [|discriminate].
    exists b'. simpl in *. split; [reflexivity|]. split; congruence. }
  destruct Hb' as [b' [Hnth [Hclicks Hcolor]]].
  assert (Hi' : findIndex (color b') (slides_of (page s') (reads l)) = Some i)
    by (unfold slides_of; now rewrite Hcolor, Hsl).
  assert (Hcalls : calls (snd (clickColorBtn quiet k s'))
                   = calls s' ++ asked (color b') (page s') (clicks b')).
  { unfold clickColorBtn, bind, get. cbn [fst snd]. rewrite Hnth.
    apply (dispatch_quiet (color b') (clicks b') s'). }
  assert (Hl' : In l (clicks b')) by (rewrite Hclicks; apply in_or_app; now left).
  split; [exact Hd1|]. split; [exact Hd2|]. split.
  { intro Hreg. destruct (Hint _ Hreg) as [Hf _].
    rewrite is_destroyed_flags, Hf in Hd1. discriminate. }
  split; [exists b'; now split|].
  rewrite Hcalls. unfold asked.
  split; apply in_or_app; right; apply in_flat_map;
    exists l; (split; [exact Hl'|]); rewrite Hi'; simpl; auto.
Qed.

End ZoomClicks.

(** ** Review panel: toggling, reloading, navigation, submission *)

Section ReviewsPanel.
Import Eff Reviews.

Variable server : nat -> Net.request -> fetch_outcome.
Variable csrftoken : option string.

#[local] Abbreviation loadReviews := (Reviews.loadReviews server).
#[local] Abbreviation submitReview := (Reviews.submitReview server csrftoken).
#[local] Abbreviation setVariant := (Reviews.setVariant server).
#[local] Abbreviation onSortChange := (Reviews.onSortChange server).
#[local] Abbreviation onPaginate := (Reviews.onPaginate server).
#[local] Abbreviation postRequest := (Reviews.postRequest csrftoken).
#[local] Abbreviation msg_of := (getElementById review_form_msg).

Lemma toggle_fragment_last_wins (b c : bool) (f : fragment) :
  toggle_fragment b (toggle_fragment c f) = toggle_fragment b f.
Proof.
  destruct f as [n pg bw bc fw lw].
  destruct b, c; simpl;
    destruct bw as [[? ?]|], bc as [[? ?]|], fw, lw; reflexivity.
Qed.

(** X17.  The form toggler is a switch: of two calls in a row the last
    one decides, so repeating a call changes nothing; and after any
    call the form section and the list, where the container has both,
    are never shown together nor hidden together, and likewise the write
    and the cancel button. *)
Theorem toggleReviewForm_is_a_switch (b c : bool) (d : document) :
  toggleReviewForm b (toggleReviewForm c d) = toggleReviewForm b d
  /\ forall a, container (toggleReviewForm b d) = Some a ->
       (forall x y, formWrap (content a) = Some x -> listWrap (content a) = Some y ->
                    (x = "none" <-> y = "") /\ (x = "" <-> y = "none"))
       /\ (forall x y, btnWrite (content a) = Some x -> btnCancel (content a) = Some y ->
                       (b_display x = "none" <-> b_display y = "")
                       /\ (b_display x = "" <-> b_display y = "none")).
Proof.
  split.
  - unfold toggleReviewForm.
    destruct (container d) as [a|] eqn:E; simpl; [|now rewrite E].
    unfold with_container, with_content. simpl.
    now rewrite toggle_fragment_last_wins.
  - intros a Ha. unfold toggleReviewForm in Ha.
    destruct (container d) as [a0|] eqn:E; [|congruence].
    simpl in Ha. injection Ha as <-. simpl.
    destruct (content a0) as [n pg bw bc fw lw].
    destruct b; simpl; split; intros x y Hx Hy;
      destruct fw, lw, bw, bc; simpl in *; try discriminate;
      injection Hx as <-; injection Hy as <-; simpl;
      repeat split; intro H; try reflexivity; discriminate.
Qed.

(** X18.  A reload that resolves binds the whole fresh fragment.  The
    container keeps its data attributes and gets the fragment of the
    response; its pager has the click listener, each toggler button of
    the fragment one more click listener than it came with, and the form
    and the sort select the page then finds by id are bound.  The
    id-addressed elements of the old fragment are gone with it; those
    outside the container stay. *)
Theorem loadReviews_binds_fresh_fragment
    (s : state) (ps : params) (res : response) (a : area) :
  let rq := reviewsRequest (doc s)
              (str_or (p_sort ps)
                 (str_or (option_map sort_value (getElementById reviews_sort (doc s)))
                         "recent"))
              (str_or (p_page ps) "1") in
  server (List.length (sent s)) rq = Resolved res ->
  container (doc s) = Some a ->
  let d' := doc (snd (loadReviews ps s)) in
  fst (loadReviews ps s) = Ok tt
  /\ exists a',
       container d' = Some a'
       /\ dataset_slug a' = dataset_slug a
       /\ dataset_variant a' = dataset_variant a
       /\ pager (content a') = option_map (fun _ => true) (pager (text_dom res))
       /\ option_map b_clicks (btnWrite (content a'))
          = option_map (fun b => S (b_clicks b)) (btnWrite (text_dom res))
       /\ option_map b_clicks (btnCancel (content a'))
          = option_map (fun b => S (b_clicks b)) (btnCancel (text_dom res))
       /\ (forall f, getElementById review_form d' = Some f -> submit_bound f = true)
       /\ (forall x, getElementById reviews_sort d' = Some x -> change_bound x = true)
       /\ review_form_msg (ids (content a')) = review_form_msg (ids (text_dom res))
       /\ review_form_msg (outside d') = review_form_msg (outside (doc s)).
Proof.
  intros rq Hsrv Ha d'.
  pose proof (loadReviews_resolved server s ps res a Hsrv Ha) as Hl.
  unfold d'. rewrite Hl. cbn [fst snd doc]. split; [reflexivity|].
  destruct res as [k [n pg bw bc fw lw] j].
  destruct n as [so fo mo]. destruct (outside (doc s)) as [so' fo' mo'] eqn:Ho.
  unfold bindHandlers, write, inside, getElementById, with_container, with_content.
  cbn. rewrite Ho.
  destruct so as [x|], fo as [f|]; cbn;
    (eexists; split; [reflexivity|]); cbn;
    destruct fw, lw, bw, bc, pg, so', fo'; cbn;
    repeat split; intros y Hy; inversion Hy; reflexivity.
Qed.

(** X19.  The reload never looks at the status of the response: two
    servers whose answers to its request carry the same text, whatever
    their status and their JSON reading, leave the same page, so an error
    page is injected like any other. *)
Theorem loadReviews_ignores_status
    (server' : nat -> Net.request -> fetch_outcome)
    (s : state) (ps : params) (res res' : response) :
  let rq := reviewsRequest (doc s)
              (str_or (p_sort ps)
                 (str_or (option_map sort_value (getElementById reviews_sort (doc s)))
                         "recent"))
              (str_or (p_page ps) "1") in
  server (List.length (sent s)) rq = Resolved res ->
  server' (List.length (sent s)) rq = Resolved res' ->
  text_dom res = text_dom res' ->
  Reviews.loadReviews server' ps s = loadReviews ps s.
Proof.
  intros rq Hsrv Hsrv' Htext.
  unfold Reviews.loadReviews, bind, get, Reviews.fetch. fold rq.
  rewrite Hsrv, Hsrv'. cbn. now rewrite Htext.
Qed.

Lemma detached_returns (c : M state unit) (s : state) :
  fst (detached c s) = Ok tt.
Proof.
  unfold detached, try_catch. destruct (c s) as [[[]|e] s1]; reflexivity.
Qed.

Lemma detached_state (c : M state unit) (s : state) :
  (exists u, c s = (Ok u, snd (detached c s)))
  \/ (exists e s1, c s = (Throw e, s1)
        /\ doc (snd (detached c s)) = doc s1
        /\ sent (snd (detached c s)) = sent s1
        /\ prevented (snd (detached c s)) = prevented s1
        /\ unhandled (snd (detached c s)) = unhandled s1 ++ [e]).
Proof.
  unfold detached, try_catch. destruct (c s) as [[u|e] s1]; cbn.
  - left. now exists u.
  - right. exists e, s1. now repeat split.
Qed.

Lemma loadReviews_prevented (s : state) (ps : params) :
  prevented (snd (loadReviews ps s)) = prevented s.
Proof.
  unfold Reviews.loadReviews, bind, get, Reviews.fetch.
  destruct (server _ _) as [|res]; cbn; [reflexivity|].
  now destruct (container (doc s)).
Qed.

(** What a reload nobody awaits leaves behind. *)
Lemma detached_loadReviews (s : state) (ps : params) :
  let rq := reviewsRequest (doc s)
              (str_or (p_sort ps)
                 (str_or (option_map sort_value (getElementById reviews_sort (doc s)))
                         "recent"))
              (str_or (p_page ps) "1") in
  let r := detached (loadReviews ps) s in
  fst r = Ok tt
  /\ sent (snd r) = sent s ++ [rq]
  /\ prevented (snd r) = prevented s
  /\ (server (List.length (sent s)) rq = NetworkError ->
      doc (snd r) = doc s /\ unhandled (snd r) = unhandled s ++ [FetchRejected])
  /\ (forall res a, server (List.length (sent s)) rq = Resolved res ->
      container (doc s) = Some a ->
      unhandled (snd r) = unhandled s
      /\ doc (snd r)
         = bindHandlers (with_container (Some (with_content (text_dom res) a)) (doc s))).
Proof.
  intros rq r. split; [apply detached_returns|].
  pose proof (loadReviews_sent server s ps) as Hs. cbv zeta in Hs. fold rq in Hs.
  pose proof (loadReviews_prevented s ps) as Hp.
  destruct (detached_state (loadReviews ps) s) as [[u Hu]|[e [s1 [He [Hd [Hse [Hpe Hue]]]]]]].
  - fold r in Hu. rewrite Hu in Hs, Hp. cbn in Hs, Hp.
    split; [exact Hs|]. split; [exact Hp|]. split.
    + intro Hn. exfalso. revert Hu.
      unfold Reviews.loadReviews, bind, get, Reviews.fetch. fold rq. rewrite Hn.
      discriminate.
    + intros res a Hsrv Ha.
      rewrite (loadReviews_resolved server s ps res a Hsrv Ha) in Hu.
      injection Hu as _ <-. now split.
  - fold r in Hd, Hse, Hpe, Hue. rewrite He in Hs, Hp. cbn in Hs, Hp.
    split; [congruence|]. split; [congruence|]. split.
    + intro Hn. revert He.
      unfold Reviews.loadReviews, bind, get, Reviews.fetch. fold rq. rewrite Hn.
      cbn. intro He. injection He as <- <-. rewrite Hd, Hue. now split.
    + intros res a Hsrv Ha.
      rewrite (loadReviews_resolved server s ps res a Hsrv Ha) in He. discriminate.
Qed.

Lemma str_or_again (a : option string) (d : string) :
  str_or (Some (str_or a d)) d = str_or a d.
Proof.
  unfold str_or. destruct a as [x|].
  - destruct (String.eqb x "") eqn:E; [now destruct (String.eqb d "")|now rewrite E].
  - now destruct (String.eqb d "").
Qed.

(** X20.  A change of the sort select never throws into the browser: the
    listener returns at once, having issued one request for page 1 with
    the value of the event target as the sort order (the select's own
    value, then [recent], when that is empty).  When the fetch is
    rejected the page stays as it is and the rejection is left unhandled. *)
Theorem onSortChange_requests_first_page (v : string) (s : state) :
  let rq := reviewsRequest (doc s)
              (str_or (Some v)
                 (str_or (option_map sort_value (getElementById reviews_sort (doc s)))
                         "recent"))
              "1" in
  let r := onSortChange v s in
  fst r = Ok tt
  /\ sent (snd r) = sent s ++ [rq]
  /\ prevented (snd r) = prevented s
  /\ (server (List.length (sent s)) rq = NetworkError ->
      doc (snd r) = doc s /\ unhandled (snd r) = unhandled s ++ [FetchRejected]).
Proof.
  intros rq r.
  destruct (detached_loadReviews s {| p_sort := Some v; p_page := Some "1" |})
    as [H1 [H2 [H3 [H4 _]]]].
  now repeat split; try apply H4.
Qed.

(** X21.  A click in the pager that hits no pagination link does nothing
    at all.  One that hits a link cancels the navigation once; when the
    link's address does not parse as a URL the listener throws a
    TypeError there and no request is issued; otherwise it issues one
    request, for the page named in the link ([1] when the link names
    none) in the sort order of the select ([recent] without a select),
    and returns normally whatever becomes of the request. *)
Theorem onPaginate_requests_linked_page (s : state) :
  onPaginate None s = (Ok tt, s)
  /\ onPaginate (Some BadUrl) s
     = (Throw TypeError,
        {| doc := doc s; sent := sent s; prevented := S (prevented s);
           unhandled := unhandled s |})
  /\ forall page : option string,
       let rq := reviewsRequest (doc s)
                   (str_or (option_map sort_value (getElementById reviews_sort (doc s)))
                           "recent")
                   (str_or page "1") in
       let r := onPaginate (Some (PageOf page)) s in
       fst r = Ok tt
       /\ sent (snd r) = sent s ++ [rq]
       /\ prevented (snd r) = S (prevented s)
       /\ (server (List.length (sent s)) rq = NetworkError ->
           doc (snd r) = doc s /\ unhandled (snd r) = unhandled s ++ [FetchRejected]).
Proof.
  split; [reflexivity|]. split; [reflexivity|]. intros page rq r.
  set (s1 := {| doc := doc s; sent := sent s; prevented := S (prevented s);
                unhandled := unhandled s |}).
  assert (Hr : r = detached (loadReviews {| p_sort := None;
                                             p_page := Some (str_or page "1") |}) s1)
    by reflexivity.
  destruct (detached_loadReviews s1 {| p_sort := None; p_page := Some (str_or page "1") |})
    as [H1 [H2 [H3 [H4 _]]]].
  cbn [p_sort p_page] in H2, H4. rewrite str_or_again in H2, H4.
  rewrite <- Hr in H1, H2, H3, H4.
  now repeat split; try apply H4.
Qed.

(** X22.  [setVariant] on a page with the container stores the new
    variant id on it, asks for the first page of the most recent reviews
    of that variant and returns normally; the stored id is still there
    afterwards, whether the fetch resolved or was rejected. *)
Theorem setVariant_switches_and_reloads (v : string) (s : state) (a : area) :
  container (doc s) = Some a ->
  let rq := {| Net.method := "GET";
               Net.url := "/products/" ++ tpl (dataset_slug a) ++ "/reviews/?variant="
                            ++ v ++ "&sort=recent&page=1";
               Net.headers := [("X-Requested-With", "XMLHttpRequest")];
               Net.req_body := Net.NoBody |} in
  let r := setVariant v s in
  fst r = Ok tt
  /\ sent (snd r) = sent s ++ [rq]
  /\ prevented (snd r) = prevented s
  /\ exists a', container (doc (snd r)) = Some a'
                /\ dataset_variant a' = Some v
                /\ dataset_slug a' = dataset_slug a.
Proof.
  intros Ha rq r.
  set (a1 := {| dataset_slug := dataset_slug a; dataset_variant := Some v;
                content := content a |}).
  set (s1 := with_doc (with_container (Some a1) (doc s)) s).
  assert (Hr : r = detached (loadReviews recent_first) s1).
  { unfold r, Reviews.setVariant, bind, get, modify. cbn. now rewrite Ha. }
  assert (Hrq : reviewsRequest (doc s1)
                  (str_or (p_sort recent_first)
                     (str_or (option_map sort_value
                                (getElementById reviews_sort (doc s1))) "recent"))
                  (str_or (p_page recent_first) "1") = rq) by reflexivity.
  destruct (detached_loadReviews s1 recent_first) as [H1 [H2 [H3 [H4 H5]]]].
  rewrite Hrq in H2, H4, H5. rewrite <- Hr in H1, H2, H3, H4, H5.
  split; [exact H1|]. split; [exact H2|]. split; [exact H3|].
  destruct (server (List.length (sent s1)) rq) as [|res] eqn:Hsrv.
  - destruct (H4 eq_refl) as [Hd _]. rewrite Hd. exists a1. now repeat split.
  - destruct (H5 res a1 eq_refl eq_refl) as [_ Hd]. rewrite Hd.
    unfold bindHandlers, write, inside, with_container, with_content. cbn.
    destruct (reviews_sort (ids (text_dom res))); cbn;
      destruct (review_form _); cbn; eexists; now repeat split.
Qed.

(** X23.  When the fetch of the POST is rejected, the submit handler has
    cancelled the default submission and sent its one request, and the
    rejection leaves it: the document, message element included, is as
    it was, and no reload is asked for. *)
Theorem submit_rejected_leaves_page (s : state) (f : form) :
  server (List.length (sent s)) (postRequest f) = NetworkError ->
  submitReview f s
  = (Throw FetchRejected,
     {| doc := doc s; sent := sent s ++ [postRequest f];
        prevented := S (prevented s); unhandled := unhandled s |}).
Proof.
  intro Hsrv.
  unfold Reviews.submitReview, bind, preventDefault, modify, Reviews.fetch. cbn.
  now rewrite Hsrv.
Qed.

(** X24.  The two faces of the message element exclude each other.
    After the success message it is displayed with [text-success] and
    without [text-danger], after an error message with [text-danger] and
    without [text-success]; every other class it had is kept, and none is
    added. *)
Theorem message_shows_one_style (m : message) (t : string) :
  let good := show_success m in
  let bad := show_error t m in
  (m_display good = "block"
   /\ In "text-success" (classList good) /\ ~ In "text-danger" (classList good)
   /\ textContent good = "Thanks! Your review has been submitted.")
  /\ (m_display bad = "block"
      /\ In "text-danger" (classList bad) /\ ~ In "text-success" (classList bad)
      /\ textContent bad = t)
  /\ forall c, c <> "text-success" -> c <> "text-danger" ->
       (In c (classList good) <-> In c (classList m))
       /\ (In c (classList bad) <-> In c (classList m)).
Proof.
  intros good bad.
  destruct (mark_fields "text-success" "text-danger" m) as (_ & _ & G1 & G2 & G3);
    [discriminate|].
  destruct (mark_fields "text-danger" "text-success" m) as (_ & _ & B1 & B2 & B3);
    [discriminate|].
  repeat split; try assumption; try (apply G3; assumption); try (apply B3; assumption).
Qed.

(** X25.  A refused submission, whatever its body.  When the POST is
    answered with a failure status, no reload follows; a page with a
    message element ends with it displayed ([block]), with the class
    [text-danger] and without [text-success], its other classes as they
    were.  Its text is the [error] field of the JSON body when that is a
    non-empty string, [Something went wrong.] when the body is an object
    without one, and [Error] when the body is not JSON.  A body that is
    the JSON [null] makes the handler throw a [TypeError] after the
    element was restyled, with its old text still in it.  A page without
    the element is left as it was. *)
Theorem submit_refused_shows_error
    (s : state) (f : form) (res : response) :
  server (List.length (sent s)) (postRequest f) = Resolved res ->
  ok res = false ->
  let s' := snd (submitReview f s) in
  sent s' = sent s ++ [postRequest f]
  /\ prevented s' = S (prevented s)
  /\ (msg_of (doc s) = None -> fst (submitReview f s) = Ok tt /\ doc s' = doc s)
  /\ forall m, msg_of (doc s) = Some m ->
       exists m',
         msg_of (doc s') = Some m'
         /\ m_display m' = "block"
         /\ In "text-danger" (classList m')
         /\ ~ In "text-success" (classList m')
         /\ (forall c, c <> "text-danger" -> c <> "text-success" ->
               (In c (classList m') <-> In c (classList m)))
         /\ match parsed res with
            | Some JsonNull =>
                fst (submitReview f s) = Throw TypeError
                /\ textContent m' = textContent m
            | Some (JsonObject e) =>
                fst (submitReview f s) = Ok tt
                /\ textContent m' = str_or e "Something went wrong."
            | None =>
                fst (submitReview f s) = Ok tt
                /\ textContent m' = "Error"
            end.
Proof.
  intros Hsrv Hok.
  unfold Reviews.submitReview, bind, preventDefault, modify, Reviews.fetch, get.
  cbn. rewrite Hsrv. cbn. rewrite Hok. cbn.
  destruct (msg_of (doc s)) as [m|] eqn:Hm; cbn.
  - unfold set_msg, modify.
    destruct (mark_fields "text-danger" "text-success" m ltac:(discriminate))
      as (H1 & H2 & H3 & H4 & H5).
    destruct (parsed res) as [[|e]|]; cbn;
      (split; [reflexivity|]); (split; [reflexivity|]);
      (split; [discriminate|]); intros m' Hm'; injection Hm' as <-;
      rewrite ?msg_of_map_msg, Hm; cbn [option_map];
      eexists; (split; [reflexivity|]);
      cbn [set_text m_display classList textContent];
      (split; [exact H1|]); (split; [exact H3|]); (split; [exact H4|]);
      (split; [exact H5|]); split; (reflexivity || exact H2).
  - rewrite Hm. repeat split; try reflexivity. discriminate.
Qed.

(** X26.  Binding twice.  The sort select, the pager and the form take
    the same named listener again, which changes nothing; each toggler
    button takes a fresh anonymous one, so a second binding of the same
    fragment differs from the first in one more click listener on each
    button and in nothing else. *)
Theorem bindHandlers_again_adds_button_listeners (d : document) (a : area) :
  container (bindHandlers d) = Some a ->
  bindHandlers (bindHandlers d)
  = with_container
      (Some (with_content
               {| ids := ids (content a);
                  pager := pager (content a);
                  btnWrite := option_map add_click (btnWrite (content a));
                  btnCancel := option_map add_click (btnCancel (content a));
                  formWrap := formWrap (content a);
                  listWrap := listWrap (content a) |} a))
      (bindHandlers d).
Proof.
  unfold bindHandlers at 1 3 4.
  destruct (container d) as [[sl va [[so fo mo] pg bw bc fw lw]]|] eqn:Hc;
    [|intro H; congruence].
  destruct (outside d) as [so' fo' mo'] eqn:Ho.
  unfold bindHandlers, write, inside, with_container, with_content. rewrite Hc, Ho.
  destruct so as [x|], fo as [f|]; cbn; intro Ha; injection Ha as <-; cbn;
    destruct fw, lw, bw as [[? ?]|], bc as [[? ?]|], pg, so', fo'; reflexivity.
Qed.

End ReviewsPanel.

(** ** Gallery: the registry and the listeners over any number of mounts *)

Section ZoomRemount.
Import Eff Zoom.

Variable engine : string -> dom -> found.

Lemma remount_gallery (throws : nat -> lib_call -> bool) (n : nat) (s : state) :
  gallery (remount engine throws n s) = gallery s.
Proof.
  induction n as [|n IH]; [reflexivity|].
  cbn [remount]. now rewrite (mountAllGalleries_keeps_gallery engine throws).
Qed.

(** X27.  The registry does not grow with remounts.  With a library that
    does not throw, on a page where the colour of every slide of the main
    element makes a valid selector, after any number of mounts (one at
    least) the registry holds one pair for each selector group found in
    the page, at most five, and both instances of every pair in it are
    live. *)
Theorem remount_keeps_one_pair_per_group (n : nat) (s : state) :
  selectable engine (page s) ->
  let s' := remount engine quiet (S n) s in
  List.length (_mounted s') = List.length (filter (group_present (page s)) groups)
  /\ (List.length (_mounted s') <= 5)%nat
  /\ intact s'.
Proof.
  intro Hsel. cbn [remount]. set (x := remount engine quiet n s).
  pose proof (remount_gallery quiet n s) as Hg. fold x in Hg.
  destruct (mount_registry_quiet engine x (selectable_gallery engine s x Hg Hsel))
    as [_ [Hlen [Hint _]]].
  assert (Hf : filter (group_present (page x)) groups
               = filter (group_present (page s)) groups).
  { apply filter_ext. intro tm. apply group_present_ext.
    unfold gallery in Hg. now injection Hg as Hg _ _. }
  rewrite Hf in Hlen.
  split; [exact Hlen|]. split; [|exact Hint].
  rewrite Hlen. apply (filter_length_le (group_present (page s)) groups).
Qed.

(** X28.  The listeners do grow.  On a page with the primary gallery and
    a library that does not throw, [n] mounts leave every colour button
    with [n] click listeners more than it had, and add or drop no
    button. *)
Theorem remount_adds_a_listener_per_mount (n : nat) (s : state) :
  group_present (page s) (".thumbs-slider", ".tf-product-media-main") = true ->
  List.length (click_counts (remount engine quiet n s)) = List.length (click_counts s)
  /\ forall k c, nth_error (click_counts s) k = Some c ->
       nth_error (click_counts (remount engine quiet n s)) k = Some (n + c)%nat.
Proof.
  intro Hp. destruct (remount_accumulates_clicks engine n s Hp) as [Hc _].
  rewrite Hc. split; [apply length_map|].
  intros k c Hk. now rewrite nth_error_map, Hk.
Qed.

End ZoomRemount.

(** ** FBT widget: the first render *)

Section FbtMount.
Import Js Fbt.

Variable StringToNumber : string -> num.
Variable encodeURIComponent : string -> string.

#[local] Abbreviation onReady := (Fbt.onReady StringToNumber encodeURIComponent).
#[local] Abbreviation recompute := (Fbt.recompute StringToNumber).
#[local] Abbreviation render := (Fbt.render StringToNumber).
#[local] Abbreviation rowHTML := (Fbt.rowHTML StringToNumber).
#[local] Abbreviation picked := (Fbt.picked StringToNumber).
#[local] Abbreviation sumSale := (Fbt.sumSale StringToNumber).
#[local] Abbreviation sumComp := (Fbt.sumComp StringToNumber).
#[local] Abbreviation inr := (Fbt.inr StringToNumber).
#[local] Abbreviation Number := (Js.Number StringToNumber).




End FbtMount.

(** ** Review panel: the cookie reader *)

Section Splitting.
Import Js.

Lemma starts_with_app (p rest : list ascii) : starts_with p (p ++ rest) = true.
Proof.
  induction p as [|a p IH]; [reflexivity|].
  cbn. now rewrite Ascii.eqb_refl.
Qed.

Lemma starts_with_inv (p s : list ascii) :
  starts_with p s = true -> exists rest, s = p ++ rest.
Proof.
  revert s. induction p as [|a p IH]; intros s H.
  - now exists s.
  - destruct s as [|b s]; [discriminate|]. cbn in H.
    apply andb_true_iff in H. destruct H as [Hab Hp].
    apply Ascii.eqb_eq in Hab. subst b.
    destruct (IH s Hp) as [rest ->]. now exists rest.
Qed.

Lemma starts_with_short (p x y : list ascii) :
  starts_with p (x ++ y) = true -> (List.length p <= List.length x)%nat ->
  starts_with p x = true.
Proof.
  revert x. induction p as [|a p IH]; intros x H Hlen; [reflexivity|].
  destruct x as [|b x]; [cbn in Hlen; lia|].
  cbn in H |- *. apply andb_true_iff in H. destruct H as [Hab Hp].
  rewrite Hab. cbn. apply IH; [exact Hp | cbn in Hlen; lia].
Qed.

Lemma split_chars_skip (sep cur s : list ascii) (k : nat) :
  split_chars sep cur s k = split_chars sep cur (skipn k s) 0.
Proof.
  revert k. induction s as [|c t IH]; intro k.
  - now destruct k.
  - destruct k as [|k]; [reflexivity|]. cbn [split_chars skipn]. apply IH.
Qed.

Lemma split_chars_hit (sep cur rest : list ascii) :
  sep <> [] ->
  split_chars sep cur (sep ++ rest) 0 = cur :: split_chars sep [] rest 0.
Proof.
  intro Hne. destruct sep as [|a sep]; [contradiction|].
  pose proof (starts_with_app (a :: sep) rest) as Hs.
  change ((a :: sep) ++ rest) with (a :: (sep ++ rest)) in *.
  cbn [split_chars]. rewrite Hs. f_equal.
  rewrite split_chars_skip. cbn [List.length Nat.pred].
  f_equal. rewrite skipn_app, skipn_all, Nat.sub_diag. reflexivity.
Qed.

Lemma split_chars_some_part (sep cur s : list ascii) (k : nat) :
  (1 <= List.length (split_chars sep cur s k))%nat.
Proof.
  revert cur k. induction s as [|c t IH]; intros cur k; [cbn; lia|].
  cbn [split_chars]. destruct k as [|k]; [|apply IH].
  destruct (starts_with sep (c :: t)); [cbn; lia | apply IH].
Qed.

(** Without an occurrence of the separator there is one part, the whole. *)
Lemma split_chars_none (sep cur s : list ascii) :
  (forall a b, s <> a ++ sep ++ b) ->
  split_chars sep cur s 0 = [cur ++ s].
Proof.
  revert cur. induction s as [|c t IH]; intros cur Hno.
  - cbn. now rewrite app_nil_r.
  - cbn [split_chars].
    destruct (starts_with sep (c :: t)) eqn:E.
    + apply starts_with_inv in E. destruct E as [rest E].
      exfalso. apply (Hno [] rest). exact E.
    + rewrite IH.
      * now rewrite <- app_assoc.
      * intros a b E'. apply (Hno (c :: a) b). cbn. now rewrite E'.
Qed.

(** The first occurrence of the separator ends the first part. *)
Lemma split_chars_first (sep cur a b : list ascii) :
  sep <> [] ->
  (forall x y, a ++ sep = x ++ sep ++ y -> y = []) ->
  split_chars sep cur (a ++ sep ++ b) 0 = (cur ++ a) :: split_chars sep [] b 0.
Proof.
  intro Hne. revert cur. induction a as [|c a IH]; intros cur Hfirst.
  - cbn [app]. rewrite app_nil_r. now apply split_chars_hit.
  - change ((c :: a) ++ sep ++ b) with (c :: (a ++ sep ++ b)).
    cbn [split_chars].
    destruct (starts_with sep (c :: a ++ sep ++ b)) eqn:E.
    + exfalso.
      assert (E' : starts_with sep ((c :: a) ++ sep) = true).
      { apply (starts_with_short sep ((c :: a) ++ sep) b).
        - now rewrite <- app_assoc.
        - rewrite length_app. lia. }
      apply starts_with_inv in E'. destruct E' as [rest E'].
      pose proof (Hfirst [] rest E') as Hr. subst rest.
      apply (f_equal (@List.length ascii)) in E'.
      rewrite !length_app in E'. cbn in E'. lia.
    + rewrite IH.
      * now rewrite <- app_assoc.
      * intros x y Hxy. apply (Hfirst (c :: x) y). cbn. now rewrite Hxy.
Qed.

(** With an occurrence there are two parts at least. *)
Lemma split_chars_some (sep cur s : list ascii) :
  sep <> [] ->
  (exists a b, s = a ++ sep ++ b) ->
  (2 <= List.length (split_chars sep cur s 0))%nat.
Proof.
  intro Hne. revert cur. induction s as [|c t IH]; intros cur [a [b E]].
  - exfalso. destruct a; [destruct sep; [contradiction | discriminate] | discriminate].
  - cbn [split_chars]. destruct (starts_with sep (c :: t)) eqn:Es.
    + cbn [List.length]. pose proof (split_chars_some_part sep [] t
                                       (Nat.pred (List.length sep))). lia.
    + apply IH. destruct a as [|c' a].
      * exfalso. cbn in E. rewrite E, starts_with_app in Es. discriminate.
      * cbn in E. injection E as _ E. now exists a, b.
Qed.

Lemma list_ascii_of_string_app (a b : string) :
  list_ascii_of_string (a ++ b) = list_ascii_of_string a ++ list_ascii_of_string b.
Proof. induction a as [|c a IH]; [reflexivity|]. cbn. now rewrite IH. Qed.

Lemma string_of_list_ascii_app (a b : list ascii) :
  string_of_list_ascii (a ++ b)
  = (string_of_list_ascii a ++ string_of_list_ascii b)%string.
Proof. induction a as [|c a IH]; [reflexivity|]. cbn. now rewrite IH. Qed.

Lemma string_app_nil_r (a : string) : (a ++ "")%string = a.
Proof. induction a as [|c a IH]; [reflexivity|]. cbn. now rewrite IH. Qed.

(** The first part of a split at semicolons. *)
Lemma split_semicolon_head (cur : list ascii) (s : string) :
  hd "" (map string_of_list_ascii
           (split_chars [";"%char] cur (list_ascii_of_string s) 0))
  = (string_of_list_ascii cur ++ Reviews.until_semicolon s)%string.
Proof.
  revert cur. induction s as [|c s IH]; intro cur.
  - cbn. now rewrite string_app_nil_r.
  - cbn [list_ascii_of_string split_chars starts_with Reviews.until_semicolon].
    rewrite Ascii.eqb_sym. destruct (Ascii.eqb c ";"%char); cbn [andb].
    + cbn. now rewrite string_app_nil_r.
    + rewrite IH, string_of_list_ascii_app. cbn.
      induction (string_of_list_ascii cur) as [|x t IHt]; [reflexivity|].
      cbn. now rewrite IHt.
Qed.

Lemma no_occurrence_chars (sep s : string) :
  ~ Reviews.occurs sep s ->
  forall a b, list_ascii_of_string s <> a ++ list_ascii_of_string sep ++ b.
Proof.
  intros Hno a b E. apply Hno.
  exists (string_of_list_ascii a), (string_of_list_ascii b).
  rewrite <- (string_of_list_ascii_of_string s), E, !string_of_list_ascii_app.
  now rewrite string_of_list_ascii_of_string.
Qed.

Lemma occurrence_chars (sep s : string) :
  Reviews.occurs sep s ->
  exists a b, list_ascii_of_string s = a ++ list_ascii_of_string sep ++ b.
Proof.
  intros [a [b ->]].
  exists (list_ascii_of_string a), (list_ascii_of_string b).
  now rewrite !list_ascii_of_string_app.
Qed.

Lemma first_after_chars (sep before : string) :
  Reviews.first_after sep before ->
  forall x y,
    list_ascii_of_string before ++ list_ascii_of_string sep
    = x ++ list_ascii_of_string sep ++ y -> y = [].
Proof.
  intros Hf x y E.
  assert (Hy : string_of_list_ascii y = "").
  { apply (Hf (string_of_list_ascii x)).
    rewrite <- (string_of_list_ascii_of_string before) at 1.
    rewrite <- (string_of_list_ascii_of_string sep) at 1 2.
    rewrite <- !string_of_list_ascii_app. now rewrite E. }
  destruct y; [reflexivity | discriminate].
Qed.

End Splitting.

Section CookieReader.
Import Js Reviews.

Variable decodeURIComponent : string -> option string.

#[local] Abbreviation getCookie := (Reviews.getCookie decodeURIComponent).

(** X30.  [getCookie] reads a cookie that is named once.  Write the
    separator for [; name=] and the value for [; ] followed by the cookie
    string.  When the separator does not occur in the value the result
    is [undefined].  When it does, take its first occurrence: if the
    separator occurs again after it, the result is [undefined] too; if
    not, the result is the text that follows up to the next semicolon,
    URI-decoded, or the URIError of the decoder. *)
Theorem getCookie_reads_the_single_occurrence (cookie name : string) :
  let sep := ("; " ++ name ++ "=")%string in
  let value := ("; " ++ cookie)%string in
  (~ occurs sep value -> getCookie cookie name = Undefined)
  /\ forall before after : string,
       value = (before ++ sep ++ after)%string ->
       first_after sep before ->
       (occurs sep after -> getCookie cookie name = Undefined)
       /\ (~ occurs sep after ->
           getCookie cookie name
           = match decodeURIComponent (until_semicolon after) with
             | Some v => Read v
             | None => URIError
             end).
Proof.
  intros sep value.
  assert (Hne : list_ascii_of_string sep <> []) by discriminate.
  unfold Reviews.getCookie, str_split. fold sep. fold value.
  split.
  - intro Hno.
    rewrite (split_chars_none _ [] _ (no_occurrence_chars sep value Hno)).
    reflexivity.
  - intros before after Hv Hfirst.
    rewrite Hv, !list_ascii_of_string_app.
    rewrite (split_chars_first _ [] _ _ Hne (first_after_chars sep before Hfirst)).
    split.
    + intro Hocc.
      pose proof (split_chars_some _ [] _ Hne (occurrence_chars sep after Hocc)) as H2.
      cbn [map List.length]. rewrite length_map.
      destruct (List.length _) as [|[|n]]; [lia | lia | reflexivity].
    + intro Hno.
      rewrite (split_chars_none _ [] _ (no_occurrence_chars sep after Hno)).
      cbn [app map List.length Nat.eqb last].
      rewrite string_of_list_ascii_of_string.
      fold (str_split ";" after). unfold str_split.
      change (list_ascii_of_string ";") with [";"%char].
      now rewrite split_semicolon_head.
Qed.

End CookieReader.


(** ** The further properties at work on the sample pages *)

Lemma string_length_app (a b : string) :
  String.length (a ++ b) = (String.length a + String.length b)%nat.
Proof. induction a as [|c a IH]; [reflexivity|]. cbn. now rewrite IH. Qed.


(** A click on the add button of the freshly rendered box, answered
    with a failure: the request went out and the form is submitted. *)
Lemma click_posts_and_submits_witness :
  let p := Samples.mounted_page Samples.two_items in
  let q := Fbt.clickAddBtn Samples.failure p in
  List.length (Fbt.sent q) = 2%nat
  /\ Fbt.href q = Fbt.href p
  /\ Fbt.form_submits q = 1%nat.
Proof.
  destruct (click_posts_and_submits Samples.decimal Samples.failure
              (Samples.mounted_page Samples.two_items) eq_refl eq_refl)
    as [Hs [Hh [Hf _]]].
  cbv zeta. rewrite Hs, Hh, Hf. repeat split.
Defined.

(** Both boxes of a two-row widget unchecked. *)
Lemma recompute_nothing_checked_witness :
  let x := Fbt.toggles Samples.decimal [0%nat; 1%nat]
             (Fbt.w (Samples.mounted_page Samples.two_items)) in
  existsb Fbt.checked (Fbt.rows x) = false
  /\ Fbt.w_saleEl (Fbt.recompute Samples.decimal x) = "₹0"
  /\ Fbt.w_compEl (Fbt.recompute Samples.decimal x) = ""
  /\ Fbt.addBtn_disabled (Fbt.recompute Samples.decimal x) = true.
Proof.
  split; [reflexivity|].
  apply (recompute_nothing_checked Samples.decimal
           (Fbt.toggles Samples.decimal [0%nat; 1%nat]
              (Fbt.w (Samples.mounted_page Samples.two_items)))).
  reflexivity.
Defined.


(** Teardown of the mounted gallery with a library whose [destroy]
    throws: the registry is emptied, the instances stay as they were. *)
Lemma destroyMounted_drops_live_pairs_witness :
  let s1 := snd (Zoom.destroyMounted Samples.destroy_fails Samples.mounted_once) in
  Zoom._mounted s1 = []
  /\ Zoom.flags s1 = [false; false]
  /\ Zoom.calls s1 = Zoom.calls Samples.mounted_once ++ [Zoom.Destroy 1].
Proof.
  destruct (destroyMounted_drops_live_pairs Samples.destroy_fails
              (fun _ _ => eq_refl) Samples.mounted_once) as [_ [Hm [Hi Hc]]].
  split; [exact Hm|]. split; [|exact Hc].
  unfold Zoom.flags. rewrite Hi. reflexivity.
Defined.

(** A mount after the gallery left the page only tears down. *)
Lemma mount_without_gallery_is_teardown_witness :
  Zoom.mountAllGalleries Zoom.strict Zoom.quiet Samples.gallery_removed
  = Zoom.destroyMounted Zoom.quiet Samples.gallery_removed
  /\ Zoom._mounted Samples.gallery_removed = [Samples.first_pair].
Proof.
  split; [|reflexivity].
  apply (mount_without_gallery_is_teardown Zoom.strict Zoom.quiet
           Samples.gallery_removed).
  intros tm H. unfold Zoom.groups, Zoom.numbered in H. cbn [In] in H.
  repeat (destruct H as [<-|H]; [reflexivity|]). destruct H.
Defined.

(** A click on the green button: no slide is green. *)
Lemma clickColorBtn_without_slide_witness :
  option_map Zoom.clicks (nth_error (Zoom.color_btns (Zoom.page Samples.green_mounted)) 1)
  = Some [Samples.first_listener]
  /\ Zoom.clickColorBtn Zoom.quiet 1 Samples.green_mounted
     = (Eff.Ok [], Samples.green_mounted).
Proof.
  split; [reflexivity|].
  apply (clickColorBtn_without_slide Zoom.quiet 1 Samples.green_mounted).
  intros b l H Hin. vm_compute in H. injection H as <-.
  destruct Hin as [<-|[]]. reflexivity.
Defined.


(** The gallery markup is swapped, red and blue changing places, and the
    gallery mounted again: the first pair is destroyed and out of the
    registry, and a click on the red button still sends it to slide 0,
    where red was in the element that left, while the new pair goes to
    slide 1. *)
Lemma remount_leaves_stale_listener_witness :
  let s' := Samples.swapped_and_remounted in
  Zoom.is_destroyed s' 1 = true
  /\ ~ In Samples.first_pair (Zoom._mounted s')
  /\ In (Zoom.SlideTo 1 0) (Zoom.calls (snd (Zoom.clickColorBtn Zoom.quiet 0 s')))
  /\ skipn 16 (Zoom.calls (snd (Zoom.clickColorBtn Zoom.quiet 0 s')))
     = [ Zoom.SlideTo 1 0; Zoom.SlideTo 0 0; Zoom.SlideTo 3 1; Zoom.SlideTo 2 1 ].
Proof.
  set (s := Zoom.replace_gallery [Some "blue"; Some "red"] Samples.mounted_once).
  assert (Hm : (Zoom.main (Zoom.drives Samples.first_listener)
                < List.length (Zoom.instances s))%nat)
    by (cbn; lia).
  assert (Ht : (Zoom.thumbs (Zoom.drives Samples.first_listener)
                < List.length (Zoom.instances s))%nat)
    by (cbn; lia).
  assert (Hsel : Zoom.selectable Zoom.strict (Zoom.page s)).
  { apply plain_selectable. intros col [H|[H|[]]]; injection H as <-; reflexivity. }
  destruct (remount_leaves_stale_listener Zoom.strict s 0 0 Samples.red_button
              Samples.first_listener eq_refl Hsel eq_refl
              (or_introl eq_refl) eq_refl (or_introl eq_refl) Hm Ht)
    as [H1 [_ [H3 [_ [H5 _]]]]].
  split; [exact H1|]. split; [exact H3|]. split; [exact H5 | reflexivity].
Defined.

(** Three mounts of the gallery page leave one pair in the registry. *)
Lemma remount_keeps_one_pair_per_group_witness :
  List.length (Zoom._mounted (Zoom.remount Zoom.strict Zoom.quiet 3 Samples.fresh_page))
  = 1%nat.
Proof.
  destruct (remount_keeps_one_pair_per_group Zoom.strict 2 Samples.fresh_page)
    as [H _].
  - apply plain_selectable. intros col [H|[H|[]]]; injection H as <-; reflexivity.
  - exact H.
Defined.

(** Two mounts of the gallery page leave two listeners on its button. *)
Lemma remount_adds_a_listener_per_mount_witness :
  nth_error (Zoom.click_counts
               (Zoom.remount Zoom.strict Zoom.quiet 2 Samples.fresh_page)) 0
  = Some 2%nat.
Proof.
  destruct (remount_adds_a_listener_per_mount Zoom.strict 2 Samples.fresh_page eq_refl)
    as [_ H].
  exact (H 0%nat 0%nat eq_refl).
Defined.

(** A reload of the sample panel. *)
Lemma loadReviews_binds_fresh_fragment_witness :
  let d' := Reviews.doc (snd (Reviews.loadReviews Samples.healthy Reviews.recent_first
                                (Samples.at_rest Samples.panel))) in
  exists a',
    Reviews.container d' = Some a'
    /\ Reviews.pager (Reviews.content a') = Some true
    /\ option_map Reviews.b_clicks (Reviews.btnWrite (Reviews.content a')) = Some 1%nat.
Proof.
  destruct (loadReviews_binds_fresh_fragment Samples.healthy
              (Samples.at_rest Samples.panel) Reviews.recent_first
              Samples.accepted Samples.the_area eq_refl eq_refl)
    as [_ [a' [H1 [_ [_ [H4 [H5 _]]]]]]].
  exists a'. split; [exact H1|]. split; [exact H4 | exact H5].
Defined.

(** The list served with a success status and with a failure status. *)
Lemma loadReviews_ignores_status_witness :
  Reviews.ok Samples.accepted <> Reviews.ok Samples.refused
  /\ Reviews.loadReviews Samples.refusing Reviews.recent_first
       (Samples.at_rest Samples.panel)
     = Reviews.loadReviews Samples.healthy Reviews.recent_first
         (Samples.at_rest Samples.panel).
Proof.
  split; [discriminate|].
  apply (loadReviews_ignores_status Samples.healthy Samples.refusing
           (Samples.at_rest Samples.panel) Reviews.recent_first
           Samples.accepted Samples.refused); reflexivity.
Defined.

(** A variant switch while the network is down. *)
Lemma setVariant_switches_and_reloads_witness :
  let r := Reviews.setVariant Samples.offline "9" (Samples.at_rest Samples.panel) in
  fst r = Eff.Ok tt
  /\ option_map Net.url (nth_error (Reviews.sent (snd r)) 0)
     = Some "/products/bike/reviews/?variant=9&sort=recent&page=1"
  /\ exists a', Reviews.container (Reviews.doc (snd r)) = Some a'
                /\ Reviews.dataset_variant a' = Some "9".
Proof.
  destruct (setVariant_switches_and_reloads Samples.offline "9"
              (Samples.at_rest Samples.panel) Samples.the_area eq_refl)
    as [H1 [H2 [_ [a' [H4 [H5 _]]]]]].
  split; [exact H1|]. split.
  - cbv zeta. rewrite H2. reflexivity.
  - exists a'. split; [exact H4 | exact H5].
Defined.

(** A submission while the network is down. *)
Lemma submit_rejected_leaves_page_witness :
  let r := Reviews.submitReview Samples.offline (Some "token") Samples.the_form
             (Samples.at_rest Samples.panel) in
  fst r = Eff.Throw Eff.FetchRejected
  /\ Reviews.doc (snd r) = Samples.panel
  /\ Reviews.prevented (snd r) = 1%nat.
Proof.
  cbv zeta.
  rewrite (submit_rejected_leaves_page Samples.offline (Some "token")
             (Samples.at_rest Samples.panel) Samples.the_form eq_refl).
  repeat split.
Defined.

(** A refused review whose JSON body names the error. *)
Lemma submit_refused_shows_error_witness :
  let s := Samples.at_rest Samples.panel in
  let s' := snd (Reviews.submitReview Samples.explaining (Some "token")
                   Samples.the_form s) in
  fst (Reviews.submitReview Samples.explaining (Some "token") Samples.the_form s)
  = Eff.Ok tt
  /\ Reviews.getElementById Reviews.review_form_msg (Reviews.doc s')
     = Some {| Reviews.m_display := "block";
               Reviews.classList := ["text-danger"];
               Reviews.textContent := "Please choose a rating." |}.
Proof.
  destruct (submit_refused_shows_error Samples.explaining (Some "token")
              (Samples.at_rest Samples.panel) Samples.the_form Samples.explained
              eq_refl eq_refl) as [_ [_ [_ H]]].
  destruct (H Samples.blank_msg eq_refl) as [m' [_ [_ [_ [_ [_ [Hok _]]]]]]].
  split; [exact Hok | reflexivity].
Defined.

(** The served container bound twice. *)
Lemma bindHandlers_again_adds_button_listeners_witness :
  Reviews.container (Reviews.bindHandlers Samples.fresh_panel) = Some Samples.bound_area
  /\ exists a',
       Reviews.container (Reviews.bindHandlers (Reviews.bindHandlers Samples.fresh_panel))
       = Some a'
       /\ option_map Reviews.b_clicks (Reviews.btnWrite (Reviews.content a')) = Some 2%nat
       /\ Reviews.ids (Reviews.content a') = Reviews.ids (Reviews.content Samples.bound_area).
Proof.
  split; [reflexivity|].
  rewrite (bindHandlers_again_adds_button_listeners Samples.fresh_panel
             Samples.bound_area eq_refl).
  eexists. split; [reflexivity|]. split; reflexivity.
Defined.

(** The token cookie, alone in the cookie string. *)
Lemma getCookie_reads_the_single_occurrence_witness :
  Reviews.getCookie Samples.unescaped "csrftoken=abc" "csrftoken" = Reviews.Read "abc".
Proof.
  destruct (getCookie_reads_the_single_occurrence Samples.unescaped
              "csrftoken=abc" "csrftoken") as [_ H].
  destruct (H "" "abc" eq_refl) as [_ Hread].
  - intros a b E. apply (f_equal String.length) in E.
    rewrite !string_length_app in E. cbn in E.
    destruct b; [reflexivity | cbn in E; lia].
  - apply Hread. intros [a [b E]]. apply (f_equal String.length) in E.
    rewrite !string_length_app in E. cbn in E. lia.
Defined.
